(** * Webhook ingestion service: storage, security, metrics and HTTP handlers

    A shallow embedding of the TypeScript sources (app/main.ts,
    app/storage.ts, app/security.ts, app/metrics.ts, app/logging_utils.ts,
    app/models.ts and the configuration record of app/config.ts) together
    with the properties stated about them. The built-ins the sources lean on
    are modelled as far as the properties need them: [Number] on strings,
    HMAC-SHA256 of node:crypto, the SQL statements run against SQLite.
    [JSON.parse] is a parameter of the handlers.

    Conventions of the embedding:
    - a JavaScript string is a [string] of bytes (its UTF-8 form, the form in
      which SQLite stores and compares TEXT); strings are taken free of U+0000;
    - a JavaScript number is a [number]: NaN, the two infinities, or a finite
      binary64 value kept as the rational it denotes (the sign of zero is not
      kept); counters are natural numbers (increments below 2^53 are exact);
    - a call that may throw returns an [outcome];
    - module-level mutable variables ([db], the metric counters) are threaded
      explicitly as state. *)

From Stdlib Require Import ZArith QArith Qround List String Ascii Bool Lia.
From Stdlib Require Import Permutation Sorting.Sorted DecimalString.
Import ListNotations.

#[local] Set Warnings "-register-all".

Local Close Scope Q_scope.
Local Open Scope string_scope.
Local Open Scope list_scope.

(** ** Values thrown and results of calls that may throw *)

Module Js.

(** What a [catch (err)] clause can observe: [err instanceof Error] with its
    [message], or some other thrown value. *)
Inductive thrown : Type :=
| ThrownError (message : string)
| ThrownOther.

Inductive outcome (A : Type) : Type :=
| Return (a : A)
| Throw (e : thrown).
Arguments Return {A} a.
Arguments Throw {A} e.

Definition bind {A B : Type} (x : outcome A) (k : A -> outcome B) : outcome B :=
  match x with
  | Return a => k a
  | Throw e => Throw e
  end.

(** [Boolean(s)] for a string, as used by [if (s)], [!s], [s ? a : b]. *)
Definition truthy (s : string) : bool :=
  match s with
  | EmptyString => false
  | String _ _ => true
  end.

(** Truthiness of [string | null | undefined]. *)
Definition truthy_opt (s : option string) : bool :=
  match s with
  | None => false
  | Some s => truthy s
  end.

Fixpoint prefixb (p s : string) : bool :=
  match p, s with
  | EmptyString, _ => true
  | String a p', String b s' => Ascii.eqb a b && prefixb p' s'
  | String _ _, EmptyString => false
  end.

(** [s.includes(needle)] *)
Fixpoint includes (s needle : string) : bool :=
  prefixb needle s ||
  match s with
  | EmptyString => false
  | String _ s' => includes s' needle
  end.

Definition code (c : ascii) : Z := Z.of_N (N_of_ascii c).

End Js.

(** ** JavaScript numbers and [Number(string)] *)

Module JsNumber.

Inductive number : Type :=
| NaN
| PosInfinity
| NegInfinity
| Finite (q : Q).

Definition of_Z (z : Z) : number := Finite (inject_Z z).

Definition isNaN (x : number) : bool :=
  match x with
  | NaN => true
  | _ => false
  end.

(** [x < y]; false as soon as one side is NaN. *)
Definition ltb (x y : number) : bool :=
  match x, y with
  | NaN, _ => false
  | _, NaN => false
  | PosInfinity, _ => false
  | _, NegInfinity => false
  | NegInfinity, _ => true
  | _, PosInfinity => true
  | Finite a, Finite b => negb (Qle_bool b a)
  end.

(** [x > y] *)
Definition gtb (x y : number) : bool := ltb y x.

(** [x <= y] *)
Definition leb (x y : number) : bool :=
  match x, y with
  | NaN, _ => false
  | _, NaN => false
  | _, _ => negb (ltb y x)
  end.

Definition neg (x : number) : number :=
  match x with
  | NaN => NaN
  | PosInfinity => NegInfinity
  | NegInfinity => PosInfinity
  | Finite q => Finite (Qred (Qopp q))
  end.

(** *** Rounding a rational to binary64 (round to nearest, ties to even) *)

(** [2^e <= n/d] for positive [n], [d]. *)
Definition ge_pow2 (n d e : Z) : bool :=
  if (0 <=? e)%Z then (d * 2 ^ e <=? n)%Z else (d <=? n * 2 ^ (- e))%Z.

(** [floor (log2 (n/d))] for positive [n], [d]. *)
Definition ilog2 (n d : Z) : Z :=
  let e0 := (Z.log2 n - Z.log2 d)%Z in
  if ge_pow2 n d e0 then e0 else (e0 - 1)%Z.

Definition dyadic (m p : Z) : Q :=
  if (0 <=? p)%Z then inject_Z (m * 2 ^ p)
  else Qred (Qmake m (Z.to_pos (2 ^ (- p)))).

Definition round64_pos (n d : Z) : number :=
  let e := ilog2 n d in
  let p := Z.max (e - 52) (-1074) in
  let n' := if (0 <=? p)%Z then n else (n * 2 ^ (- p))%Z in
  let d' := if (0 <=? p)%Z then (d * 2 ^ p)%Z else d in
  let q := (n' / d')%Z in
  let r := (n' mod d')%Z in
  let m :=
    if (2 * r <? d')%Z then q
    else if (d' <? 2 * r)%Z then (q + 1)%Z
    else if Z.even q then q else (q + 1)%Z in
  if (971 <? p)%Z || ((p =? 971)%Z && (2 ^ 53 <=? m)%Z) then PosInfinity
  else Finite (dyadic m p).

Definition round64 (x : Q) : number :=
  match Qnum x with
  | Z0 => Finite 0%Q
  | Zpos n => round64_pos (Zpos n) (Zpos (Qden x))
  | Zneg n => neg (round64_pos (Zpos n) (Zpos (Qden x)))
  end.

(** [x + y] on numbers. *)
Definition add (x y : number) : number :=
  match x, y with
  | NaN, _ => NaN
  | _, NaN => NaN
  | PosInfinity, NegInfinity => NaN
  | NegInfinity, PosInfinity => NaN
  | PosInfinity, _ => PosInfinity
  | _, PosInfinity => PosInfinity
  | NegInfinity, _ => NegInfinity
  | _, NegInfinity => NegInfinity
  | Finite a, Finite b => round64 (Qred (a + b)%Q)
  end.

(** *** StringToNumber (ECMA-262 7.1.4.1.1) *)

Definition chars (s : string) : list ascii := list_ascii_of_string s.

Definition is_digit (c : ascii) : bool :=
  ((48 <=? Js.code c) && (Js.code c <=? 57))%Z.

Definition hex_value (c : ascii) : option Z :=
  let n := Js.code c in
  if ((48 <=? n) && (n <=? 57))%Z then Some (n - 48)%Z
  else if ((97 <=? n) && (n <=? 102))%Z then Some (n - 87)%Z
  else if ((65 <=? n) && (n <=? 70))%Z then Some (n - 55)%Z
  else None.

Fixpoint span_digits (s : list ascii) : list ascii * list ascii :=
  match s with
  | c :: s' =>
      if is_digit c then let '(ds, r) := span_digits s' in (c :: ds, r)
      else ([], s)
  | [] => ([], [])
  end.

(** Value of a digit string in base [b]; [None] when a character is not a
    digit of that base. *)
Fixpoint radix_value (b : Z) (acc : Z) (s : list ascii) : option Z :=
  match s with
  | [] => Some acc
  | c :: s' =>
      match hex_value c with
      | Some v => if (v <? b)%Z then radix_value b (b * acc + v)%Z s' else None
      | None => None
      end
  end.

Definition digits_value (ds : list ascii) : Z :=
  match radix_value 10 0 ds with
  | Some v => v
  | None => 0%Z
  end.

(** StrWhiteSpaceChar, each in its UTF-8 form: TAB, LF, VT, FF, CR, SP,
    U+00A0, U+1680, U+2000..U+200A, U+2028, U+2029, U+202F, U+205F, U+3000,
    U+FEFF. *)
Definition ws1 (a : ascii) : bool :=
  let n := Js.code a in
  ((9 <=? n) && (n <=? 13) || (n =? 32))%Z.

Definition ws2 (a b : ascii) : bool :=
  ((Js.code a =? 194) && (Js.code b =? 160))%Z.

Definition ws3 (a b c : ascii) : bool :=
  let x := Js.code a in
  let y := Js.code b in
  let z := Js.code c in
  ((x =? 225) && (y =? 154) && (z =? 128)
   || (x =? 226) && (y =? 128)
      && ((128 <=? z) && (z <=? 138) || (z =? 168) || (z =? 169) || (z =? 175))
   || (x =? 226) && (y =? 129) && (z =? 159)
   || (x =? 227) && (y =? 128) && (z =? 128)
   || (x =? 239) && (y =? 187) && (z =? 191))%Z.

Fixpoint strip_leading (s : list ascii) : list ascii :=
  match s with
  | a :: s1 =>
      if ws1 a then strip_leading s1
      else
        match s1 with
        | b :: s2 =>
            if ws2 a b then strip_leading s2
            else
              match s2 with
              | c :: s3 => if ws3 a b c then strip_leading s3 else s
              | [] => s
              end
        | [] => s
        end
  | [] => []
  end.

(** The same on the reversed string: the last bytes come first. *)
Fixpoint strip_trailing_rev (s : list ascii) : list ascii :=
  match s with
  | c :: s1 =>
      if ws1 c then strip_trailing_rev s1
      else
        match s1 with
        | b :: s2 =>
            if ws2 b c then strip_trailing_rev s2
            else
              match s2 with
              | a :: s3 => if ws3 a b c then strip_trailing_rev s3 else s
              | [] => s
              end
        | [] => s
        end
  | [] => []
  end.

Definition trim (s : list ascii) : list ascii :=
  rev (strip_trailing_rev (rev (strip_leading s))).

(** SignedInteger of an ExponentPart. *)
Definition signed_integer (s : list ascii) : option Z :=
  let body (ds : list ascii) :=
    match ds with
    | [] => None
    | _ => radix_value 10 0 ds
    end in
  match s with
  | "+"%char :: ds => body ds
  | "-"%char :: ds => option_map Z.opp (body ds)
  | _ => body s
  end.

(** Optional ExponentPart, then end of input. *)
Definition exponent_part (s : list ascii) : option Z :=
  match s with
  | [] => Some 0%Z
  | "e"%char :: r => signed_integer r
  | "E"%char :: r => signed_integer r
  | _ => None
  end.

(** The mathematical value [m * 10^e]. *)
Definition decimal_mv (m e : Z) : Q :=
  if (0 <=? e)%Z then inject_Z (m * 10 ^ e)
  else Qred (Qmake m (Z.to_pos (10 ^ (- e)))).

(** StrUnsignedDecimalLiteral *)
Definition unsigned_decimal (s : list ascii) : number :=
  if list_eq_dec ascii_dec s (chars "Infinity") then PosInfinity
  else
    let '(ip, r) := span_digits s in
    match r with
    | "."%char :: r1 =>
        let '(fp, r2) := span_digits r1 in
        match ip, fp with
        | [], [] => NaN
        | _, _ =>
            match exponent_part r2 with
            | Some e =>
                round64 (decimal_mv (digits_value (ip ++ fp))
                                    (e - Z.of_nat (List.length fp)))
            | None => NaN
            end
        end
    | _ =>
        match ip with
        | [] => NaN
        | _ =>
            match exponent_part r with
            | Some e => round64 (decimal_mv (digits_value ip) e)
            | None => NaN
            end
        end
    end.

(** NonDecimalIntegerLiteral: 0b, 0o, 0x prefixes (either case), unsigned. *)
Definition non_decimal (s : list ascii) : option number :=
  let lit (b : Z) (ds : list ascii) :=
    match ds with
    | [] => Some NaN
    | _ =>
        match radix_value b 0 ds with
        | Some v => Some (round64 (inject_Z v))
        | None => Some NaN
        end
    end in
  match s with
  | "0"%char :: "x"%char :: ds => lit 16%Z ds
  | "0"%char :: "X"%char :: ds => lit 16%Z ds
  | "0"%char :: "o"%char :: ds => lit 8%Z ds
  | "0"%char :: "O"%char :: ds => lit 8%Z ds
  | "0"%char :: "b"%char :: ds => lit 2%Z ds
  | "0"%char :: "B"%char :: ds => lit 2%Z ds
  | _ => None
  end.

(** [Number(s)] for a string [s]. *)
Definition Number (s : string) : number :=
  match trim (chars s) with
  | [] => Finite 0%Q
  | t =>
      match non_decimal t with
      | Some x => x
      | None =>
          match t with
          | "+"%char :: u => unsigned_decimal u
          | "-"%char :: u => neg (unsigned_decimal u)
          | _ => unsigned_decimal t
          end
      end
  end.

End JsNumber.

(** ** app/models.ts: the message types *)

Module WebhookMessage.
Record t : Type := mk
  { message_id : string;
    from : string;
    to : string;
    ts : string;
    text : option string }.
End WebhookMessage.

(** [StoredMessage = WebhookMessage & { created_at: string }]; a NULL [text]
    column is read back as [null]. *)
Module StoredMessage.
Record t : Type := mk
  { message_id : string;
    from : string;
    to : string;
    ts : string;
    text : option string;
    created_at : string }.
End StoredMessage.

(** ** The SQLite table behind app/storage.ts

    [CREATE TABLE messages (message_id TEXT PRIMARY KEY, from_msisdn TEXT NOT
    NULL, to_msisdn TEXT NOT NULL, ts TEXT NOT NULL, text TEXT, created_at TEXT
    NOT NULL)] and the statements the module prepares against it. *)

Module Sqlite.

Import Js JsNumber.

Module Row.
Record t : Type := mk
  { message_id : string;
    from_msisdn : string;
    to_msisdn : string;
    ts : string;
    text : option string;
    created_at : string }.
End Row.

(** An open handle: the rows in rowid (insertion) order, and the error every
    statement raises while the backend cannot serve it (file removed, disk
    full, database locked), if any. *)
Record Database : Type := mkDatabase
  { messages : list Row.t;
    failure : option thrown }.

(** [INSERT INTO messages (...) VALUES (?, ?, ?, ?, ?, ?)] *)
Definition insert (d : Database) (r : Row.t) : outcome Database :=
  match failure d with
  | Some e => Throw e
  | None =>
      if existsb (fun x => String.eqb (Row.message_id x) (Row.message_id r))
                 (messages d)
      then Throw (ThrownError "UNIQUE constraint failed: messages.message_id")
      else Return (mkDatabase (messages d ++ [r]) None)
  end.

(** SQL truth values: [None] is NULL. *)
Definition sqlbool : Type := option bool.

Definition sql_and (a b : sqlbool) : sqlbool :=
  match a, b with
  | Some false, _ => Some false
  | _, Some false => Some false
  | Some true, Some true => Some true
  | _, _ => None
  end.

(** A WHERE keeps the rows on which its expression is true. *)
Definition holds (v : sqlbool) : bool :=
  match v with
  | Some true => true
  | _ => false
  end.

(** [LOWER(x)]: SQLite folds the 26 ASCII letters only. *)
Definition lower_ascii (c : ascii) : ascii :=
  if ((65 <=? code c) && (code c <=? 90))%Z
  then ascii_of_N (N_of_ascii c + 32)
  else c.

Fixpoint lower (s : string) : string :=
  match s with
  | EmptyString => EmptyString
  | String c s' => String (lower_ascii c) (lower s')
  end.

(** LIKE reads both operands one UTF-8 character at a time: a lead byte of
    0xC0 or more together with the continuation bytes (0x80..0xBF) after it. *)
Definition uchar : Type := list ascii.

Definition is_continuation (c : ascii) : bool :=
  ((128 <=? code c) && (code c <=? 191))%Z.

Fixpoint take_continuation (s : list ascii) : list ascii * list ascii :=
  match s with
  | c :: s' =>
      if is_continuation c
      then let '(k, r) := take_continuation s' in (c :: k, r)
      else ([], s)
  | [] => ([], [])
  end.

Fixpoint uchars_fuel (fuel : nat) (s : list ascii) : list uchar :=
  match fuel with
  | O => []
  | S fuel' =>
      match s with
      | [] => []
      | c :: s' =>
          if (192 <=? code c)%Z
          then let '(k, r) := take_continuation s' in
               (c :: k) :: uchars_fuel fuel' r
          else [c] :: uchars_fuel fuel' s'
      end
  end.

Definition uchars (s : string) : list uchar :=
  let l := list_ascii_of_string s in uchars_fuel (List.length l) l.

Definition uchar_eqb (a b : uchar) : bool :=
  if list_eq_dec ascii_dec a b then true else false.

(** Equality of two characters under LIKE: ASCII letters match without
    regard to case, everything else exactly. *)
Definition like_char_eqb (p c : uchar) : bool :=
  match p, c with
  | [a], [b] => Ascii.eqb (lower_ascii a) (lower_ascii b)
  | _, _ => uchar_eqb p c
  end.

Definition is_percent (p : uchar) : bool := uchar_eqb p ["%"%char].
Definition is_underscore (p : uchar) : bool := uchar_eqb p ["_"%char].

(** [s LIKE p] with no ESCAPE clause: [%] stands for any run of characters,
    [_] for exactly one. *)
Fixpoint like_match (p : list uchar) (s : list uchar) {struct p} : bool :=
  match p with
  | [] =>
      match s with
      | [] => true
      | _ :: _ => false
      end
  | c :: p' =>
      if is_percent c then
        (fix skip (s : list uchar) : bool :=
           like_match p' s ||
           match s with
           | [] => false
           | _ :: s' => skip s'
           end) s
      else
        match s with
        | [] => false
        | d :: s' => (is_underscore c || like_char_eqb c d) && like_match p' s'
        end
  end.

Definition like (s p : option string) : sqlbool :=
  match s, p with
  | Some s, Some p => Some (like_match (uchars p) (uchars s))
  | _, _ => None
  end.

(** [ORDER BY]: insertion of each row into the rows already ordered; [le a b]
    tells that [a] may come before [b]. *)
Fixpoint insert_sorted {A : Type} (le : A -> A -> bool) (x : A) (l : list A)
  : list A :=
  match l with
  | [] => [x]
  | y :: l' => if le x y then x :: l else y :: insert_sorted le x l'
  end.

Definition order_by {A : Type} (le : A -> A -> bool) (l : list A) : list A :=
  fold_right (insert_sorted le) [] l.

(** A number bound to [LIMIT ?] or [OFFSET ?] must convert to a 64-bit
    integer without loss; otherwise the statement fails. *)
Definition bind_integer (x : number) : outcome Z :=
  match x with
  | Finite q =>
      let z := Qfloor q in
      if Qeq_bool (inject_Z z) q && (- 2 ^ 63 <=? z)%Z && (z <? 2 ^ 63)%Z
      then Return z
      else Throw (ThrownError "datatype mismatch")
  | _ => Throw (ThrownError "datatype mismatch")
  end.

(** [LIMIT n OFFSET k]: a negative [n] means no bound, a negative [k] is 0. *)
Definition limit_offset {A : Type} (n k : Z) (l : list A) : list A :=
  let l' := skipn (Z.to_nat k) l in
  if (n <? 0)%Z then l' else firstn (Z.to_nat n) l'.

(** [ORDER BY ts ASC, message_id ASC] under the BINARY collation. *)
Definition ts_id_asc (a b : Row.t) : bool :=
  match String.compare (Row.ts a) (Row.ts b) with
  | Lt => true
  | Eq => String.leb (Row.message_id a) (Row.message_id b)
  | Gt => false
  end.

(** [ORDER BY ts DESC, message_id DESC] *)
Definition ts_id_desc (a b : Row.t) : bool :=
  match String.compare (Row.ts a) (Row.ts b) with
  | Gt => true
  | Eq => String.leb (Row.message_id b) (Row.message_id a)
  | Lt => false
  end.

(** [SELECT ... FROM messages WHERE w ORDER BY ts ASC, message_id ASC
     LIMIT ? OFFSET ?] with [.all(...)] *)
Definition select_page (d : Database) (w : Row.t -> sqlbool)
  (limit offset : number) : outcome (list Row.t) :=
  match failure d with
  | Some e => Throw e
  | None =>
      bind (bind_integer limit) (fun n =>
      bind (bind_integer offset) (fun k =>
      Return (limit_offset n k
                (order_by ts_id_asc (filter (fun r => holds (w r)) (messages d))))))
  end.

(** [SELECT COUNT( * ) as count FROM messages WHERE w] with [.get(...)] *)
Definition select_count (d : Database) (w : Row.t -> sqlbool) : outcome nat :=
  match failure d with
  | Some e => Throw e
  | None => Return (List.length (filter (fun r => holds (w r)) (messages d)))
  end.

(** [SELECT COUNT(DISTINCT from_msisdn) as count FROM messages] *)
Definition select_count_senders (d : Database) : outcome nat :=
  match failure d with
  | Some e => Throw e
  | None =>
      Return (List.length (nodup string_dec (map Row.from_msisdn (messages d))))
  end.

(** [SELECT from_msisdn, COUNT( * ) as count FROM messages GROUP BY from_msisdn
     ORDER BY count DESC LIMIT 10]. Groups are formed in ascending sender
    order; SQLite leaves the order among equal counts open, here the group
    order is kept. *)
Definition select_per_sender (d : Database) : outcome (list (string * nat)) :=
  match failure d with
  | Some e => Throw e
  | None =>
      let senders :=
        order_by String.leb (nodup string_dec (map Row.from_msisdn (messages d))) in
      let groups :=
        map (fun s =>
               (s, List.length
                     (filter (fun r => String.eqb (Row.from_msisdn r) s)
                             (messages d))))
            senders in
      Return (firstn 10 (order_by (fun a b => Nat.leb (snd b) (snd a)) groups))
  end.

(** [SELECT ts FROM messages ORDER BY ... LIMIT 1] with [.get()]: the first
    row, or [undefined]. *)
Definition select_first_ts (d : Database) (le : Row.t -> Row.t -> bool)
  : outcome (option string) :=
  match failure d with
  | Some e => Throw e
  | None => Return (option_map Row.ts (hd_error (order_by le (messages d))))
  end.

(** [SELECT 1] *)
Definition select_one (d : Database) : outcome unit :=
  match failure d with
  | Some e => Throw e
  | None => Return tt
  end.

End Sqlite.

(** ** app/metrics.ts *)

Module Metrics.

Import Js JsNumber.

(** [Record<string, number>]: own string keys in insertion order. *)
Definition Counter : Type := list (string * nat).

Fixpoint lookup (c : Counter) (k : string) : option nat :=
  match c with
  | [] => None
  | (k', v) :: c' => if String.eqb k' k then Some v else lookup c' k
  end.

(** [c[k] = v]: an existing key keeps its place, a new one goes last. *)
Fixpoint assign (c : Counter) (k : string) (v : nat) : Counter :=
  match c with
  | [] => [(k, v)]
  | (k', v') :: c' =>
      if String.eqb k' k then (k', v) :: c' else (k', v') :: assign c' k v
  end.

(** [x ?? 0] *)
Definition or_zero (x : option nat) : nat :=
  match x with
  | Some v => v
  | None => 0
  end.

(** [x === y] on numbers. *)
Definition same (x y : number) : bool :=
  match x, y with
  | PosInfinity, PosInfinity => true
  | NegInfinity, NegInfinity => true
  | Finite a, Finite b => Qeq_bool a b
  | _, _ => false
  end.

(** [Record<number, number>]; the keys are kept as the numbers they print. *)
Definition Buckets : Type := list (number * nat).

Fixpoint bucket (b : Buckets) (k : number) : option nat :=
  match b with
  | [] => None
  | (k', v) :: b' => if same k' k then Some v else bucket b' k
  end.

Fixpoint set_bucket (b : Buckets) (k : number) (v : nat) : Buckets :=
  match b with
  | [] => [(k, v)]
  | (k', v') :: b' =>
      if same k' k then (k', v) :: b' else (k', v') :: set_bucket b' k v
  end.

Record State : Type := mkState
  { httpRequests : Counter;
    webhookResults : Counter;
    latencyBuckets : Buckets;
    latencyCount : nat;
    latencyTotal : number }.

(** The module-level initialisers. *)
Definition initial : State :=
  {| httpRequests := [];
     webhookResults := [];
     latencyBuckets := [(of_Z 100, 0); (of_Z 500, 0); (PosInfinity, 0)];
     latencyCount := 0;
     latencyTotal := of_Z 0 |}.

Definition Z_to_string (z : Z) : string :=
  DecimalString.NilZero.string_of_int (Z.to_int z).

Definition recordHttpRequest (path : string) (status : Z) (s : State) : State :=
  let key := (path ++ "|" ++ Z_to_string status)%string in
  {| httpRequests := assign (httpRequests s) key
                            (or_zero (lookup (httpRequests s) key) + 1);
     webhookResults := webhookResults s;
     latencyBuckets := latencyBuckets s;
     latencyCount := latencyCount s;
     latencyTotal := latencyTotal s |}.

Definition recordWebhookResult (result : string) (s : State) : State :=
  {| httpRequests := httpRequests s;
     webhookResults := assign (webhookResults s) result
                              (or_zero (lookup (webhookResults s) result) + 1);
     latencyBuckets := latencyBuckets s;
     latencyCount := latencyCount s;
     latencyTotal := latencyTotal s |}.

Definition recordLatency (ms : number) (s : State) : State :=
  let le :=
    if leb ms (of_Z 100) then of_Z 100
    else if leb ms (of_Z 500) then of_Z 500
    else PosInfinity in
  {| httpRequests := httpRequests s;
     webhookResults := webhookResults s;
     latencyBuckets := set_bucket (latencyBuckets s) le
                                  (or_zero (bucket (latencyBuckets s) le) + 1);
     latencyCount := latencyCount s + 1;
     latencyTotal := add (latencyTotal s) ms |}.

(** The lines of the exposition, before they are joined with newlines. *)
Inductive label : Type :=
| PlusInf
| Bound (le : number).

Inductive line : Type :=
| http_requests_total (path status : string) (count : nat)
| webhook_requests_total (result : string) (count : nat)
| request_latency_ms_bucket (le : label) (cumulative : nat)
| request_latency_ms_count (count : nat)
| request_latency_ms_sum (total : number).

(** [key.split("|")] *)
Fixpoint split_bar (cur : string) (s : string) : list string :=
  match s with
  | EmptyString => [cur]
  | String c s' =>
      if Ascii.eqb c "|"%char then cur :: split_bar EmptyString s'
      else split_bar (cur ++ String c EmptyString)%string s'
  end.

(** The comparator given to [sort]: [a === Infinity ? 1 : b === Infinity ?
    -1 : a - b]. *)
Definition bucket_order (a b : number) : number :=
  if same a PosInfinity then of_Z 1
  else if same b PosInfinity then of_Z (-1)
  else add a (neg b).

(** [Array.prototype.sort] with that comparator: [a] stays before [b] unless
    the comparator is positive. *)
Definition sorted_bounds (keys : list number) : list number :=
  Sqlite.order_by (fun a b => negb (gtb (bucket_order a b) (of_Z 0))) keys.

(** The loop over the sorted bounds with its running sum. *)
Fixpoint bucket_lines (b : Buckets) (cumulative : nat) (bounds : list number)
  : list line :=
  match bounds with
  | [] => []
  | le :: rest =>
      let cumulative := cumulative + or_zero (bucket b le) in
      let lbl := if same le PosInfinity then PlusInf else Bound le in
      request_latency_ms_bucket lbl cumulative :: bucket_lines b cumulative rest
  end.

Definition renderMetrics (s : State) : list line :=
  map (fun '(key, count) =>
         let parts := split_bar EmptyString key in
         http_requests_total (nth 0 parts EmptyString) (nth 1 parts EmptyString)
                             count)
      (httpRequests s)
  ++ map (fun '(result, count) => webhook_requests_total result count)
         (webhookResults s)
  ++ bucket_lines (latencyBuckets s) 0
                  (sorted_bounds (map fst (latencyBuckets s)))
  ++ [request_latency_ms_count (latencyCount s);
      request_latency_ms_sum (latencyTotal s)].

End Metrics.

(** ** Process state and the monad of the handlers *)

Module Runtime.

Import Js JsNumber.

Inductive LogLevel : Type := DEBUG | INFO | ERROR.

(** [WebhookLogExtras] as the webhook handler fills it. *)
Record WebhookLogExtras : Type := mkExtras
  { x_message_id : option string;
    x_dup : bool;
    x_result : string }.

(** What reaches the console. *)
Inductive logged : Type :=
| request_line (level : LogLevel) (request_id method path : string)
    (status : Z) (latency_ms : number) (extras : option WebhookLogExtras)
| console_error (label : string) (context : list string) (err : thrown).

Record World : Type := mkWorld
  { db : option Sqlite.Database;
    metrics : Metrics.State;
    console : list logged }.

Definition M (A : Type) : Type := World -> outcome A * World.

Definition ret {A : Type} (a : A) : M A := fun w => (Return a, w).

Definition throw {A : Type} (e : thrown) : M A := fun w => (Throw e, w).

Definition mbind {A B : Type} (m : M A) (k : A -> M B) : M B :=
  fun w =>
    match m w with
    | (Return a, w') => k a w'
    | (Throw e, w') => (Throw e, w')
    end.

(** [try { m } catch (err) { h err }] *)
Definition try_catch {A : Type} (m : M A) (h : thrown -> M A) : M A :=
  fun w =>
    match m w with
    | (Return a, w') => (Return a, w')
    | (Throw e, w') => h e w'
    end.

(** A call into a library whose result depends on no state. *)
Definition lift {A : Type} (x : outcome A) : M A := fun w => (x, w).

Definition get_db : M (option Sqlite.Database) := fun w => (Return (db w), w).

Definition put_db (d : Sqlite.Database) : M unit :=
  fun w => (Return tt, mkWorld (Some d) (metrics w) (console w)).

Definition log (l : logged) : M unit :=
  fun w => (Return tt, mkWorld (db w) (metrics w) (console w ++ [l])).

Definition update_metrics (f : Metrics.State -> Metrics.State) : M unit :=
  fun w => (Return tt, mkWorld (db w) (f (metrics w)) (console w)).

End Runtime.

Declare Scope js_scope.
Delimit Scope js_scope with js.
Notation "x <- m ;; k" := (Runtime.mbind m (fun x => k))
  (at level 61, m at next level, right associativity) : js_scope.
Notation "m ;;; k" := (Runtime.mbind m (fun _ => k))
  (at level 61, right associativity) : js_scope.

(** ** app/storage.ts *)

Module Storage.

Import Js JsNumber Runtime.
Local Open Scope js_scope.

Definition getDb : M Sqlite.Database :=
  d <- get_db ;;
  match d with
  | None => throw (ThrownError "Database not initialized")
  | Some database => ret database
  end.

Module MessageFilters.
Record t : Type := mk
  { limit : number;
    offset : number;
    from : option string;
    since : option string;
    q : option string }.
End MessageFilters.

Record InsertResult : Type := mkInsertResult
  { created : bool;
    dup : bool }.

(** [now] is the value of [new Date().toISOString()] at the call. *)
Definition insertMessage (message : WebhookMessage.t) (now : string)
  : M InsertResult :=
  database <- getDb ;;
  try_catch
    (database' <-
       lift (Sqlite.insert database
               (Sqlite.Row.mk (WebhookMessage.message_id message)
                              (WebhookMessage.from message)
                              (WebhookMessage.to message)
                              (WebhookMessage.ts message)
                              (WebhookMessage.text message)
                              now)) ;;
     put_db database' ;;;
     ret (mkInsertResult true false))
    (fun err =>
       match err with
       | ThrownError message =>
           if includes message "UNIQUE constraint failed: messages.message_id"
           then ret (mkInsertResult false true)
           else throw err
       | ThrownOther => throw err
       end).

Record ListResult : Type := mkListResult
  { data : list StoredMessage.t;
    total : nat }.

(** The clauses pushed for the filters that are truthy, in source order. *)
Definition clauses (filters : MessageFilters.t)
  : list (Sqlite.Row.t -> Sqlite.sqlbool) :=
  (match MessageFilters.from filters with
   | Some f =>
       if truthy f
       then [fun r => Some (String.eqb (Sqlite.Row.from_msisdn r) f)]
       else []
   | None => []
   end)
  ++ (match MessageFilters.since filters with
      | Some s =>
          if truthy s then [fun r => Some (String.leb s (Sqlite.Row.ts r))]
          else []
      | None => []
      end)
  ++ (match MessageFilters.q filters with
      | Some q =>
          if truthy q
          then [fun r =>
                  Sqlite.like (option_map Sqlite.lower (Sqlite.Row.text r))
                              (Some ("%" ++ Sqlite.lower q ++ "%")%string)]
          else []
      | None => []
      end).

(** [WHERE c1 AND c2 AND ...], or no WHERE at all without clauses. *)
Definition where_ (cs : list (Sqlite.Row.t -> Sqlite.sqlbool))
  (r : Sqlite.Row.t) : Sqlite.sqlbool :=
  fold_left (fun acc c => Sqlite.sql_and acc (c r)) cs (Some true).

Definition stored (r : Sqlite.Row.t) : StoredMessage.t :=
  StoredMessage.mk (Sqlite.Row.message_id r) (Sqlite.Row.from_msisdn r)
                   (Sqlite.Row.to_msisdn r) (Sqlite.Row.ts r)
                   (Sqlite.Row.text r) (Sqlite.Row.created_at r).

Definition listMessages (filters : MessageFilters.t) : M ListResult :=
  database <- getDb ;;
  let w := where_ (clauses filters) in
  rawRows <-
    try_catch
      (lift (Sqlite.select_page database w (MessageFilters.limit filters)
                                (MessageFilters.offset filters)))
      (fun err => log (console_error "listMessages SQL error" ["sql"; "params"] err) ;;;
                  throw err) ;;
  let data := map stored rawRows in
  totalRow <-
    try_catch
      (lift (Sqlite.select_count database w))
      (fun err => log (console_error "count SQL error" ["countSql"; "params"] err) ;;;
                  throw err) ;;
  ret (mkListResult data totalRow).

Record Stats : Type := mkStats
  { total_messages : nat;
    senders_count : nat;
    messages_per_sender : list (string * nat);
    first_message_ts : option string;
    last_message_ts : option string }.

Definition getStats : M Stats :=
  database <- getDb ;;
  totalRow <- lift (Sqlite.select_count database (fun _ => Some true)) ;;
  senderRow <-
    try_catch
      (lift (Sqlite.select_count_senders database))
      (fun err => log (console_error "getStats senderRow SQL error" ["sql"] err) ;;;
                  throw err) ;;
  rawMessagesPerSender <- lift (Sqlite.select_per_sender database) ;;
  firstRow <-
    try_catch
      (lift (Sqlite.select_first_ts database Sqlite.ts_id_asc))
      (fun err => log (console_error "getStats firstRow SQL error" ["sql"] err) ;;;
                  throw err) ;;
  lastRow <-
    try_catch
      (lift (Sqlite.select_first_ts database Sqlite.ts_id_desc))
      (fun err => log (console_error "getStats lastRow SQL error" ["sql"] err) ;;;
                  throw err) ;;
  ret (mkStats totalRow senderRow rawMessagesPerSender firstRow lastRow).

Definition pingDb : M bool :=
  database <- getDb ;;
  try_catch (lift (Sqlite.select_one database) ;;; ret true)
            (fun _ => ret false).

(** *** The path of the database file *)

Definition string_rev (s : string) : string :=
  string_of_list_ascii (rev (list_ascii_of_string s)).

(** [s] ends with [suffix], the 26 ASCII letters compared without regard to
    case (the [i] flag of a regular expression folds no character beyond
    ASCII onto an ASCII one). *)
Definition ends_with_ci (s suffix : string) : bool :=
  prefixb (string_rev (Sqlite.lower suffix)) (string_rev (Sqlite.lower s)).

(** [/:(?:memory|mem)$/i.test(url) || /::memory/.test(url) ||
    /:memory:/.test(url)] *)
Definition mentions_memory (url : string) : bool :=
  ends_with_ci url ":memory" || ends_with_ci url ":mem"
  || includes url "::memory" || includes url ":memory:".

Definition is_slash (c : ascii) : bool := Ascii.eqb c "/"%char.

Definition is_backslash (c : ascii) : bool := Ascii.eqb c (ascii_of_nat 92).

(** After a first character that is no slash: the run of such characters
    must end on a [/]. *)
Fixpoint run_then_slash (s : string) : bool :=
  match s with
  | EmptyString => false
  | String c s' =>
      if is_slash c then true
      else if is_backslash c then false
      else run_then_slash s'
  end.

(** The test of the relative-path pattern: one or more characters other than
    slash and backslash, then a slash, then anything. *)
Definition looks_relative (s : string) : bool :=
  match s with
  | EmptyString => false
  | String c s' => negb (is_slash c) && negb (is_backslash c) && run_then_slash s'
  end.

Fixpoint drop_slashes (s : string) : string :=
  match s with
  | String c s' => if is_slash c then drop_slashes s' else s
  | EmptyString => EmptyString
  end.

(** [s.replace(/^\/+/u, "/")] *)
Definition collapse_leading_slashes (s : string) : string :=
  match s with
  | String c s' => if is_slash c then String "/"%char (drop_slashes s') else s
  | EmptyString => EmptyString
  end.

Definition sqlitePathFromUrl (url : string) : string :=
  if negb (truthy url) then ":memory:"
  else if mentions_memory url then ":memory:"
  else if prefixb "sqlite:" url then
    let stripped := String.substring 7 (String.length url - 7) url in
    if prefixb "./" stripped || looks_relative stripped then stripped
    else collapse_leading_slashes stripped
  else url.

End Storage.

(** ** node:crypto: HMAC-SHA256 (RFC 2104 over FIPS 180-4), hex digest *)

Module NodeCrypto.

Local Open Scope Z_scope.

Definition mask32 : Z := 4294967295.

Definition add32 (x y : Z) : Z := Z.land (x + y) mask32.

Definition rotr (n x : Z) : Z :=
  Z.land (Z.lor (Z.shiftr x n) (Z.shiftl x (32 - n))) mask32.

Definition not32 (x : Z) : Z := Z.lxor x mask32.

Definition Ch (x y z : Z) : Z := Z.lxor (Z.land x y) (Z.land (not32 x) z).

Definition Maj (x y z : Z) : Z :=
  Z.lxor (Z.lxor (Z.land x y) (Z.land x z)) (Z.land y z).

Definition Sigma0 (x : Z) : Z := Z.lxor (Z.lxor (rotr 2 x) (rotr 13 x)) (rotr 22 x).
Definition Sigma1 (x : Z) : Z := Z.lxor (Z.lxor (rotr 6 x) (rotr 11 x)) (rotr 25 x).
Definition sigma0 (x : Z) : Z := Z.lxor (Z.lxor (rotr 7 x) (rotr 18 x)) (Z.shiftr x 3).
Definition sigma1 (x : Z) : Z := Z.lxor (Z.lxor (rotr 17 x) (rotr 19 x)) (Z.shiftr x 10).

Definition K : list Z :=
  [1116352408; 1899447441; 3049323471; 3921009573; 961987163; 1508970993;
   2453635748; 2870763221; 3624381080; 310598401; 607225278; 1426881987;
   1925078388; 2162078206; 2614888103; 3248222580; 3835390401; 4022224774;
   264347078; 604807628; 770255983; 1249150122; 1555081692; 1996064986;
   2554220882; 2821834349; 2952996808; 3210313671; 3336571891; 3584528711;
   113926993; 338241895; 666307205; 773529912; 1294757372; 1396182291;
   1695183700; 1986661051; 2177026350; 2456956037; 2730485921; 2820302411;
   3259730800; 3345764771; 3516065817; 3600352804; 4094571909; 275423344;
   430227734; 506948616; 659060556; 883997877; 958139571; 1322822218;
   1537002063; 1747873779; 1955562222; 2024104815; 2227730452; 2361852424;
   2428436474; 2756734187; 3204031479; 3329325298].

(** The eight working variables, also the chaining value. *)
Record hash : Type := mkHash
  { ha : Z; hb : Z; hc : Z; hd : Z; he : Z; hf : Z; hg : Z; hh : Z }.

Definition H0 : hash :=
  mkHash 1779033703 3144134277 1013904242 2773480762
         1359893119 2600822924 528734635 1541459225.

(** The message schedule, newest word first: [w] holds W(t-1), W(t-2), ... *)
Fixpoint extend (n : nat) (w : list Z) : list Z :=
  match n with
  | O => w
  | S n' =>
      let x := add32 (add32 (sigma1 (nth 1 w 0)) (nth 6 w 0))
                     (add32 (sigma0 (nth 14 w 0)) (nth 15 w 0)) in
      extend n' (x :: w)
  end.

Definition schedule (block : list Z) : list Z := rev (extend 48 (rev block)).

Definition round (s : hash) (kw : Z * Z) : hash :=
  let t1 := add32 (add32 (add32 (hh s) (Sigma1 (he s)))
                         (add32 (Ch (he s) (hf s) (hg s)) (fst kw)))
                  (snd kw) in
  let t2 := add32 (Sigma0 (ha s)) (Maj (ha s) (hb s) (hc s)) in
  mkHash (add32 t1 t2) (ha s) (hb s) (hc s) (add32 (hd s) t1) (he s) (hf s) (hg s).

Definition compress (h : hash) (block : list Z) : hash :=
  let s := fold_left round (combine K (schedule block)) h in
  mkHash (add32 (ha h) (ha s)) (add32 (hb h) (hb s)) (add32 (hc h) (hc s))
         (add32 (hd h) (hd s)) (add32 (he h) (he s)) (add32 (hf h) (hf s))
         (add32 (hg h) (hg s)) (add32 (hh h) (hh s)).

(** Big-endian bytes of [x], [n] of them. *)
Fixpoint be_bytes (n : nat) (x : Z) : list Z :=
  match n with
  | O => []
  | S n' => Z.land (Z.shiftr x (8 * Z.of_nat n')) 255 :: be_bytes n' x
  end.

Definition pad (msg : list Z) : list Z :=
  let len := Z.of_nat (List.length msg) in
  let zeros := Z.to_nat ((55 - len) mod 64) in
  msg ++ [128] ++ repeat 0 zeros ++ be_bytes 8 (8 * len).

Fixpoint words (fuel : nat) (bytes : list Z) : list Z :=
  match fuel with
  | O => []
  | S fuel' =>
      match bytes with
      | a :: b :: c :: d :: rest =>
          (Z.shiftl a 24 + Z.shiftl b 16 + Z.shiftl c 8 + d) :: words fuel' rest
      | _ => []
      end
  end.

Fixpoint blocks (fuel : nat) (h : hash) (ws : list Z) : hash :=
  match fuel with
  | O => h
  | S fuel' =>
      match ws with
      | [] => h
      | _ => blocks fuel' (compress h (firstn 16 ws)) (skipn 16 ws)
      end
  end.

Definition digest_words (h : hash) : list Z :=
  [ha h; hb h; hc h; hd h; he h; hf h; hg h; hh h].

Definition sha256 (msg : list Z) : list Z :=
  let bytes := pad msg in
  let ws := words (List.length bytes) bytes in
  List.concat (map (be_bytes 4) (digest_words (blocks (List.length ws) H0 ws))).

Definition hmac_sha256 (key msg : list Z) : list Z :=
  let k0 := if 64 <? Z.of_nat (List.length key) then sha256 key else key in
  let k := k0 ++ repeat 0 (64 - List.length k0)%nat in
  sha256 (map (Z.lxor 92) k ++ sha256 (map (Z.lxor 54) k ++ msg)).

Definition hex_digit (x : Z) : ascii :=
  ascii_of_N (Z.to_N (if x <? 10 then 48 + x else 87 + x)).

Fixpoint hex (bytes : list Z) : string :=
  match bytes with
  | [] => EmptyString
  | b :: rest =>
      String (hex_digit (Z.shiftr b 4)) (String (hex_digit (Z.land b 15)) (hex rest))
  end.

Definition bytes_of (s : string) : list Z := map Js.code (list_ascii_of_string s).

(** [createHmac("sha256", key).update(body).digest("hex")] *)
Definition createHmac_sha256_hex (key body : string) : string :=
  hex (hmac_sha256 (bytes_of key) (bytes_of body)).

End NodeCrypto.

Arguments NodeCrypto.createHmac_sha256_hex : simpl never.

(** ** app/security.ts

    The strings compared here are a hex digest and the value of an HTTP
    header, which Node hands over one code unit per byte: [length] and
    [charCodeAt] act on the bytes. *)

Module Security.

Import Js.

Definition computeHmac (secret body : string) : string :=
  NodeCrypto.createHmac_sha256_hex secret body.

(** The [for] loop of [timingSafeEqualHex], index [i] standing at the heads
    of [a] and [b]. [charCodeAt] past the end is NaN, which [^] takes as 0.
    The operands stay below 2^16, where the 32-bit conversions of [^] and
    [|] change nothing. *)
Fixpoint mismatch_loop (a b : string) (mismatch : Z) : Z :=
  match a with
  | EmptyString => mismatch
  | String x a' =>
      match b with
      | String y b' =>
          mismatch_loop a' b' (Z.lor mismatch (Z.lxor (code x) (code y)))
      | EmptyString =>
          mismatch_loop a' EmptyString (Z.lor mismatch (Z.lxor (code x) 0))
      end
  end.

Definition timingSafeEqualHex (a b : string) : bool :=
  if negb (Nat.eqb (String.length a) (String.length b)) then false
  else (mismatch_loop a b 0 =? 0)%Z.

Definition isValidSignature (provided secret : option string)
  (rawBody : string) : bool :=
  match secret, provided with
  | Some s, Some p =>
      if negb (truthy s) || negb (truthy p) then false
      else timingSafeEqualHex (computeHmac s rawBody) p
  | _, _ => false
  end.

End Security.

(** ** JSON values, as [JSON.parse] returns them *)

Module Json.

Inductive value : Type :=
| Null
| Bool (b : bool)
| Num (n : JsNumber.number)
| Str (s : string)
| Arr (items : list value)
| Obj (fields : list (string * value)).

(** [o[k]] on a parsed object; [None] is [undefined]. *)
Fixpoint property (fields : list (string * value)) (k : string)
  : option value :=
  match fields with
  | [] => None
  | (k', v) :: rest => if String.eqb k' k then Some v else property rest k
  end.

End Json.

(** ** app/models.ts: [webhookMessageSchema] *)

Module Models.

Import Js.

Definition digit (c : ascii) : bool := JsNumber.is_digit c.

Fixpoint all_digits (s : string) : bool :=
  match s with
  | EmptyString => true
  | String c s' => digit c && all_digits s'
  end.

(** [/^\+\d+$/] *)
Definition phone_re (s : string) : bool :=
  match s with
  | String "+"%char (String c s') => digit c && all_digits s'
  | _ => false
  end.

(** One character of the timestamp pattern: [None] is [\d]. *)
Fixpoint shape (pat : list (option ascii)) (s : string) : bool :=
  match pat, s with
  | [], EmptyString => true
  | None :: pat', String c s' => digit c && shape pat' s'
  | Some k :: pat', String c s' => Ascii.eqb k c && shape pat' s'
  | _, _ => false
  end.

(** [/^\d{4}-\d{2}-\d{2}T\d{2}:\d{2}:\d{2}Z$/] *)
Definition iso_utc_re (s : string) : bool :=
  shape [None; None; None; None; Some "-"%char; None; None; Some "-"%char;
         None; None; Some "T"%char; None; None; Some ":"%char; None; None;
         Some ":"%char; None; None; Some "Z"%char] s.

(** [s.length]: UTF-16 code units of a string held in UTF-8 form; a four-byte
    character takes two. *)
Definition utf16_length (s : string) : nat :=
  fold_right (fun (u : Sqlite.uchar) n =>
                (if (4 <=? List.length u)%nat then 2 else 1) + n)
             0 (Sqlite.uchars s).

Inductive issue : Type :=
| invalid_type (path : list string)
| too_small (path : list string) (message : string)
| too_big (path : list string)
| invalid_string (path : list string) (message : string).

(** [z.string()] followed by one refinement. *)
Definition string_field (path : string) (v : option Json.value)
  (check : string -> bool) (bad : issue) : string + list issue :=
  match v with
  | Some (Json.Str s) => if check s then inl s else inr [bad]
  | _ => inr [invalid_type [path]]
  end.

Definition issues_of {A : Type} (r : A + list issue) : list issue :=
  match r with
  | inl _ => []
  | inr l => l
  end.

(** [webhookMessageSchema.safeParse(bodyJson)]: every field is checked and
    the issues of all of them are collected; unknown keys are dropped. *)
Definition safeParse (bodyJson : Json.value)
  : WebhookMessage.t + list issue :=
  match bodyJson with
  | Json.Obj fields =>
      let message_id :=
        string_field "message_id" (Json.property fields "message_id")
          (fun s => (1 <=? utf16_length s)%nat)
          (too_small ["message_id"] "message_id required") in
      let from :=
        string_field "from" (Json.property fields "from") phone_re
          (invalid_string ["from"] "must start with + followed by digits") in
      let to :=
        string_field "to" (Json.property fields "to") phone_re
          (invalid_string ["to"] "must start with + followed by digits") in
      let ts :=
        string_field "ts" (Json.property fields "ts") iso_utc_re
          (invalid_string ["ts"] "ts must be ISO-8601 with Z") in
      let text : option string + list issue :=
        match Json.property fields "text" with
        | None => inl None
        | Some (Json.Str s) =>
            if (utf16_length s <=? 4096)%nat then inl (Some s)
            else inr [too_big ["text"]]
        | Some _ => inr [invalid_type ["text"]]
        end in
      match message_id, from, to, ts, text with
      | inl i, inl f, inl t, inl s, inl x => inl (WebhookMessage.mk i f t s x)
      | _, _, _, _, _ =>
          inr (issues_of message_id ++ issues_of from ++ issues_of to
               ++ issues_of ts ++ issues_of text)
      end
  | _ => inr [invalid_type []]
  end.

End Models.

(** ** app/config.ts *)

Module Config.

Record AppConfig : Type := mkAppConfig
  { databaseUrl : string;
    webhookSecret : option string;
    logLevel : Runtime.LogLevel }.

(** [Bun.env]: the value of an environment variable, if it is set. *)
Definition Env : Type := string -> option string.

Definition DEFAULT_DB_URL : string := "sqlite:////data/app.db".

(** [s.trim()]: white space and line terminators off both ends. *)
Definition trim (s : string) : string :=
  string_of_list_ascii (JsNumber.trim (list_ascii_of_string s)).

Definition upper_ascii (c : ascii) : ascii :=
  if ((97 <=? Js.code c) && (Js.code c <=? 122))%Z
  then ascii_of_N (N_of_ascii c - 32)
  else c.

(** [s.toUpperCase()] as far as the comparison with "DEBUG" can see: no
    character beyond ASCII has D, E, B, U or G as its upper case, so only
    the 26 ASCII letters are mapped. *)
Fixpoint toUpperCase (s : string) : string :=
  match s with
  | EmptyString => EmptyString
  | String c s' => String (upper_ascii c) (toUpperCase s')
  end.

Definition loadConfig (env : Env) : AppConfig :=
  let databaseUrl :=
    trim (match env "DATABASE_URL" with
          | Some v => v
          | None => DEFAULT_DB_URL
          end) in
  let secret := option_map trim (env "WEBHOOK_SECRET") in
  let rawLogLevel :=
    toUpperCase (match env "LOG_LEVEL" with
                 | Some v => v
                 | None => "INFO"
                 end) in
  let logLevel :=
    if String.eqb rawLogLevel "DEBUG" then Runtime.DEBUG else Runtime.INFO in
  mkAppConfig databaseUrl
    (match secret with
     | Some s =>
         if Js.truthy s && (0 <? String.length s)%nat then Some s else None
     | None => None
     end)
    logLevel.

End Config.

(** ** app/logging_utils.ts *)

Module Logging.

Import Runtime.

Definition levelOrder (l : LogLevel) : nat :=
  match l with
  | DEBUG => 0
  | INFO => 1
  | ERROR => 2
  end.

(** [logJSON(level, payload, logLevel)]: the line is dropped when [level]
    ranks below [logLevel]. *)
Definition logJSON (level : LogLevel) (payload : LogLevel -> logged)
  (logLevel : LogLevel) : M unit :=
  if (levelOrder level <? levelOrder logLevel)%nat then ret tt
  else log (payload level).

Definition logRequest (logLevel : LogLevel)
  (request_id method path : string) (status : Z)
  (latency_ms : JsNumber.number) (extras : option WebhookLogExtras) : M unit :=
  logJSON INFO
          (fun level =>
             request_line level request_id method path status latency_ms extras)
          logLevel.

End Logging.

(** ** app/main.ts *)

Module Main.

Import Js JsNumber Runtime Config Storage.

(** [Math.round(x)]: the nearest integer, halves upwards. *)
Definition Math_round (x : number) : number :=
  match x with
  | Finite q => of_Z (Qfloor (q + (1 # 2))%Q)
  | _ => x
  end.

(** What [res.json(...)] or [res.send(...)] is given. *)
Inductive body : Type :=
| detail (message : string)
| status_ok
| zod_format (issues : list Models.issue)
| page (data : list StoredMessage.t) (total : nat) (limit offset : number)
| stats (s : Stats)
| status_live
| status_ready
| status_not_ready (db secret : bool)
| exposition (lines : list Metrics.line).

Record Response : Type := mkResponse
  { status : Z;
    sent : body }.

(** What the runtime supplies during one request: [crypto.randomUUID()],
    [req.method], [performance.now() - start] when [finalize] runs, and
    [new Date().toISOString()] at the insert. *)
Record Call : Type := mkCall
  { requestId : string;
    method : string;
    latency : number;
    now : string }.

(** [url.searchParams]: the decoded pairs of the query string, in order. *)
Definition SearchParams : Type := list (string * string).

(** [searchParams.get(name)]: the first value, or [null]. *)
Fixpoint get (params : SearchParams) (name : string) : option string :=
  match params with
  | [] => None
  | (k, v) :: rest => if String.eqb k name then Some v else get rest name
  end.

Definition limit_offset_error : Response :=
  mkResponse 422 (detail "limit must be 1-100 and offset must be >=0").

Definition since_error : Response := mkResponse 422 (detail "invalid since").

(** [MessagesQuery] has the fields of [MessageFilters]; the value is passed
    to [listMessages] as it is. *)
Definition parseMessagesQuery (url : SearchParams)
  : MessageFilters.t + Response :=
  let limit := get url "limit" in
  let offset := get url "offset" in
  let from := get url "from" in
  let since := get url "since" in
  let q := get url "q" in
  let limitNum :=
    match limit with
    | Some l => if truthy l then Number l else of_Z 50
    | None => of_Z 50
    end in
  let offsetNum :=
    match offset with
    | Some o => if truthy o then Number o else of_Z 0
    | None => of_Z 0
    end in
  if isNaN limitNum
     || ltb limitNum (of_Z 1)
     || gtb limitNum (of_Z 100)
     || isNaN offsetNum
     || ltb offsetNum (of_Z 0)
  then inr limit_offset_error
  else
    match since with
    | Some s =>
        if truthy s && negb (Models.iso_utc_re s) then inr since_error
        else inl (MessageFilters.mk limitNum offsetNum from since q)
    | None => inl (MessageFilters.mk limitNum offsetNum from since q)
    end.

(** [err instanceof Error ? err.message : "unknown error"] *)
Definition error_message (err : thrown) : string :=
  match err with
  | ThrownError message => message
  | ThrownOther => "unknown error"
  end.

Section Handlers.

Variable config : AppConfig.

(** [JSON.parse]; [None] when it throws. *)
Variable JSON_parse : string -> option Json.value.

(** The [finalize] closure of the handlers; [extras] is given by the webhook
    handler only. *)
Definition finalize (call : Call) (path : string) (status : Z)
  (extras : option WebhookLogExtras) (w : World) : World :=
  let w1 := mkWorld (db w)
                    (Metrics.recordLatency (latency call)
                       (Metrics.recordHttpRequest path status (metrics w)))
                    (console w) in
  snd (Logging.logRequest (logLevel config) (requestId call) (method call) path
         status (Math_round (latency call)) extras w1).

(** What a POST /webhook request carries: the [x-signature] header and the
    raw body decoded as UTF-8. *)
Record WebhookRequest : Type := mkWebhookRequest
  { x_signature : option string;
    rawBody : string }.

(** The locals [status], [result], [dup], [messageId] as [finalize] finds
    them. *)
Record Locals : Type := mkLocals
  { l_status : Z;
    l_result : string;
    l_dup : bool;
    l_messageId : option string }.

Definition webhook_steps (req : WebhookRequest) (call : Call) (w : World)
  : Response * Locals * World :=
  if negb (truthy_opt (webhookSecret config)) then
    (mkResponse 503 (detail "service not ready"),
     mkLocals 503 "secret_missing" false None, w)
  else if negb (Security.isValidSignature
                  (x_signature req) (webhookSecret config) (rawBody req)) then
    (mkResponse 401 (detail "invalid signature"),
     mkLocals 401 "invalid_signature" false None, w)
  else
    match JSON_parse (rawBody req) with
    | None =>
        (mkResponse 422 (detail "invalid json"),
         mkLocals 422 "validation_error" false None, w)
    | Some bodyJson =>
        match Models.safeParse bodyJson with
        | inr issues =>
            (mkResponse 422 (zod_format issues),
             mkLocals 422 "validation_error" false None, w)
        | inl msg =>
            let messageId := Some (WebhookMessage.message_id msg) in
            match insertMessage msg (now call) w with
            | (Return r, w') =>
                let result := if dup r then "duplicate" else "created" in
                (mkResponse 200 status_ok,
                 mkLocals 200 result (dup r) messageId,
                 snd (update_metrics (Metrics.recordWebhookResult result) w'))
            | (Throw err, w') =>
                (mkResponse 500 (detail (error_message err)),
                 mkLocals 500 "error" false messageId, w')
            end
        end
    end.

(** [app.post("/webhook", ...)] *)
Definition webhook (req : WebhookRequest) (call : Call) : M Response :=
  fun w =>
    let '(res, locals, w1) := webhook_steps req call w in
    (Return res,
     finalize call "/webhook" (l_status locals)
              (Some (mkExtras (l_messageId locals) (l_dup locals)
                              (l_result locals)))
              w1).

(** [app.get("/health/live", ...)] *)
Definition health_live : M Response := ret (mkResponse 200 status_live).

(** [app.get("/health/ready", ...)] *)
Definition health_ready : M Response :=
  mbind pingDb (fun healthyDb =>
  let hasSecret := truthy_opt (webhookSecret config) in
  if healthyDb && hasSecret then ret (mkResponse 200 status_ready)
  else ret (mkResponse 503 (status_not_ready healthyDb hasSecret))).

(** [app.get("/messages", ...)] *)
Definition messages (url : SearchParams) (call : Call) : M Response :=
  fun w =>
    let '(res, w1) :=
      match parseMessagesQuery url with
      | inr error => (error, w)
      | inl value =>
          match listMessages value w with
          | (Return r, w') =>
              (mkResponse 200 (page (data r) (total r)
                                    (MessageFilters.limit value)
                                    (MessageFilters.offset value)), w')
          | (Throw err, w') =>
              (mkResponse 500 (detail (error_message err)),
               snd (log (console_error "/messages handler error" [] err) w'))
          end
      end in
    (Return res, finalize call "/messages" (status res) None w1).

(** [app.get("/stats", ...)] *)
Definition stats_handler (call : Call) : M Response :=
  fun w =>
    let '(res, w1) :=
      match getStats w with
      | (Return s, w') => (mkResponse 200 (stats s), w')
      | (Throw err, w') =>
          (mkResponse 500 (detail (error_message err)),
           snd (log (console_error "/stats handler error" [] err) w'))
      end in
    (Return res, finalize call "/stats" (status res) None w1).

(** [app.get("/metrics", ...)] *)
Definition metrics_handler : M Response :=
  fun w => (Return (mkResponse 200 (exposition (Metrics.renderMetrics (metrics w)))), w).

(** The fallback [app.use((req, res) => ...)]. *)
Definition not_found (path : string) (call : Call) : M Response :=
  fun w =>
    (Return (mkResponse 404 (detail "Not found")),
     finalize call path 404 None w).

End Handlers.

End Main.

(** * Properties *)

(** ** Vocabulary of the statements *)

Module Spec.

Import Js JsNumber Runtime Storage.

(** The rows of the table, none while the handle is closed. *)
Definition rows (w : World) : list Sqlite.Row.t :=
  match db w with
  | Some d => Sqlite.messages d
  | None => []
  end.

(** The handle is open and the backend serves statements. *)
Definition serving (w : World) : Prop :=
  exists d, db w = Some d /\ Sqlite.failure d = None.

(** The row an insert of [m] at instant [now] writes. *)
Definition row_of (m : WebhookMessage.t) (now : string) : Sqlite.Row.t :=
  Sqlite.Row.mk (WebhookMessage.message_id m) (WebhookMessage.from m)
                (WebhookMessage.to m) (WebhookMessage.ts m)
                (WebhookMessage.text m) now.

Definition has_id (id : string) (r : Sqlite.Row.t) : bool :=
  String.eqb (Sqlite.Row.message_id r) id.

(** A world with an open, empty table and fresh counters. *)
Definition empty_world : World :=
  mkWorld (Some (Sqlite.mkDatabase [] None)) Metrics.initial [].

(** The message of the end-to-end scenario. *)
Definition m1 : WebhookMessage.t :=
  WebhookMessage.mk "m1" "+10000000001" "+10000000002" "2025-01-15T10:00:00Z"
                    (Some "hi").



Definition no_filters (limit offset : number) : MessageFilters.t :=
  MessageFilters.mk limit offset None None None.


(** The rows the WHERE of [listMessages] keeps. *)
Definition matching (f : MessageFilters.t) (d : Sqlite.Database)
  : list Sqlite.Row.t :=
  filter (fun r => Sqlite.holds (where_ (clauses f) r)) (Sqlite.messages d).

(** What a reader gets back for [m] inserted at instant [now]. *)
Definition stored_of (m : WebhookMessage.t) (now : string) : StoredMessage.t :=
  StoredMessage.mk (WebhookMessage.message_id m) (WebhookMessage.from m)
                   (WebhookMessage.to m) (WebhookMessage.ts m)
                   (WebhookMessage.text m) now.

(** Three rows, two of them on the same [ts], inserted out of order. *)
Definition tie_db : Sqlite.Database :=
  Sqlite.mkDatabase
    [Sqlite.Row.mk "m2" "+200" "+300" "2025-01-15T10:00:01Z" None "c1";
     Sqlite.Row.mk "m1" "+100" "+300" "2025-01-15T10:00:01Z" (Some "Hello") "c2";
     Sqlite.Row.mk "m0" "+100" "+300" "2025-01-15T10:00:00Z" (Some "bye") "c3"]
    None.

Definition tie_world : World := mkWorld (Some tie_db) Metrics.initial [].

(** The calls a process makes into the metrics module. *)
Inductive metric_call : Type :=
| HttpRequest (path : string) (status : Z)
| WebhookResult (result : string)
| Latency (ms : number).

Definition record (s : Metrics.State) (c : metric_call) : Metrics.State :=
  match c with
  | HttpRequest path status => Metrics.recordHttpRequest path status s
  | WebhookResult result => Metrics.recordWebhookResult result s
  | Latency ms => Metrics.recordLatency ms s
  end.

(** The counters after a sequence of calls on a fresh module. *)
Definition after (calls : list metric_call) : Metrics.State :=
  fold_left record calls Metrics.initial.

Fixpoint observations (calls : list metric_call) : nat :=
  match calls with
  | [] => 0
  | Latency _ :: rest => S (observations rest)
  | _ :: rest => observations rest
  end.

(** The bucket lines of an exposition, in the order they are emitted. *)
Fixpoint latency_buckets (lines : list Metrics.line)
  : list (Metrics.label * nat) :=
  match lines with
  | [] => []
  | Metrics.request_latency_ms_bucket le n :: rest =>
      (le, n) :: latency_buckets rest
  | _ :: rest => latency_buckets rest
  end.

(** The values of its [request_latency_ms_count] lines. *)
Fixpoint latency_counts (lines : list Metrics.line) : list nat :=
  match lines with
  | [] => []
  | Metrics.request_latency_ms_count n :: rest => n :: latency_counts rest
  | _ :: rest => latency_counts rest
  end.

(** The three buckets hold disjoint counts that add up to the number of
    observations. *)
Definition histogram_inv (s : Metrics.State) : Prop :=
  exists a b c,
    Metrics.latencyBuckets s
    = [(of_Z 100, a); (of_Z 500, b); (PosInfinity, c)]
    /\ a + b + c = Metrics.latencyCount s.

(** Integers a 64-bit [LIMIT] or [OFFSET] can hold. *)
Definition int64 (n : Z) : Prop := (- 2 ^ 63 <= n < 2 ^ 63)%Z.

(** The configuration of [make run]. *)
Definition test_config : Config.AppConfig :=
  Config.mkAppConfig "sqlite:./data/app.db" (Some "testsecret") INFO.

Definition call0 : Main.Call :=
  Main.mkCall "req-1" "POST" (of_Z 3) "2025-01-15T10:00:01.000Z".

Definition quoted (s : string) : string :=
  (String (ascii_of_nat 34) s ++ String (ascii_of_nat 34) EmptyString)%string.

(** The body of the end-to-end scenario, member by member. *)
Definition m1_body : string :=
  ("{" ++ quoted "message_id" ++ ":" ++ quoted "m1" ++ ","
   ++ quoted "from" ++ ":" ++ quoted "+10000000001" ++ ","
   ++ quoted "to" ++ ":" ++ quoted "+10000000002" ++ ","
   ++ quoted "ts" ++ ":" ++ quoted "2025-01-15T10:00:00Z" ++ ","
   ++ quoted "text" ++ ":" ++ quoted "hi" ++ "}")%string.

Definition m1_json : Json.value :=
  Json.Obj [("message_id", Json.Str "m1"); ("from", Json.Str "+10000000001");
            ("to", Json.Str "+10000000002");
            ("ts", Json.Str "2025-01-15T10:00:00Z"); ("text", Json.Str "hi")].

(** [JSON.parse] on the bodies used below: the scenario body parses to its
    object, the other bodies used are not JSON. *)
Definition parse_m1 (s : string) : option Json.value :=
  if String.eqb s m1_body then Some m1_json else None.

(** The scenario request, signed with the secret of [test_config]. *)
Definition m1_request : Main.WebhookRequest :=
  Main.mkWebhookRequest
    (Some "942918f4ba8977c4e3c41bf7e5f85a0af0a788e92512d3e5ac012a8e8280354e")
    m1_body.

(** A world whose backend fails every statement with [err]. *)
Definition broken_world (err : thrown) : World :=
  mkWorld (Some (Sqlite.mkDatabase [] (Some err))) Metrics.initial [].

(** The error that [insertMessage] turns into [dup = true]. *)
Definition unique_violation (err : thrown) : bool :=
  match err with
  | ThrownError message =>
      includes message "UNIQUE constraint failed: messages.message_id"
  | ThrownOther => false
  end.


(** The number a query parameter stands for: [Number(value)], or the
    default when the parameter is omitted or empty. *)
Definition requested (url : Main.SearchParams) (name : string) (default : Z)
  : number :=
  match Main.get url name with
  | Some v => if truthy v then Number v else of_Z default
  | None => of_Z default
  end.

(** A finite number between 1 and 100. *)
Definition limit_in_range (x : number) : Prop :=
  exists q, x = Finite q /\ (1 <= q)%Q /\ (q <= 100)%Q.

(** A number that is not negative; [Infinity] is one. *)
Definition offset_in_range (x : number) : Prop :=
  x = PosInfinity \/ exists q, x = Finite q /\ (0 <= q)%Q.

(** The number is an integer. *)
Definition integral (x : number) : bool :=
  match x with
  | Finite q => Qeq_bool (inject_Z (Qfloor q)) q
  | _ => false
  end.

(** A filter given as the empty string, read as not given. *)
Definition drop_empty (o : option string) : option string :=
  match o with
  | Some EmptyString => None
  | _ => o
  end.

Definition without_empty (f : MessageFilters.t) : MessageFilters.t :=
  MessageFilters.mk (MessageFilters.limit f) (MessageFilters.offset f)
                    (drop_empty (MessageFilters.from f))
                    (drop_empty (MessageFilters.since f))
                    (drop_empty (MessageFilters.q f)).

(** [text] contains [q] as a substring, letter case of the 26 ASCII letters
    set aside. *)
Definition contains_ci (text q : string) : bool :=
  includes (Sqlite.lower text) (Sqlite.lower q).

(** A character of [q] that LIKE takes literally: ASCII, neither [%] nor
    [_]. *)
Definition plain (c : ascii) : bool :=
  (code c <? 128)%Z && negb (Ascii.eqb c "%"%char) && negb (Ascii.eqb c "_"%char).

Fixpoint all_plain (s : string) : bool :=
  match s with
  | EmptyString => true
  | String c s' => plain c && all_plain s'
  end.

(** The pattern characters of a literal string, one byte each. *)
Definition literal (s : string) : list Sqlite.uchar :=
  map (fun c => [c]) (list_ascii_of_string s).

(** What the claim asks of a row under the query [q]: a text, and [q]
    within it. *)
Definition text_contains (q : string) (r : Sqlite.Row.t) : bool :=
  match Sqlite.Row.text r with
  | Some t => contains_ci t q
  | None => false
  end.

(** *** Vocabulary of the further properties *)




Definition ids (l : list Sqlite.Row.t) : list string :=
  map Sqlite.Row.message_id l.

(** Number of rows sent by [s]. *)
Definition sent_by (s : string) (l : list Sqlite.Row.t) : nat :=
  List.length (filter (fun r => String.eqb (Sqlite.Row.from_msisdn r) s) l).

Definition http_key (path : string) (status : Z) : string :=
  (path ++ "|" ++ Metrics.Z_to_string status)%string.

(** How often a sequence of calls recorded the HTTP key [key]. *)
Fixpoint http_recorded (key : string) (calls : list metric_call) : nat :=
  match calls with
  | [] => 0
  | HttpRequest path status :: rest =>
      (if String.eqb (http_key path status) key then 1 else 0)
      + http_recorded key rest
  | _ :: rest => http_recorded key rest
  end.

(** How often it recorded the webhook result [tag]. *)
Fixpoint webhook_recorded (tag : string) (calls : list metric_call) : nat :=
  match calls with
  | [] => 0
  | WebhookResult result :: rest =>
      (if String.eqb result tag then 1 else 0) + webhook_recorded tag rest
  | _ :: rest => webhook_recorded tag rest
  end.

(** How many of its latency observations were at most [bound]. *)
Fixpoint observed_le (bound : number) (calls : list metric_call) : nat :=
  match calls with
  | [] => 0
  | Latency ms :: rest =>
      (if leb ms bound then 1 else 0) + observed_le bound rest
  | _ :: rest => observed_le bound rest
  end.

Fixpoint no_bar (s : string) : bool :=
  match s with
  | EmptyString => true
  | String c s' => negb (Ascii.eqb c "|"%char) && no_bar s'
  end.


(** The text member of a body as the schema takes it. *)
Definition text_member (fields : list (string * Json.value))
  (text : option string) : Prop :=
  (Json.property fields "text" = None /\ text = None)
  \/ (exists s, Json.property fields "text" = Some (Json.Str s)
                /\ text = Some s /\ Models.utf16_length s <= 4096).

(** The filters of [f] with another page. *)
Definition with_page (f : MessageFilters.t) (limit offset : Z)
  : MessageFilters.t :=
  MessageFilters.mk (of_Z limit) (of_Z offset) (MessageFilters.from f)
                    (MessageFilters.since f) (MessageFilters.q f).

(** An environment that sets the one variable [name]. *)
Definition env_with (name value : string) : Config.Env :=
  fun k => if String.eqb k name then Some value else None.

(** A counter that holds, for every key, the number given by [count], and
    holds no key whose number is 0. *)
Definition counts (c : Metrics.Counter) (count : string -> nat) : Prop :=
  NoDup (map fst c)
  /\ forall k, Metrics.lookup c k
               = if (count k =? 0)%nat then None else Some (count k).

(** Between [w] and [w'] one request was counted under [path] and [status]
    and nothing else under any other key, and one latency was observed. *)
Definition counted (path : string) (status : Z) (w w' : World) : Prop :=
  (forall key,
      Metrics.or_zero (Metrics.lookup (Metrics.httpRequests (metrics w')) key)
      = Metrics.or_zero (Metrics.lookup (Metrics.httpRequests (metrics w)) key)
        + (if String.eqb (http_key path status) key then 1 else 0))
  /\ Metrics.latencyCount (metrics w') = Metrics.latencyCount (metrics w) + 1.

(** The characters of a lower-case hexadecimal digest. *)
Definition is_lower_hex (c : ascii) : bool :=
  existsb (Ascii.eqb c) (list_ascii_of_string "0123456789abcdef").

Fixpoint all_lower_hex (s : string) : bool :=
  match s with
  | EmptyString => true
  | String c s' => is_lower_hex c && all_lower_hex s'
  end.

(** An octet. *)
Definition is_byte (b : Z) : Prop := (0 <= b < 256)%Z.

End Spec.

Import Js JsNumber Runtime Storage Spec.

(** Case analysis over the 256 characters, each case by computation. *)
Ltac each_ascii c :=
  destruct c as [[|] [|] [|] [|] [|] [|] [|] [|]]; vm_compute; reflexivity.

(** ** Idempotent insert *)

Lemma getDb_open (w : World) (d : Sqlite.Database) :
  db w = Some d -> getDb w = (Return d, w).
Proof. intros H. unfold getDb, mbind, get_db. rewrite H. reflexivity. Qed.

Lemma getDb_closed (w : World) :
  db w = None -> getDb w = (Throw (ThrownError "Database not initialized"), w).
Proof. intros H. unfold getDb, mbind, get_db. rewrite H. reflexivity. Qed.

Lemma insertMessage_fresh (m : WebhookMessage.t) (now : string) (w : World)
  (d : Sqlite.Database) :
  db w = Some d -> Sqlite.failure d = None ->
  existsb (has_id (WebhookMessage.message_id m)) (Sqlite.messages d) = false ->
  insertMessage m now w =
  (Return (mkInsertResult true false),
   mkWorld (Some (Sqlite.mkDatabase (Sqlite.messages d ++ [row_of m now]) None))
           (metrics w) (console w)).
Proof.
  intros Hdb Hok Hfresh.
  unfold insertMessage, mbind at 1. rewrite (getDb_open w d Hdb).
  unfold try_catch, mbind, lift, Sqlite.insert. rewrite Hok.
  cbn [Sqlite.Row.message_id]. fold (has_id (WebhookMessage.message_id m)).
  rewrite Hfresh. reflexivity.
Qed.

Lemma insertMessage_existing (m : WebhookMessage.t) (now : string) (w : World)
  (d : Sqlite.Database) :
  db w = Some d -> Sqlite.failure d = None ->
  existsb (has_id (WebhookMessage.message_id m)) (Sqlite.messages d) = true ->
  insertMessage m now w = (Return (mkInsertResult false true), w).
Proof.
  intros Hdb Hok Hdup.
  unfold insertMessage, mbind at 1. rewrite (getDb_open w d Hdb).
  unfold try_catch, mbind, lift, Sqlite.insert. rewrite Hok.
  cbn [Sqlite.Row.message_id]. fold (has_id (WebhookMessage.message_id m)).
  rewrite Hdup. reflexivity.
Qed.

Lemma existsb_has_id_false (id : string) (l : list Sqlite.Row.t) :
  (forall r, In r l -> Sqlite.Row.message_id r <> id) ->
  existsb (has_id id) l = false.
Proof.
  intros H. induction l as [|r l IH]; [reflexivity|].
  cbn [existsb]. rewrite IH by (intros x Hx; apply H; right; exact Hx).
  unfold has_id. destruct (String.eqb_spec (Sqlite.Row.message_id r) id) as [E|E].
  - exfalso. apply (H r); [left; reflexivity | exact E].
  - reflexivity.
Qed.

Lemma filter_has_id_none (id : string) (l : list Sqlite.Row.t) :
  existsb (has_id id) l = false -> filter (has_id id) l = [].
Proof.
  induction l as [|r l IH]; [reflexivity|].
  cbn [existsb filter]. intros H. apply orb_false_iff in H as [H1 H2].
  rewrite H1. apply IH, H2.
Qed.

(** C1. An insert under a key that no row carries answers [dup = false] and
    adds exactly one row. Any later insert under the same key, whatever its
    other fields, answers [dup = true] and leaves the world as it was, so one
    row with the first-submitted values persists under that key. *)
Theorem insertMessage_first_write_wins
  (m : WebhookMessage.t) (now : string) (w : World) (d : Sqlite.Database) :
  db w = Some d -> Sqlite.failure d = None ->
  (forall r, In r (Sqlite.messages d) ->
             Sqlite.Row.message_id r <> WebhookMessage.message_id m) ->
  exists w1,
    insertMessage m now w = (Return (mkInsertResult true false), w1)
    /\ rows w1 = rows w ++ [row_of m now]
    /\ (forall m' now',
          WebhookMessage.message_id m' = WebhookMessage.message_id m ->
          insertMessage m' now' w1 = (Return (mkInsertResult false true), w1))
    /\ filter (has_id (WebhookMessage.message_id m)) (rows w1) = [row_of m now].
Proof.
  intros Hdb Hok Hfresh.
  pose proof (existsb_has_id_false _ _ Hfresh) as Hex.
  eexists. split; [apply (insertMessage_fresh m now w d Hdb Hok Hex)|].
  assert (Hself : has_id (WebhookMessage.message_id m) (row_of m now) = true)
    by (unfold has_id, row_of; cbn; apply String.eqb_refl).
  split; [unfold rows; cbn; rewrite Hdb; reflexivity|].
  split.
  - intros m' now' Hid.
    eapply insertMessage_existing; [reflexivity | reflexivity |].
    cbn [Sqlite.messages]. rewrite Hid, existsb_app. cbn [existsb].
    rewrite Hself. rewrite orb_true_r. reflexivity.
  - unfold rows; cbn [db Sqlite.messages]. rewrite filter_app.
    rewrite (filter_has_id_none _ _ Hex). cbn [filter app]. rewrite Hself.
    reflexivity.
Qed.

Lemma insertMessage_first_write_wins_witness :
  exists w1,
    insertMessage m1 "2025-01-15T10:00:01.000Z" empty_world
    = (Return (mkInsertResult true false), w1)
    /\ rows w1 = rows empty_world ++ [row_of m1 "2025-01-15T10:00:01.000Z"]
    /\ (forall m' now',
          WebhookMessage.message_id m' = WebhookMessage.message_id m1 ->
          insertMessage m' now' w1 = (Return (mkInsertResult false true), w1))
    /\ filter (has_id (WebhookMessage.message_id m1)) (rows w1)
       = [row_of m1 "2025-01-15T10:00:01.000Z"].
Proof.
  apply (insertMessage_first_write_wins m1 "2025-01-15T10:00:01.000Z"
           empty_world (Sqlite.mkDatabase [] None)).
  - reflexivity.
  - reflexivity.
  - intros r H. destruct H.
Defined.

(** ** Ordering of retrieval and of the statistics *)

Section StringOrder.








End StringOrder.







Section InsertionSort.

Context {A : Type} (le : A -> A -> bool).

Lemma insert_sorted_perm (x : A) (l : list A) :
  Permutation (Sqlite.insert_sorted le x l) (x :: l).
Proof.
  induction l as [|y l IH]; cbn; [apply Permutation_refl|].
  destruct (le x y); [apply Permutation_refl|].
  eapply Permutation_trans; [apply perm_skip, IH | apply perm_swap].
Qed.

Lemma order_by_perm (l : list A) : Permutation (Sqlite.order_by le l) l.
Proof.
  induction l as [|x l IH]; cbn; [apply perm_nil|].
  eapply Permutation_trans; [apply insert_sorted_perm | apply perm_skip, IH].
Qed.

Hypothesis le_total : forall a b, le a b = true \/ le b a = true.
Hypothesis le_trans :
  forall a b c, le a b = true -> le b c = true -> le a c = true.

Lemma insert_sorted_sorted (x : A) (l : list A) :
  StronglySorted (fun a b => le a b = true) l ->
  StronglySorted (fun a b => le a b = true) (Sqlite.insert_sorted le x l).
Proof.
  induction 1 as [|y l Hs IH Hy]; cbn.
  - constructor; constructor.
  - destruct (le x y) eqn:E.
    + constructor; [constructor; assumption|].
      constructor; [exact E|].
      rewrite Forall_forall in *. intros z Hz. eapply le_trans; [exact E|].
      apply Hy, Hz.
    + constructor; [exact IH|].
      rewrite Forall_forall in *. intros z Hz.
      apply (Permutation_in _ (insert_sorted_perm x l)) in Hz.
      destruct Hz as [<-|Hz]; [|apply Hy, Hz].
      destruct (le_total x y) as [H|H]; [congruence | exact H].
Qed.

Lemma order_by_sorted (l : list A) :
  StronglySorted (fun a b => le a b = true) (Sqlite.order_by le l).
Proof.
  induction l as [|x l IH]; cbn; [constructor|].
  apply insert_sorted_sorted, IH.
Qed.

End InsertionSort.

Lemma in_firstn {A : Type} (z : A) (n : nat) (l : list A) :
  In z (firstn n l) -> In z l.
Proof.
  intros H. rewrite <- (firstn_skipn n l). apply in_or_app. left. exact H.
Qed.

Lemma in_skipn {A : Type} (z : A) (n : nat) (l : list A) :
  In z (skipn n l) -> In z l.
Proof.
  intros H. rewrite <- (firstn_skipn n l). apply in_or_app. right. exact H.
Qed.

Lemma in_limit_offset {A : Type} (z : A) (n k : Z) (l : list A) :
  In z (Sqlite.limit_offset n k l) -> In z l.
Proof.
  unfold Sqlite.limit_offset. destruct (n <? 0)%Z; intros H.
  - eapply in_skipn, H.
  - eapply in_skipn, in_firstn, H.
Qed.

Section SortedWindows.

Context {A : Type} (R : A -> A -> Prop).


Lemma sorted_firstn (n : nat) (l : list A) :
  StronglySorted R l -> StronglySorted R (firstn n l).
Proof.
  revert l. induction n as [|n IH]; intros l H; [constructor|].
  destruct H as [|x l H Hx]; cbn; [constructor|].
  constructor; [apply IH, H|].
  rewrite Forall_forall in *. intros z Hz. apply Hx.
  eapply in_firstn, Hz.
Qed.




End SortedWindows.

(** What the two queries of the module compute while the backend serves. *)

Lemma bind_integer_of_Z (n : Z) :
  int64 n -> Sqlite.bind_integer (of_Z n) = Return n.
Proof.
  intros [Hlo Hhi]. unfold Sqlite.bind_integer, of_Z.
  rewrite Qfloor_Z.
  assert (E : Qeq_bool (inject_Z n) (inject_Z n) = true)
    by (apply Qeq_bool_iff; reflexivity).
  rewrite E.
  apply Z.leb_le in Hlo. apply Z.ltb_lt in Hhi. rewrite Hlo, Hhi. reflexivity.
Qed.

Lemma listMessages_returns (f : MessageFilters.t) (w w' : World)
  (res : ListResult) :
  listMessages f w = (Return res, w') ->
  exists d n k,
    db w = Some d /\ Sqlite.failure d = None
    /\ Sqlite.bind_integer (MessageFilters.limit f) = Return n
    /\ Sqlite.bind_integer (MessageFilters.offset f) = Return k
    /\ data res
       = map stored (Sqlite.limit_offset n k
                       (Sqlite.order_by Sqlite.ts_id_asc (matching f d)))
    /\ total res = List.length (matching f d)
    /\ w' = w.
Proof.
  unfold listMessages, mbind at 1.
  destruct (db w) as [d|] eqn:Hdb.
  2:{ rewrite (getDb_closed w Hdb). discriminate. }
  rewrite (getDb_open w d Hdb).
  unfold mbind, try_catch, lift, log, throw, ret, Sqlite.select_page,
    Sqlite.select_count.
  destruct (Sqlite.failure d) as [e|] eqn:Hf; [discriminate|].
  destruct (Sqlite.bind_integer (MessageFilters.limit f)) as [n|e] eqn:Hn;
    cbn [bind]; [|discriminate].
  destruct (Sqlite.bind_integer (MessageFilters.offset f)) as [k|e] eqn:Hk;
    cbn [bind]; [|discriminate].
  intros H. injection H as <- <-.
  exists d, n, k. repeat split; try reflexivity; assumption.
Qed.

Lemma listMessages_serving (f : MessageFilters.t) (w : World)
  (d : Sqlite.Database) (n k : Z) :
  db w = Some d -> Sqlite.failure d = None ->
  Sqlite.bind_integer (MessageFilters.limit f) = Return n ->
  Sqlite.bind_integer (MessageFilters.offset f) = Return k ->
  listMessages f w
  = (Return (mkListResult
               (map stored (Sqlite.limit_offset n k
                              (Sqlite.order_by Sqlite.ts_id_asc (matching f d))))
               (List.length (matching f d))),
     w).
Proof.
  intros Hdb Hf Hn Hk.
  unfold listMessages, mbind at 1. rewrite (getDb_open w d Hdb).
  unfold mbind, try_catch, lift, log, throw, ret, Sqlite.select_page,
    Sqlite.select_count.
  rewrite Hf, Hn, Hk. reflexivity.
Qed.


Lemma sorted_weaken {A : Type} (R S : A -> A -> Prop) (l : list A) :
  (forall a b, R a b -> S a b) -> StronglySorted R l -> StronglySorted S l.
Proof.
  intros HRS. induction 1 as [|x l _ IH Hx]; constructor; [exact IH|].
  eapply Forall_impl; [|exact Hx]. intros b. apply HRS.
Qed.













Lemma matching_no_filters (limit offset : number) (d : Sqlite.Database) :
  matching (no_filters limit offset) d = Sqlite.messages d.
Proof.
  unfold matching, no_filters, clauses, where_. cbn.
  induction (Sqlite.messages d) as [|r l IH]; cbn; [reflexivity|].
  rewrite IH. reflexivity.
Qed.



(** The three rows come back as m0, m1, m2, and the statistics name the
    [ts] of m0 and of m2. *)
Example tie_world_listing :
  fst (listMessages (no_filters (of_Z 50) (of_Z 0)) tie_world)
  = Return (mkListResult
      [StoredMessage.mk "m0" "+100" "+300" "2025-01-15T10:00:00Z" (Some "bye") "c3";
       StoredMessage.mk "m1" "+100" "+300" "2025-01-15T10:00:01Z" (Some "Hello") "c2";
       StoredMessage.mk "m2" "+200" "+300" "2025-01-15T10:00:01Z" None "c1"]
      3).
Proof. vm_compute. reflexivity. Qed.

Example tie_world_stats :
  fst (getStats tie_world)
  = Return (mkStats 3 2 [("+100", 2); ("+200", 1)]
                    (Some "2025-01-15T10:00:00Z") (Some "2025-01-15T10:00:01Z")).
Proof. vm_compute. reflexivity. Qed.

(** ** Round trip of an inserted message *)

Lemma insertMessage_created (m : WebhookMessage.t) (now : string)
  (w w1 : World) (r : InsertResult) :
  insertMessage m now w = (Return r, w1) -> created r = true ->
  exists d,
    db w = Some d /\ Sqlite.failure d = None
    /\ existsb (has_id (WebhookMessage.message_id m)) (Sqlite.messages d) = false
    /\ w1 = mkWorld (Some (Sqlite.mkDatabase
                             (Sqlite.messages d ++ [row_of m now]) None))
                    (metrics w) (console w).
Proof.
  intros H Hc.
  destruct (db w) as [d|] eqn:Hdb.
  2:{ unfold insertMessage, mbind at 1 in H. rewrite (getDb_closed w Hdb) in H.
      discriminate. }
  destruct (Sqlite.failure d) as [e|] eqn:Hf.
  { unfold insertMessage, mbind at 1 in H. rewrite (getDb_open w d Hdb) in H.
    unfold try_catch, mbind, lift, Sqlite.insert in H. rewrite Hf in H.
    destruct e as [msg|]; [|discriminate].
    destruct (includes msg _); [|discriminate].
    injection H as <- _. discriminate. }
  destruct (existsb (has_id (WebhookMessage.message_id m)) (Sqlite.messages d))
    eqn:Hex.
  - rewrite (insertMessage_existing m now w d Hdb Hf Hex) in H.
    injection H as <- _. discriminate.
  - rewrite (insertMessage_fresh m now w d Hdb Hf Hex) in H.
    injection H as _ <-. exists d. repeat split; assumption.
Qed.

Lemma existsb_has_id_in (id : string) (l : list Sqlite.Row.t) (r : Sqlite.Row.t) :
  existsb (has_id id) l = false -> In r l -> Sqlite.Row.message_id r <> id.
Proof.
  intros H Hin E.
  assert (Ht : existsb (has_id id) l = true).
  { apply existsb_exists. exists r. split; [exact Hin|].
    unfold has_id. rewrite E. apply String.eqb_refl. }
  congruence.
Qed.

(** C9. After [insertMessage m] answered [created = true], any row with the
    key of [m] that an unfiltered [listMessages] page returns carries the
    [message_id], [from], [to], [ts] and [text] of [m] (a null [text] when
    [m] had none) and the insert instant as [created_at]; a page from offset
    0 that is long enough for the whole table does return that row. *)
Theorem insert_then_list_round_trip (m : WebhookMessage.t) (now : string)
  (w w1 : World) (r : InsertResult) :
  insertMessage m now w = (Return r, w1) -> created r = true ->
  (forall limit offset res w2 s,
      listMessages (no_filters limit offset) w1 = (Return res, w2) ->
      In s (data res) ->
      StoredMessage.message_id s = WebhookMessage.message_id m ->
      s = stored_of m now)
  /\ (forall n, int64 n -> (Z.of_nat (List.length (rows w1)) <= n)%Z ->
      exists res,
        listMessages (no_filters (of_Z n) (of_Z 0)) w1 = (Return res, w1)
        /\ In (stored_of m now) (data res)).
Proof.
  intros H Hc.
  destruct (insertMessage_created m now w w1 r H Hc) as [d [Hdb [Hf [Hex ->]]]].
  split.
  - intros limit offset res w2 s Hl Hin Hid.
    apply listMessages_returns in Hl.
    destruct Hl as [d' [n [k [Hdb' [_ [_ [_ [Hdata _]]]]]]]].
    cbn [db] in Hdb'. injection Hdb' as <-.
    rewrite matching_no_filters in Hdata. cbn [Sqlite.messages] in Hdata.
    rewrite Hdata in Hin. apply in_map_iff in Hin.
    destruct Hin as [x [<- Hx]].
    apply in_limit_offset in Hx.
    apply (Permutation_in _ (order_by_perm Sqlite.ts_id_asc _)) in Hx.
    apply in_app_or in Hx. destruct Hx as [Hx|[<-|[]]].
    + exfalso. apply (existsb_has_id_in _ _ x Hex Hx). exact Hid.
    + reflexivity.
  - intros n Hn Hlen.
    eexists. split.
    + eapply (listMessages_serving (no_filters (of_Z n) (of_Z 0)) _ _ n 0);
        [reflexivity | reflexivity | apply bind_integer_of_Z, Hn |
         apply bind_integer_of_Z; unfold int64; lia].
    + cbn [data]. rewrite matching_no_filters. cbn [Sqlite.messages].
      unfold rows in Hlen. cbn [db Sqlite.messages] in Hlen.
      unfold Sqlite.limit_offset.
      assert (Hn0 : (n <? 0)%Z = false) by (apply Z.ltb_ge; lia).
      rewrite Hn0. cbn [Z.to_nat skipn].
      rewrite firstn_all2.
      * apply in_map_iff. exists (row_of m now). split; [reflexivity|].
        apply (Permutation_in _ (Permutation_sym (order_by_perm _ _))).
        apply in_or_app. right. left. reflexivity.
      * rewrite (Permutation_length (order_by_perm Sqlite.ts_id_asc _)). lia.
Qed.

Lemma insert_then_list_round_trip_witness :
  (insertMessage m1 "2025-01-15T10:00:01.000Z" empty_world
   = (Return (mkInsertResult true false),
      mkWorld (Some (Sqlite.mkDatabase
                       [row_of m1 "2025-01-15T10:00:01.000Z"] None))
              Metrics.initial [])
   /\ created (mkInsertResult true false) = true)
  /\ (forall limit offset res w2 s,
        listMessages (no_filters limit offset)
          (mkWorld (Some (Sqlite.mkDatabase
                            [row_of m1 "2025-01-15T10:00:01.000Z"] None))
                   Metrics.initial [])
        = (Return res, w2) ->
        In s (data res) ->
        StoredMessage.message_id s = WebhookMessage.message_id m1 ->
        s = stored_of m1 "2025-01-15T10:00:01.000Z").
Proof.
  split; [split; reflexivity|].
  apply (insert_then_list_round_trip m1 "2025-01-15T10:00:01.000Z" empty_world _
           (mkInsertResult true false)); reflexivity.
Defined.

Example m1_round_trip :
  fst (mbind (insertMessage m1 "2025-01-15T10:00:01.000Z")
             (fun _ => listMessages (no_filters (of_Z 10) (of_Z 0)))
             empty_world)
  = Return (mkListResult [stored_of m1 "2025-01-15T10:00:01.000Z"] 1).
Proof. vm_compute. reflexivity. Qed.

(** ** The latency histogram *)

Lemma histogram_inv_initial : histogram_inv Metrics.initial.
Proof. exists 0, 0, 0. split; reflexivity. Qed.

Lemma histogram_inv_record (s : Metrics.State) (c : metric_call) :
  histogram_inv s ->
  histogram_inv (record s c)
  /\ Metrics.latencyCount (record s c)
     = Metrics.latencyCount s + observations [c].
Proof.
  intros [a [b [n [Hb Hsum]]]]. destruct c as [path status|result|ms].
  - cbn. split; [exists a, b, n; split; assumption | lia].
  - cbn. split; [exists a, b, n; split; assumption | lia].
  - unfold histogram_inv, record, Metrics.recordLatency.
    cbn [Metrics.latencyBuckets Metrics.latencyCount observations].
    split; [|lia]. rewrite Hb.
    destruct (leb ms (of_Z 100)); [|destruct (leb ms (of_Z 500))].
    + exists (a + 1), b, n. split; [reflexivity | lia].
    + exists a, (b + 1), n. split; [reflexivity | lia].
    + exists a, b, (n + 1). split; [reflexivity | lia].
Qed.

Lemma histogram_inv_fold (calls : list metric_call) :
  forall s,
    histogram_inv s ->
    histogram_inv (fold_left record calls s)
    /\ Metrics.latencyCount (fold_left record calls s)
       = Metrics.latencyCount s + observations calls.
Proof.
  induction calls as [|c calls IH]; intros s Hs; cbn [fold_left].
  - split; [exact Hs | cbn; lia].
  - destruct (histogram_inv_record s c Hs) as [H1 H2].
    destruct (IH _ H1) as [H3 H4]. split; [exact H3|].
    rewrite H4, H2. destruct c; cbn; lia.
Qed.

Lemma latency_buckets_app (l1 l2 : list Metrics.line) :
  latency_buckets (l1 ++ l2) = latency_buckets l1 ++ latency_buckets l2.
Proof.
  induction l1 as [|x l1 IH]; [reflexivity|].
  destruct x; cbn; rewrite IH; reflexivity.
Qed.

Lemma latency_counts_app (l1 l2 : list Metrics.line) :
  latency_counts (l1 ++ l2) = latency_counts l1 ++ latency_counts l2.
Proof.
  induction l1 as [|x l1 IH]; [reflexivity|].
  destruct x; cbn; rewrite IH; reflexivity.
Qed.

Lemma counter_lines_no_latency {K : Type} (f : K -> Metrics.line)
  (l : list K) :
  (forall k, latency_buckets [f k] = [] /\ latency_counts [f k] = []) ->
  latency_buckets (map f l) = [] /\ latency_counts (map f l) = [].
Proof.
  intros H. induction l as [|k l [IH1 IH2]]; [split; reflexivity|].
  destruct (H k) as [H1 H2]. cbn [map].
  change (f k :: map f l) with ([f k] ++ map f l).
  rewrite latency_buckets_app, latency_counts_app, H1, H2, IH1, IH2.
  split; reflexivity.
Qed.

(** C7. Whatever was recorded, [renderMetrics] emits exactly three bucket
    lines, for the bounds 100, 500 and +Inf in that order; their cumulative
    counts do not decrease, and the +Inf count is the value of the
    [request_latency_ms_count] line, the number of observations. *)
Theorem histogram_is_cumulative (calls : list metric_call) :
  exists a b c,
    latency_buckets (Metrics.renderMetrics (after calls))
    = [(Metrics.Bound (of_Z 100), a); (Metrics.Bound (of_Z 500), b);
       (Metrics.PlusInf, c)]
    /\ a <= b /\ b <= c
    /\ latency_counts (Metrics.renderMetrics (after calls)) = [c]
    /\ c = observations calls.
Proof.
  destruct (histogram_inv_fold calls Metrics.initial histogram_inv_initial)
    as [[a [b [c [Hb Hsum]]]] Hcount].
  fold (after calls) in Hb, Hsum, Hcount.
  exists a, (a + b), (a + b + c).
  unfold Metrics.renderMetrics.
  rewrite !latency_buckets_app, !latency_counts_app.
  repeat match goal with
         | |- context [latency_buckets (map ?f ?l)] =>
             let E1 := fresh "E" in
             let E2 := fresh "E" in
             destruct (counter_lines_no_latency f l) as [E1 E2];
             [intros [k n]; split; reflexivity | rewrite E1, E2; clear E1 E2]
         end.
  rewrite Hb. cbn [app].
  change (Metrics.sorted_bounds
            (map fst [(of_Z 100, a); (of_Z 500, b); (PosInfinity, c)]))
    with (Metrics.sorted_bounds [of_Z 100; of_Z 500; PosInfinity]).
  assert (Es : Metrics.sorted_bounds [of_Z 100; of_Z 500; PosInfinity]
               = [of_Z 100; of_Z 500; PosInfinity]) by (vm_compute; reflexivity).
  rewrite Es. cbn.
  cbn in Hcount.
  split; [reflexivity|].
  split; [lia|]. split; [lia|].
  split; [f_equal; lia | lia].
Qed.

Example histogram_three_observations :
  Metrics.renderMetrics
    (after [Latency (Number "100.5"); Latency (of_Z 100); HttpRequest "/stats" 200;
            Latency (of_Z 700)])
  = [Metrics.http_requests_total "/stats" "200" 1;
     Metrics.request_latency_ms_bucket (Metrics.Bound (of_Z 100)) 1;
     Metrics.request_latency_ms_bucket (Metrics.Bound (of_Z 500)) 2;
     Metrics.request_latency_ms_bucket Metrics.PlusInf 3;
     Metrics.request_latency_ms_count 3;
     Metrics.request_latency_ms_sum (Finite (1801 # 2))].
Proof. vm_compute. reflexivity. Qed.

(** ** The webhook handler and its outcome counter *)

Example m1_request_is_signed :
  Security.isValidSignature (Main.x_signature m1_request)
    (Config.webhookSecret test_config) (Main.rawBody m1_request) = true.
Proof. vm_compute. reflexivity. Qed.

Example m1_body_validates : Models.safeParse m1_json = inl m1.
Proof. vm_compute. reflexivity. Qed.

Lemma finalize_webhookResults (config : Config.AppConfig) (call : Main.Call)
  (path : string) (status : Z) (extras : option WebhookLogExtras) (w : World) :
  Metrics.webhookResults (metrics (Main.finalize config call path status extras w))
  = Metrics.webhookResults (metrics w).
Proof.
  unfold Main.finalize, Logging.logRequest, Logging.logJSON.
  destruct (Logging.levelOrder INFO <? Logging.levelOrder (Config.logLevel config))%nat;
    reflexivity.
Qed.

Lemma finalize_db (config : Config.AppConfig) (call : Main.Call)
  (path : string) (status : Z) (extras : option WebhookLogExtras) (w : World) :
  db (Main.finalize config call path status extras w) = db w.
Proof.
  unfold Main.finalize, Logging.logRequest, Logging.logJSON.
  destruct (Logging.levelOrder INFO <? Logging.levelOrder (Config.logLevel config))%nat;
    reflexivity.
Qed.

Lemma insertMessage_metrics (m : WebhookMessage.t) (now : string)
  (w w' : World) (r : outcome InsertResult) :
  insertMessage m now w = (r, w') -> metrics w' = metrics w.
Proof.
  unfold insertMessage, mbind at 1.
  destruct (db w) as [d|] eqn:Hdb.
  2:{ rewrite (getDb_closed w Hdb). intros H. injection H as _ <-. reflexivity. }
  rewrite (getDb_open w d Hdb).
  unfold try_catch, mbind, lift, put_db, ret, throw.
  destruct (Sqlite.insert d _) as [d'|e].
  - intros H. injection H as _ <-. reflexivity.
  - destruct e as [msg|]; [destruct (includes msg _)|];
      intros H; injection H as _ <-; reflexivity.
Qed.

(** What one POST /webhook does to [webhook_requests_total]: one increment
    under "created" or "duplicate" when it answers 200, nothing otherwise. *)
Lemma webhook_counter_effect (config : Config.AppConfig)
  (JSON_parse : string -> option Json.value) (req : Main.WebhookRequest)
  (call : Main.Call) (w w' : World) (res : Main.Response) :
  Main.webhook config JSON_parse req call w = (Return res, w') ->
  (Main.status res = 200%Z ->
   exists tag,
     (tag = "created" \/ tag = "duplicate")
     /\ Metrics.webhookResults (metrics w')
        = Metrics.assign (Metrics.webhookResults (metrics w)) tag
            (Metrics.or_zero (Metrics.lookup (Metrics.webhookResults (metrics w)) tag) + 1))
  /\ (Main.status res <> 200%Z ->
      Metrics.webhookResults (metrics w') = Metrics.webhookResults (metrics w)).
Proof.
  unfold Main.webhook, Main.webhook_steps.
  destruct (negb (truthy_opt (Config.webhookSecret config))).
  { intros H. injection H as <- <-. rewrite finalize_webhookResults.
    split; [discriminate | reflexivity]. }
  destruct (negb (Security.isValidSignature _ _ _)).
  { intros H. injection H as <- <-. rewrite finalize_webhookResults.
    split; [discriminate | reflexivity]. }
  destruct (JSON_parse (Main.rawBody req)) as [bodyJson|].
  2:{ intros H. injection H as <- <-. rewrite finalize_webhookResults.
      split; [discriminate | reflexivity]. }
  destruct (Models.safeParse bodyJson) as [msg|issues].
  2:{ intros H. injection H as <- <-. rewrite finalize_webhookResults.
      split; [discriminate | reflexivity]. }
  destruct (insertMessage msg (Main.now call) w) as [[r|err] w1] eqn:Hins.
  - intros H. injection H as <- <-. rewrite finalize_webhookResults.
    apply insertMessage_metrics in Hins.
    split; [intros _ | intros H; exfalso; apply H; reflexivity].
    exists (if dup r then "duplicate" else "created").
    split; [destruct (dup r); [right|left]; reflexivity|].
    cbn. rewrite Hins. reflexivity.
  - intros H. injection H as <- <-. rewrite finalize_webhookResults.
    apply insertMessage_metrics in Hins. rewrite Hins.
    split; [discriminate | reflexivity].
Qed.

(** C2, at a request with a wrong signature ("deadbeef" over the body "abc")
    on a fresh process: the answer is 401, the request is counted under
    [http_requests_total] and logged with the result "invalid_signature",
    yet [webhook_requests_total] holds no entry at all afterwards. *)
Theorem webhook_invalid_signature_not_counted
  (JSON_parse : string -> option Json.value) :
  let r := Main.webhook test_config JSON_parse
             (Main.mkWebhookRequest (Some "deadbeef") "abc") call0 empty_world in
  fst r = Return (Main.mkResponse 401 (Main.detail "invalid signature"))
  /\ Metrics.lookup (Metrics.httpRequests (metrics (snd r))) "/webhook|401" = Some 1
  /\ console (snd r)
     = [request_line INFO "req-1" "POST" "/webhook" 401 (of_Z 3)
          (Some (mkExtras None false "invalid_signature"))]
  /\ Metrics.webhookResults (metrics (snd r)) = []
  /\ Metrics.lookup (Metrics.webhookResults (metrics (snd r))) "invalid_signature"
     = None.
Proof. vm_compute. repeat split; reflexivity. Qed.

(** The same on the other paths that never reach the counter: no secret
    configured, a body that is not JSON, and a failing insert. *)
Example webhook_other_outcomes_not_counted :
  (let r := Main.webhook (Config.mkAppConfig "sqlite:./data/app.db" None INFO)
              parse_m1 m1_request call0 empty_world in
   fst r = Return (Main.mkResponse 503 (Main.detail "service not ready"))
   /\ Metrics.webhookResults (metrics (snd r)) = [])
  /\ (let r := Main.webhook test_config parse_m1
                 (Main.mkWebhookRequest
                    (Some (Security.computeHmac "testsecret" "not json"))
                    "not json")
                 call0 empty_world in
      fst r = Return (Main.mkResponse 422 (Main.detail "invalid json"))
      /\ Metrics.webhookResults (metrics (snd r)) = [])
  /\ (let r := Main.webhook test_config parse_m1 m1_request call0
                 (broken_world (ThrownError "disk I/O error")) in
      fst r = Return (Main.mkResponse 500 (Main.detail "disk I/O error"))
      /\ Metrics.webhookResults (metrics (snd r)) = []).
Proof. vm_compute. repeat split; reflexivity. Qed.

(** The two outcomes that are counted: the scenario request sent twice. *)
Example webhook_created_then_duplicate :
  let r1 := Main.webhook test_config parse_m1 m1_request call0 empty_world in
  let r2 := Main.webhook test_config parse_m1 m1_request call0 (snd r1) in
  fst r1 = Return (Main.mkResponse 200 Main.status_ok)
  /\ fst r2 = Return (Main.mkResponse 200 Main.status_ok)
  /\ Metrics.webhookResults (metrics (snd r1)) = [("created", 1)]
  /\ Metrics.webhookResults (metrics (snd r2)) = [("created", 1); ("duplicate", 1)]
  /\ rows (snd r2) = [row_of m1 "2025-01-15T10:00:01.000Z"].
Proof. vm_compute. repeat split; reflexivity. Qed.

(** ** Internal failures *)

Lemma listMessages_failing (f : MessageFilters.t) (w : World)
  (d : Sqlite.Database) (err : thrown) :
  db w = Some d -> Sqlite.failure d = Some err ->
  listMessages f w
  = (Throw err,
     mkWorld (db w) (metrics w)
             (console w
              ++ [console_error "listMessages SQL error" ["sql"; "params"] err])).
Proof.
  intros Hdb Hf. unfold listMessages, mbind at 1. rewrite (getDb_open w d Hdb).
  unfold mbind, try_catch, lift, log, throw, Sqlite.select_page.
  rewrite Hf. reflexivity.
Qed.

Lemma getStats_failing (w : World) (d : Sqlite.Database) (err : thrown) :
  db w = Some d -> Sqlite.failure d = Some err -> getStats w = (Throw err, w).
Proof.
  intros Hdb Hf. unfold getStats, mbind at 1. rewrite (getDb_open w d Hdb).
  unfold mbind, lift, Sqlite.select_count. rewrite Hf. reflexivity.
Qed.

Lemma insertMessage_failing (m : WebhookMessage.t) (now : string) (w : World)
  (d : Sqlite.Database) (err : thrown) :
  db w = Some d -> Sqlite.failure d = Some err -> unique_violation err = false ->
  insertMessage m now w = (Throw err, w).
Proof.
  intros Hdb Hf Hu. unfold insertMessage, mbind at 1.
  rewrite (getDb_open w d Hdb).
  unfold try_catch, mbind, lift, throw, Sqlite.insert. rewrite Hf.
  destruct err as [msg|]; [|reflexivity].
  cbn in Hu. rewrite Hu. reflexivity.
Qed.






(** ** Pagination parameters *)

Lemma parseMessagesQuery_requested (url : Main.SearchParams) :
  Main.parseMessagesQuery url
  = if isNaN (requested url "limit" 50)
       || ltb (requested url "limit" 50) (of_Z 1)
       || gtb (requested url "limit" 50) (of_Z 100)
       || isNaN (requested url "offset" 0)
       || ltb (requested url "offset" 0) (of_Z 0)
    then inr Main.limit_offset_error
    else
      match Main.get url "since" with
      | Some s =>
          if truthy s && negb (Models.iso_utc_re s) then inr Main.since_error
          else inl (MessageFilters.mk (requested url "limit" 50)
                      (requested url "offset" 0) (Main.get url "from")
                      (Main.get url "since") (Main.get url "q"))
      | None =>
          inl (MessageFilters.mk (requested url "limit" 50)
                 (requested url "offset" 0) (Main.get url "from")
                 (Main.get url "since") (Main.get url "q"))
      end.
Proof. reflexivity. Qed.

Lemma limit_check (x : number) :
  isNaN x || ltb x (of_Z 1) || gtb x (of_Z 100) = false <-> limit_in_range x.
Proof.
  unfold limit_in_range. destruct x as [| | |q]; cbn.
  - split; [discriminate | intros [q [H _]]; discriminate].
  - split; [discriminate | intros [q [H _]]; discriminate].
  - split; [discriminate | intros [q [H _]]; discriminate].
  - rewrite orb_false_iff, !negb_false_iff, !Qle_bool_iff. split.
    + intros [H1 H2]. exists q. repeat split; assumption.
    + intros [q' [E [H1 H2]]]. injection E as <-. split; assumption.
Qed.

Lemma offset_check (x : number) :
  isNaN x || ltb x (of_Z 0) = false <-> offset_in_range x.
Proof.
  unfold offset_in_range. destruct x as [| | |q]; cbn.
  - split; [discriminate | intros [H|[q [H _]]]; discriminate].
  - split; [left; reflexivity | reflexivity].
  - split; [discriminate | intros [H|[q [H _]]]; discriminate].
  - rewrite negb_false_iff, Qle_bool_iff. split.
    + intros H. right. exists q. split; [reflexivity | exact H].
    + intros [H|[q' [E H]]]; [discriminate|]. injection E as <-. exact H.
Qed.

Lemma reject_check (x y : number) :
  isNaN x || ltb x (of_Z 1) || gtb x (of_Z 100) || isNaN y || ltb y (of_Z 0)
  = false
  <-> limit_in_range x /\ offset_in_range y.
Proof.
  rewrite <- orb_assoc, orb_false_iff, limit_check, offset_check. reflexivity.
Qed.

(** [limit=1.5] and [offset=Infinity] get past the checks of
    [parseMessagesQuery], which compare the numbers with the bounds and
    never test that they are integers. *)
Lemma fractional_limit_is_accepted :
  Main.parseMessagesQuery [("limit", "1.5")]
  = inl (MessageFilters.mk (Finite (3 # 2)) (of_Z 0) None None None)
  /\ integral (Finite (3 # 2)) = false
  /\ Main.parseMessagesQuery [("offset", "Infinity")]
     = inl (MessageFilters.mk (of_Z 50) PosInfinity None None None)
  /\ integral PosInfinity = false.
Proof. vm_compute. repeat split; reflexivity. Qed.

(** What the guard of [parseMessagesQuery] decides. [limit] and [offset] are
    read with [Number()], 50 and 0 standing in for a parameter that is
    omitted or empty, and the request is refused with status 422 and the
    detail "limit must be 1-100 and offset must be >=0" exactly when the
    limit is NaN, below 1 or above 100, or the offset is NaN or negative.
    [limit=0], [limit=101] and [offset=-1] are refused that way, whatever the
    state of the process. *)
Lemma limit_offset_guard (url : Main.SearchParams) :
  (Main.parseMessagesQuery url = inr Main.limit_offset_error
   <-> ~ (limit_in_range (requested url "limit" 50)
          /\ offset_in_range (requested url "offset" 0)))
  /\ (forall f, Main.parseMessagesQuery url = inl f ->
                MessageFilters.limit f = requested url "limit" 50
                /\ MessageFilters.offset f = requested url "offset" 0)
  /\ Main.status Main.limit_offset_error = 422%Z
  /\ Main.sent Main.limit_offset_error
     = Main.detail "limit must be 1-100 and offset must be >=0"
  /\ requested [] "limit" 50 = of_Z 50
  /\ requested [] "offset" 0 = of_Z 0
  /\ (forall config call w,
        fst (Main.messages config [("limit", "0")] call w)
        = Return Main.limit_offset_error
        /\ fst (Main.messages config [("limit", "101")] call w)
           = Return Main.limit_offset_error
        /\ fst (Main.messages config [("offset", "-1")] call w)
           = Return Main.limit_offset_error).
Proof.
  split; [|split].
  - rewrite parseMessagesQuery_requested.
    destruct (isNaN (requested url "limit" 50)
              || ltb (requested url "limit" 50) (of_Z 1)
              || gtb (requested url "limit" 50) (of_Z 100)
              || isNaN (requested url "offset" 0)
              || ltb (requested url "offset" 0) (of_Z 0)) eqn:E.
    + split; [|reflexivity].
      intros _ H. apply reject_check in H. congruence.
    + split.
      * destruct (Main.get url "since") as [s|];
          [destruct (truthy s && negb (Models.iso_utc_re s))|]; discriminate.
      * intros H. exfalso. apply H. apply reject_check, E.
  - intros f. rewrite parseMessagesQuery_requested.
    destruct (_ || _); [discriminate|].
    destruct (Main.get url "since") as [s|];
      [destruct (truthy s && negb (Models.iso_utc_re s)); [discriminate|]|];
      intros H; injection H as <-; split; reflexivity.
  - repeat split; reflexivity.
Qed.

(** A number that is not an integer cannot be bound to [LIMIT ?] or
    [OFFSET ?]. *)
Lemma bind_integer_not_integral (x : number) :
  integral x = false ->
  Sqlite.bind_integer x = Throw (ThrownError "datatype mismatch").
Proof.
  unfold Sqlite.bind_integer, integral. destruct x as [| | |q]; try reflexivity.
  intros ->. reflexivity.
Qed.

Lemma bind_integer_cases (x : number) :
  (exists z, Sqlite.bind_integer x = Return z)
  \/ Sqlite.bind_integer x = Throw (ThrownError "datatype mismatch").
Proof.
  unfold Sqlite.bind_integer. destruct x as [| | |q]; try (right; reflexivity).
  destruct (_ && _); [left; eexists; reflexivity | right; reflexivity].
Qed.

(** An accepted query whose limit or offset is not an integer is answered
    with 500 "datatype mismatch" by a store that is open and working. *)
Lemma messages_not_integral (config : Config.AppConfig)
  (url : Main.SearchParams) (call : Main.Call) (w : World)
  (f : MessageFilters.t) :
  serving w ->
  Main.parseMessagesQuery url = inl f ->
  integral (MessageFilters.limit f) = false
  \/ integral (MessageFilters.offset f) = false ->
  fst (Main.messages config url call w)
  = Return (Main.mkResponse 500 (Main.detail "datatype mismatch")).
Proof.
  intros [d [Hdb Hf]] Hp Hi. unfold Main.messages. rewrite Hp.
  assert (H : Sqlite.select_page d (where_ (clauses f)) (MessageFilters.limit f)
                (MessageFilters.offset f)
              = Throw (ThrownError "datatype mismatch")).
  { unfold Sqlite.select_page. rewrite Hf.
    destruct Hi as [Hl|Ho].
    - rewrite (bind_integer_not_integral _ Hl). reflexivity.
    - rewrite (bind_integer_not_integral _ Ho).
      destruct (bind_integer_cases (MessageFilters.limit f)) as [[n ->]| ->];
        reflexivity. }
  unfold listMessages, mbind at 1. rewrite (getDb_open w d Hdb).
  unfold mbind, try_catch, lift, log, throw. rewrite H. reflexivity.
Qed.

(** C5, at [limit=1.5] and at [offset=Infinity]. Neither value is an
    integer, yet [parseMessagesQuery] accepts both requests instead of
    refusing them with 422: its guard compares the numbers with the bounds
    and has no test for an integer. The accepted value is then bound to
    [LIMIT ? OFFSET ?], the statement fails with "datatype mismatch", and the
    request is answered with status 500 and that detail. The same happens
    for every accepted query whose limit or offset is not an integer, on
    every store that is open and working. The neighbouring integer requests
    [limit=1] and [limit=2] are answered with 200. *)
Theorem fractional_limit_ends_in_500 :
  integral (Number "1.5") = false
  /\ Main.parseMessagesQuery [("limit", "1.5")]
     = inl (MessageFilters.mk (Number "1.5") (of_Z 0) None None None)
  /\ fst (Main.messages test_config [("limit", "1.5")] call0 tie_world)
     = Return (Main.mkResponse 500 (Main.detail "datatype mismatch"))
  /\ integral (Number "Infinity") = false
  /\ Main.parseMessagesQuery [("offset", "Infinity")]
     = inl (MessageFilters.mk (of_Z 50) (Number "Infinity") None None None)
  /\ fst (Main.messages test_config [("offset", "Infinity")] call0 tie_world)
     = Return (Main.mkResponse 500 (Main.detail "datatype mismatch"))
  /\ (forall config url call w f,
        serving w ->
        Main.parseMessagesQuery url = inl f ->
        integral (MessageFilters.limit f) = false
        \/ integral (MessageFilters.offset f) = false ->
        fst (Main.messages config url call w)
        = Return (Main.mkResponse 500 (Main.detail "datatype mismatch")))
  /\ Main.status
       (match fst (Main.messages test_config [("limit", "1")] call0 tie_world) with
        | Return r => r
        | Throw _ => Main.mkResponse 0 (Main.detail "")
        end) = 200%Z
  /\ Main.status
       (match fst (Main.messages test_config [("limit", "2")] call0 tie_world) with
        | Return r => r
        | Throw _ => Main.mkResponse 0 (Main.detail "")
        end) = 200%Z.
Proof.
  split; [vm_compute; reflexivity|].
  split; [vm_compute; reflexivity|].
  split; [vm_compute; reflexivity|].
  split; [vm_compute; reflexivity|].
  split; [vm_compute; reflexivity|].
  split; [vm_compute; reflexivity|].
  split; [|split; vm_compute; reflexivity].
  intros config url call w f. apply messages_not_integral.
Qed.

(** ** Empty query parameters *)

Lemma clauses_without_empty (f : MessageFilters.t) :
  clauses (without_empty f) = clauses f.
Proof.
  unfold clauses, without_empty. cbn.
  destruct (MessageFilters.from f) as [[|a x]|];
    destruct (MessageFilters.since f) as [[|b y]|];
    destruct (MessageFilters.q f) as [[|c z]|]; reflexivity.
Qed.

Lemma listMessages_without_empty (f : MessageFilters.t) (w : World) :
  listMessages f w = listMessages (without_empty f) w.
Proof.
  unfold listMessages. rewrite clauses_without_empty. reflexivity.
Qed.

Lemma filter_all {A : Type} (p : A -> bool) (l : list A) :
  (forall x, p x = true) -> filter p l = l.
Proof.
  intros H. induction l as [|x l IH]; [reflexivity|].
  cbn. rewrite H, IH. reflexivity.
Qed.

Lemma requested_drop_empty (url1 url2 : Main.SearchParams) (name : string)
  (default : Z) :
  drop_empty (Main.get url1 name) = drop_empty (Main.get url2 name) ->
  requested url1 name default = requested url2 name default.
Proof.
  unfold requested.
  destruct (Main.get url1 name) as [[|a x]|], (Main.get url2 name) as [[|b y]|];
    cbn; intros H; try reflexivity; try discriminate.
  injection H as -> ->. reflexivity.
Qed.

(** Two query strings that differ only in parameters given empty on one side
    and left out on the other are parsed alike: both refused with the same
    error, or both accepted with the same numbers and the same filters once
    empty filters are dropped. *)
Lemma parseMessagesQuery_drop_empty (url1 url2 : Main.SearchParams) :
  (forall name, In name ["limit"; "offset"; "from"; "since"; "q"] ->
                drop_empty (Main.get url1 name) = drop_empty (Main.get url2 name)) ->
  match Main.parseMessagesQuery url1, Main.parseMessagesQuery url2 with
  | inl f1, inl f2 =>
      without_empty f1 = without_empty f2
      /\ MessageFilters.limit f1 = MessageFilters.limit f2
      /\ MessageFilters.offset f1 = MessageFilters.offset f2
  | inr e1, inr e2 => e1 = e2
  | _, _ => False
  end.
Proof.
  intros H.
  pose proof (H "limit" (or_introl eq_refl)) as Hl.
  pose proof (H "offset" (or_intror (or_introl eq_refl))) as Ho.
  pose proof (H "from" (or_intror (or_intror (or_introl eq_refl)))) as Hf.
  pose proof (H "since" (or_intror (or_intror (or_intror (or_introl eq_refl)))))
    as Hs.
  pose proof (H "q" (or_intror (or_intror (or_intror (or_intror
                       (or_introl eq_refl)))))) as Hq.
  rewrite !parseMessagesQuery_requested.
  rewrite (requested_drop_empty url1 url2 "limit" 50 Hl),
          (requested_drop_empty url1 url2 "offset" 0 Ho).
  destruct (_ || _); [reflexivity|].
  unfold without_empty.
  destruct (Main.get url1 "since") as [[|a x]|],
           (Main.get url2 "since") as [[|b y]|];
    cbn in Hs; try discriminate; cbn [truthy andb];
    try (injection Hs as -> ->; destruct (negb (Models.iso_utc_re _));
         cbn [andb]; [reflexivity|]);
    cbn; rewrite Hf, Hq; repeat split; reflexivity.
Qed.

(** With [limit] and [offset] left out or empty, the guard on the two
    numbers lets the request through with 50 and 0; with [since] left out or
    empty as well, the request is accepted. *)
Lemma parseMessagesQuery_empty_numbers (url : Main.SearchParams) :
  drop_empty (Main.get url "limit") = None ->
  drop_empty (Main.get url "offset") = None ->
  Main.parseMessagesQuery url <> inr Main.limit_offset_error
  /\ (forall f, Main.parseMessagesQuery url = inl f ->
                MessageFilters.limit f = of_Z 50
                /\ MessageFilters.offset f = of_Z 0)
  /\ (drop_empty (Main.get url "since") = None ->
      Main.parseMessagesQuery url
      = inl (MessageFilters.mk (of_Z 50) (of_Z 0) (Main.get url "from")
               (Main.get url "since") (Main.get url "q"))).
Proof.
  intros Hl Ho. unfold Main.parseMessagesQuery.
  destruct (Main.get url "limit") as [[|a x]|]; try discriminate Hl;
    destruct (Main.get url "offset") as [[|b y]|]; try discriminate Ho;
    cbn [truthy]; cbv iota;
    (replace (isNaN (of_Z 50) || ltb (of_Z 50) (of_Z 1)
              || gtb (of_Z 50) (of_Z 100) || isNaN (of_Z 0)
              || ltb (of_Z 0) (of_Z 0)) with false by (vm_compute; reflexivity));
    cbv iota;
    (split; [|split]);
    try (destruct (Main.get url "since") as [s|];
         [destruct (truthy s && negb (Models.iso_utc_re s))|]; discriminate);
    try (intros f; destruct (Main.get url "since") as [s|];
         [destruct (truthy s && negb (Models.iso_utc_re s)); [discriminate|]|];
         intros H; injection H as <-; split; reflexivity);
    (destruct (Main.get url "since") as [[|c z]|]; try discriminate;
     intros _; reflexivity).
Qed.

(** Filters that are all left out or empty select every row. *)
Lemma matching_no_filter (f : MessageFilters.t) (d : Sqlite.Database) :
  drop_empty (MessageFilters.from f) = None ->
  drop_empty (MessageFilters.since f) = None ->
  drop_empty (MessageFilters.q f) = None ->
  matching f d = Sqlite.messages d.
Proof.
  intros Hf Hs Hq. unfold matching. rewrite <- clauses_without_empty.
  unfold without_empty, clauses.
  cbn [MessageFilters.from MessageFilters.since MessageFilters.q].
  rewrite Hf, Hs, Hq. apply filter_all. intros r. reflexivity.
Qed.

(** A request whose five parameters are all left out or empty is answered by
    an open and working store with the first 50 rows of the whole table in
    the listing order, and with the size of the table as total. *)
Lemma messages_all_empty (config : Config.AppConfig) (url : Main.SearchParams)
  (call : Main.Call) (w : World) (d : Sqlite.Database) :
  db w = Some d -> Sqlite.failure d = None ->
  (forall name, In name ["limit"; "offset"; "from"; "since"; "q"] ->
                drop_empty (Main.get url name) = None) ->
  fst (Main.messages config url call w)
  = Return (Main.mkResponse 200
      (Main.page
         (map stored (firstn 50 (Sqlite.order_by Sqlite.ts_id_asc
                                   (Sqlite.messages d))))
         (List.length (Sqlite.messages d)) (of_Z 50) (of_Z 0))).
Proof.
  intros Hdb Hfail H.
  pose proof (H "limit" (or_introl eq_refl)) as Hl.
  pose proof (H "offset" (or_intror (or_introl eq_refl))) as Ho.
  pose proof (H "from" (or_intror (or_intror (or_introl eq_refl)))) as Hf.
  pose proof (H "since"
                (or_intror (or_intror (or_intror (or_introl eq_refl))))) as Hs.
  pose proof (H "q"
                (or_intror (or_intror (or_intror (or_intror (or_introl eq_refl))))))
    as Hq.
  destruct (parseMessagesQuery_empty_numbers url Hl Ho) as [_ [_ Hp]].
  specialize (Hp Hs). unfold Main.messages. rewrite Hp.
  rewrite (listMessages_serving
             (MessageFilters.mk (of_Z 50) (of_Z 0) (Main.get url "from")
                (Main.get url "since") (Main.get url "q"))
             w d 50 0 Hdb Hfail eq_refl eq_refl).
  rewrite (matching_no_filter
             (MessageFilters.mk (of_Z 50) (of_Z 0) (Main.get url "from")
                (Main.get url "since") (Main.get url "q")) d Hf Hs Hq).
  reflexivity.
Qed.

(** C10. A parameter given as the empty string is handled as if it were left
    out: two requests that differ only in that way get the same answer from
    GET /messages and leave the same state behind. An empty [limit] or
    [offset] is not refused: with both left out or empty
    [parseMessagesQuery] never answers the limit and offset error, every
    accepted query carries 50 and 0, and the query is accepted as soon as
    [since] is left out or empty too, an empty [since] not being checked
    against the timestamp pattern. An empty [from], [since] or [q] filters
    nothing, so that with all three empty every stored message matches; and a
    request with all five parameters left out or empty is answered 200 by an
    open and working store with the first 50 rows of the whole table, its
    size as total, limit 50 and offset 0. *)
Theorem empty_parameters_are_absent (url1 url2 : Main.SearchParams) :
  (forall name, In name ["limit"; "offset"; "from"; "since"; "q"] ->
                drop_empty (Main.get url1 name) = drop_empty (Main.get url2 name)) ->
  (forall config call w,
      Main.messages config url1 call w = Main.messages config url2 call w)
  /\ requested url1 "limit" 50 = requested url2 "limit" 50
  /\ requested url1 "offset" 0 = requested url2 "offset" 0
  /\ (forall f w, listMessages f w = listMessages (without_empty f) w)
  /\ (forall limit offset d,
        matching (MessageFilters.mk limit offset (Some "") (Some "") (Some "")) d
        = Sqlite.messages d)
  /\ (forall url,
        drop_empty (Main.get url "limit") = None ->
        drop_empty (Main.get url "offset") = None ->
        Main.parseMessagesQuery url <> inr Main.limit_offset_error
        /\ (forall f, Main.parseMessagesQuery url = inl f ->
                      MessageFilters.limit f = of_Z 50
                      /\ MessageFilters.offset f = of_Z 0)
        /\ (drop_empty (Main.get url "since") = None ->
            Main.parseMessagesQuery url
            = inl (MessageFilters.mk (of_Z 50) (of_Z 0) (Main.get url "from")
                     (Main.get url "since") (Main.get url "q"))))
  /\ (forall config url call w d,
        db w = Some d -> Sqlite.failure d = None ->
        (forall name, In name ["limit"; "offset"; "from"; "since"; "q"] ->
                      drop_empty (Main.get url name) = None) ->
        fst (Main.messages config url call w)
        = Return (Main.mkResponse 200
            (Main.page
               (map stored (firstn 50 (Sqlite.order_by Sqlite.ts_id_asc
                                         (Sqlite.messages d))))
               (List.length (Sqlite.messages d)) (of_Z 50) (of_Z 0))))
  /\ ((forall name, In name ["limit"; "offset"; "since"] ->
                    drop_empty (Main.get url1 name) = None) ->
      Main.parseMessagesQuery url1
      = inl (MessageFilters.mk (of_Z 50) (of_Z 0) (Main.get url1 "from")
               (Main.get url1 "since") (Main.get url1 "q"))
      /\ exists f2,
           Main.parseMessagesQuery url2 = inl f2
           /\ MessageFilters.limit f2 = of_Z 50
           /\ MessageFilters.offset f2 = of_Z 0).
Proof.
  intros H. split; [|split; [|split; [|split; [|split; [|split; [|split]]]]]].
  - intros config call w. unfold Main.messages.
    pose proof (parseMessagesQuery_drop_empty url1 url2 H) as Hp.
    destruct (Main.parseMessagesQuery url1) as [f1|e1],
             (Main.parseMessagesQuery url2) as [f2|e2]; try contradiction.
    + destruct Hp as [Hw [Hl Ho]].
      rewrite (listMessages_without_empty f1), (listMessages_without_empty f2),
        Hw, Hl, Ho.
      reflexivity.
    + subst e2. reflexivity.
  - apply requested_drop_empty, H. left. reflexivity.
  - apply requested_drop_empty, H. right. left. reflexivity.
  - intros f w. apply listMessages_without_empty.
  - intros limit offset d. unfold matching. apply filter_all.
    intros r. reflexivity.
  - intros url. apply parseMessagesQuery_empty_numbers.
  - intros config url call w d. apply messages_all_empty.
  - intros H1.
    pose proof (H1 "limit" (or_introl eq_refl)) as Hl.
    pose proof (H1 "offset" (or_intror (or_introl eq_refl))) as Ho.
    pose proof (H1 "since" (or_intror (or_intror (or_introl eq_refl)))) as Hs.
    destruct (parseMessagesQuery_empty_numbers url1 Hl Ho) as [_ [_ Hp1]].
    specialize (Hp1 Hs). split; [exact Hp1|].
    pose proof (parseMessagesQuery_drop_empty url1 url2 H) as Hp.
    rewrite Hp1 in Hp.
    destruct (Main.parseMessagesQuery url2) as [f2|e2]; [|contradiction].
    destruct Hp as [_ [Hl2 Ho2]]. exists f2.
    split; [reflexivity|]. cbn in Hl2, Ho2. split; congruence.
Qed.

Lemma empty_parameters_are_absent_witness :
  (forall name, In name ["limit"; "offset"; "from"; "since"; "q"] ->
     drop_empty
       (Main.get [("limit", ""); ("offset", ""); ("from", ""); ("since", "");
                  ("q", "")] name)
     = drop_empty (Main.get [] name))
  /\ (forall config call w,
        Main.messages config
          [("limit", ""); ("offset", ""); ("from", ""); ("since", ""); ("q", "")]
          call w
        = Main.messages config [] call w)
  /\ requested [("limit", ""); ("offset", ""); ("from", ""); ("since", "");
                ("q", "")] "limit" 50 = of_Z 50
  /\ requested [("limit", ""); ("offset", ""); ("from", ""); ("since", "");
                ("q", "")] "offset" 0 = of_Z 0
  /\ Main.parseMessagesQuery
       [("limit", ""); ("offset", ""); ("from", ""); ("since", ""); ("q", "")]
     = inl (MessageFilters.mk (of_Z 50) (of_Z 0) (Some "") (Some "") (Some ""))
  /\ Main.parseMessagesQuery [] 
     = inl (MessageFilters.mk (of_Z 50) (of_Z 0) None None None)
  /\ fst (Main.messages test_config
            [("limit", ""); ("offset", ""); ("from", ""); ("since", ""); ("q", "")]
            call0 tie_world)
     = Return (Main.mkResponse 200
         (Main.page
            [StoredMessage.mk "m0" "+100" "+300" "2025-01-15T10:00:00Z"
               (Some "bye") "c3";
             StoredMessage.mk "m1" "+100" "+300" "2025-01-15T10:00:01Z"
               (Some "Hello") "c2";
             StoredMessage.mk "m2" "+200" "+300" "2025-01-15T10:00:01Z" None "c1"]
            3 (of_Z 50) (of_Z 0))).
Proof.
  assert (H : forall name, In name ["limit"; "offset"; "from"; "since"; "q"] ->
     drop_empty
       (Main.get [("limit", ""); ("offset", ""); ("from", ""); ("since", "");
                  ("q", "")] name)
     = drop_empty (Main.get [] name)).
  { intros name Hin.
    destruct Hin as [<-|[<-|[<-|[<-|[<-|[]]]]]]; reflexivity. }
  assert (H0 : forall name, In name ["limit"; "offset"; "from"; "since"; "q"] ->
     drop_empty
       (Main.get [("limit", ""); ("offset", ""); ("from", ""); ("since", "");
                  ("q", "")] name)
     = None).
  { intros name Hin.
    destruct Hin as [<-|[<-|[<-|[<-|[<-|[]]]]]]; reflexivity. }
  split; [exact H|].
  destruct (empty_parameters_are_absent
              [("limit", ""); ("offset", ""); ("from", ""); ("since", ""); ("q", "")]
              [] H) as [H1 [H2 [H3 [_ [_ [H6 [H7 _]]]]]]].
  split; [exact H1|]. split; [exact H2|]. split; [exact H3|].
  split.
  { destruct (H6 [("limit", ""); ("offset", ""); ("from", ""); ("since", "");
                  ("q", "")] eq_refl eq_refl) as [_ [_ Hp]].
    exact (Hp eq_refl). }
  split.
  { destruct (H6 [] eq_refl eq_refl) as [_ [_ Hp]]. exact (Hp eq_refl). }
  exact (H7 test_config
            [("limit", ""); ("offset", ""); ("from", ""); ("since", ""); ("q", "")]
            call0 tie_world tie_db eq_refl eq_refl H0).
Defined.

Example empty_parameters_parse :
  Main.parseMessagesQuery
    [("limit", ""); ("offset", ""); ("from", ""); ("since", ""); ("q", "")]
  = inl (MessageFilters.mk (of_Z 50) (of_Z 0) (Some "") (Some "") (Some "")).
Proof. vm_compute. reflexivity. Qed.

(** GET /messages?limit=&offset=&from=&since=&q= on the three stored rows
    answers 200 with all of them. *)
Example empty_parameters_list_everything :
  fst (Main.messages test_config
         [("limit", ""); ("offset", ""); ("from", ""); ("since", ""); ("q", "")]
         call0 tie_world)
  = Return (Main.mkResponse 200
      (Main.page
         [StoredMessage.mk "m0" "+100" "+300" "2025-01-15T10:00:00Z" (Some "bye") "c3";
          StoredMessage.mk "m1" "+100" "+300" "2025-01-15T10:00:01Z" (Some "Hello") "c2";
          StoredMessage.mk "m2" "+200" "+300" "2025-01-15T10:00:01Z" None "c1"]
         3 (of_Z 50) (of_Z 0))).
Proof. vm_compute. reflexivity. Qed.

(** ** The text filter *)

Lemma fold_sql_and_not_true (cs : list (Sqlite.Row.t -> Sqlite.sqlbool))
  (r : Sqlite.Row.t) (acc : Sqlite.sqlbool) :
  acc <> Some true ->
  fold_left (fun acc c => Sqlite.sql_and acc (c r)) cs acc <> Some true.
Proof.
  revert acc. induction cs as [|c cs IH]; intros acc Hacc; cbn; [exact Hacc|].
  apply IH. destruct acc as [[|]|]; [contradiction| |];
    destruct (c r) as [[|]|]; cbn; discriminate.
Qed.

Lemma where_app_not_true (cs1 cs2 : list (Sqlite.Row.t -> Sqlite.sqlbool))
  (r : Sqlite.Row.t) :
  (exists c, In c cs2 /\ c r <> Some true) ->
  where_ (cs1 ++ cs2) r <> Some true.
Proof.
  unfold where_. rewrite fold_left_app.
  generalize (fold_left (fun acc c => Sqlite.sql_and acc (c r)) cs1 (Some true)).
  induction cs2 as [|c cs2 IH]; intros acc [c0 [Hin Hc]]; [destruct Hin|].
  cbn. destruct Hin as [->|Hin].
  - apply fold_sql_and_not_true.
    destruct acc as [[|]|]; destruct (c0 r) as [[|]|]; cbn;
      try discriminate; contradiction.
  - apply IH. exists c0. split; assumption.
Qed.

(** A message without text is never returned under a non-empty [q]. *)
Lemma null_text_never_matches (f : MessageFilters.t) (d : Sqlite.Database)
  (r : Sqlite.Row.t) :
  truthy_opt (MessageFilters.q f) = true -> Sqlite.Row.text r = None ->
  ~ In r (matching f d).
Proof.
  intros Hq Ht Hin. unfold matching in Hin. apply filter_In in Hin.
  destruct Hin as [_ Hin].
  destruct (MessageFilters.q f) as [q|] eqn:Eq; [|discriminate].
  cbn in Hq.
  assert (H : where_ (clauses f) r <> Some true).
  { unfold clauses. rewrite Eq, Hq, app_assoc. apply where_app_not_true.
    eexists. split; [left; reflexivity|]. cbv beta. rewrite Ht. discriminate. }
  destruct (where_ (clauses f) r) as [[|]|]; [contradiction | discriminate..].
Qed.

(** *** LIKE on a query without wildcards *)

Lemma take_continuation_length (s : list ascii) :
  List.length (snd (Sqlite.take_continuation s)) <= List.length s.
Proof.
  induction s as [|c s IH]; cbn; [lia|].
  destruct (Sqlite.is_continuation c); [|cbn; lia].
  destruct (Sqlite.take_continuation s) as [k r]. cbn in *. lia.
Qed.

Lemma uchars_fuel_enough (n : nat) :
  forall m l,
    List.length l <= n -> List.length l <= m ->
    Sqlite.uchars_fuel n l = Sqlite.uchars_fuel m l.
Proof.
  induction n as [|n IH]; intros m l Hn Hm.
  - destruct l; [|cbn in Hn; lia]. destruct m; reflexivity.
  - destruct l as [|c l]; [destruct m; reflexivity|].
    destruct m as [|m]; [cbn in Hm; lia|].
    cbn [Sqlite.uchars_fuel]. cbn in Hn, Hm.
    destruct (192 <=? code c)%Z.
    + pose proof (take_continuation_length l) as Hk.
      destruct (Sqlite.take_continuation l) as [k r]. cbn in Hk.
      f_equal. apply IH; lia.
    + f_equal. apply IH; lia.
Qed.

(** How the characters of a string begin. *)
Lemma uchars_cons (c : ascii) (s : string) :
  Sqlite.uchars (String c s)
  = if (192 <=? code c)%Z
    then (c :: fst (Sqlite.take_continuation (list_ascii_of_string s)))
         :: Sqlite.uchars
              (string_of_list_ascii
                 (snd (Sqlite.take_continuation (list_ascii_of_string s))))
    else [c] :: Sqlite.uchars s.
Proof.
  unfold Sqlite.uchars. cbn [list_ascii_of_string List.length Sqlite.uchars_fuel].
  destruct (192 <=? code c)%Z; [|reflexivity].
  pose proof (take_continuation_length (list_ascii_of_string s)) as Hk.
  destruct (Sqlite.take_continuation (list_ascii_of_string s)) as [k r].
  cbn [fst snd] in *. rewrite list_ascii_of_string_of_list_ascii.
  f_equal. apply uchars_fuel_enough; lia.
Qed.

Lemma lower_ascii_idem (c : ascii) :
  Sqlite.lower_ascii (Sqlite.lower_ascii c) = Sqlite.lower_ascii c.
Proof. each_ascii c. Qed.

Lemma lower_ascii_low (c : ascii) :
  implb (code c <? 128)%Z (code (Sqlite.lower_ascii c) <? 128)%Z = true.
Proof. each_ascii c. Qed.

Lemma lower_ascii_high (c : ascii) :
  implb (128 <=? code c)%Z (128 <=? code (Sqlite.lower_ascii c))%Z = true.
Proof. each_ascii c. Qed.

Lemma plain_low (c : ascii) : implb (plain c) (code c <? 128)%Z = true.
Proof. each_ascii c. Qed.

Lemma plain_lower (c : ascii) : implb (plain c) (plain (Sqlite.lower_ascii c)) = true.
Proof. each_ascii c. Qed.

Lemma plain_not_wildcard (c : ascii) :
  implb (plain c) (negb (Sqlite.is_percent [c]) && negb (Sqlite.is_underscore [c]))
  = true.
Proof. each_ascii c. Qed.

Lemma not_continuation_low (c : ascii) :
  implb (Sqlite.is_continuation c) (128 <=? code c)%Z = true.
Proof. each_ascii c. Qed.

Lemma lead_high (c : ascii) :
  implb (192 <=? code c)%Z (128 <=? code c)%Z = true.
Proof. each_ascii c. Qed.

Lemma implb_true (a b : bool) : implb a b = true -> a = true -> b = true.
Proof. destruct a, b; cbn; congruence. Qed.

(** A plain character never equals, case set aside, a byte of 128 or more. *)
Lemma plain_differs_from_high (p c : ascii) :
  plain p = true -> (128 <=? code c)%Z = true ->
  Ascii.eqb (Sqlite.lower_ascii p) (Sqlite.lower_ascii c) = false.
Proof.
  intros Hp Hc.
  pose proof (implb_true _ _ (lower_ascii_low p)
                (implb_true _ _ (plain_low p) Hp)) as H1.
  pose proof (implb_true _ _ (lower_ascii_high c) Hc) as H2.
  destruct (Ascii.eqb_spec (Sqlite.lower_ascii p) (Sqlite.lower_ascii c)) as [E|E];
    [|reflexivity].
  rewrite E in H1. apply Z.ltb_lt in H1. apply Z.leb_le in H2. lia.
Qed.

Lemma lower_idem (s : string) : Sqlite.lower (Sqlite.lower s) = Sqlite.lower s.
Proof.
  induction s as [|c s IH]; [reflexivity|].
  cbn. rewrite lower_ascii_idem, IH. reflexivity.
Qed.

Lemma all_plain_lower (s : string) :
  all_plain s = true -> all_plain (Sqlite.lower s) = true.
Proof.
  induction s as [|c s IH]; [reflexivity|]. cbn.
  intros H. apply andb_true_iff in H as [H1 H2].
  rewrite (implb_true _ _ (plain_lower c) H1), (IH H2). reflexivity.
Qed.

Lemma like_percent_cons (pat : list Sqlite.uchar) (g : Sqlite.uchar)
  (G : list Sqlite.uchar) :
  Sqlite.like_match (["%"%char] :: pat) (g :: G)
  = Sqlite.like_match pat (g :: G) || Sqlite.like_match (["%"%char] :: pat) G.
Proof. reflexivity. Qed.

Lemma like_percent_nil (pat : list Sqlite.uchar) :
  Sqlite.like_match (["%"%char] :: pat) [] = Sqlite.like_match pat [] || false.
Proof. reflexivity. Qed.

Lemma like_trailing_percent (G : list Sqlite.uchar) :
  Sqlite.like_match [["%"%char]] G = true.
Proof.
  induction G as [|g G IH]; [reflexivity|].
  rewrite like_percent_cons, IH. apply orb_true_r.
Qed.

Lemma like_plain_cons (p : ascii) (pat : list Sqlite.uchar)
  (G : list Sqlite.uchar) :
  plain p = true ->
  Sqlite.like_match ([p] :: pat) G
  = match G with
    | [] => false
    | d :: G' => Sqlite.like_char_eqb [p] d && Sqlite.like_match pat G'
    end.
Proof.
  intros Hp.
  pose proof (implb_true _ _ (plain_not_wildcard p) Hp) as H.
  apply andb_true_iff in H as [H1 H2].
  apply negb_true_iff in H1, H2.
  cbn [Sqlite.like_match]. rewrite H1. destruct G as [|d G']; [reflexivity|].
  rewrite H2. reflexivity.
Qed.

(** A literal pattern followed by [%] matches exactly the strings that begin
    with it. *)
Lemma like_literal_prefix (P : string) :
  all_plain P = true ->
  forall s,
    Sqlite.like_match (literal P ++ [["%"%char]]) (Sqlite.uchars s)
    = prefixb (Sqlite.lower P) (Sqlite.lower s).
Proof.
  induction P as [|p P IH]; intros HP s.
  - cbn. apply like_trailing_percent.
  - cbn in HP. apply andb_true_iff in HP as [Hp HP].
    change (literal (String p P) ++ [["%"%char]])
      with ([p] :: (literal P ++ [["%"%char]])).
    rewrite (like_plain_cons p _ _ Hp).
    destruct s as [|c s]; [reflexivity|].
    rewrite uchars_cons. cbn [Sqlite.lower prefixb].
    destruct (192 <=? code c)%Z eqn:Ec.
    + rewrite (plain_differs_from_high p c Hp (implb_true _ _ (lead_high c) Ec)).
      cbn [andb].
      destruct (fst (Sqlite.take_continuation (list_ascii_of_string s)))
        as [|k0 k] eqn:Ek.
      * cbn [Sqlite.like_char_eqb].
        rewrite (plain_differs_from_high p c Hp (implb_true _ _ (lead_high c) Ec)).
        reflexivity.
      * cbn [Sqlite.like_char_eqb]. unfold Sqlite.uchar_eqb.
        destruct (list_eq_dec ascii_dec [p] (c :: k0 :: k)) as [E|E];
          [discriminate | reflexivity].
    + cbn [Sqlite.like_char_eqb]. rewrite (IH HP s). reflexivity.
Qed.

Lemma includes_empty (s : string) : includes s EmptyString = true.
Proof. destruct s; reflexivity. Qed.

(** Continuation bytes at the head of a text cannot begin a plain query. *)
Lemma includes_after_continuation (P : string) :
  all_plain P = true ->
  forall s,
    includes (Sqlite.lower s) (Sqlite.lower P)
    = includes
        (Sqlite.lower
           (string_of_list_ascii
              (snd (Sqlite.take_continuation (list_ascii_of_string s)))))
        (Sqlite.lower P).
Proof.
  intros HP. induction s as [|c s IH]; [reflexivity|].
  cbn [list_ascii_of_string Sqlite.take_continuation].
  destruct (Sqlite.is_continuation c) eqn:Ec.
  - destruct (Sqlite.take_continuation (list_ascii_of_string s)) as [k r] eqn:Ek.
    cbn [snd] in *. rewrite <- IH.
    destruct P as [|p P]; [rewrite !includes_empty; reflexivity|].
    cbn in HP. apply andb_true_iff in HP as [Hp _].
    cbn [Sqlite.lower includes prefixb].
    rewrite (plain_differs_from_high p c Hp
               (implb_true _ _ (not_continuation_low c) Ec)).
    reflexivity.
  - cbn [snd string_of_list_ascii].
    rewrite string_of_list_ascii_of_string. reflexivity.
Qed.

Lemma length_string_of_list_ascii (l : list ascii) :
  String.length (string_of_list_ascii l) = List.length l.
Proof. induction l as [|c l IH]; cbn; [reflexivity | rewrite IH; reflexivity]. Qed.

Lemma length_list_ascii_of_string (s : string) :
  List.length (list_ascii_of_string s) = String.length s.
Proof. induction s as [|c s IH]; cbn; [reflexivity | rewrite IH; reflexivity]. Qed.

Lemma like_contains_length (P : string) (n : nat) :
  all_plain P = true ->
  forall s,
    String.length s <= n ->
    Sqlite.like_match (["%"%char] :: literal P ++ [["%"%char]]) (Sqlite.uchars s)
    = includes (Sqlite.lower s) (Sqlite.lower P).
Proof.
  intros HP. induction n as [|n IH]; intros s Hn.
  - destruct s; [|cbn in Hn; lia].
    change (Sqlite.uchars "") with (@nil Sqlite.uchar).
    rewrite like_percent_nil.
    change (@nil Sqlite.uchar) with (Sqlite.uchars "").
    rewrite (like_literal_prefix P HP ""). reflexivity.
  - destruct s as [|c s].
    { change (Sqlite.uchars "") with (@nil Sqlite.uchar).
      rewrite like_percent_nil.
      change (@nil Sqlite.uchar) with (Sqlite.uchars "").
      rewrite (like_literal_prefix P HP ""). reflexivity. }
    cbn in Hn.
    pose proof (like_literal_prefix P HP (String c s)) as Hhead.
    rewrite uchars_cons in *.
    cbn [Sqlite.lower includes].
    fold (Sqlite.lower (String c s)).
    destruct (192 <=? code c)%Z; cbv iota in Hhead |- *.
    + rewrite like_percent_cons.
      apply f_equal2; [exact Hhead|].
      rewrite IH.
      * symmetry. apply includes_after_continuation, HP.
      * pose proof (take_continuation_length (list_ascii_of_string s)) as Hk.
        rewrite length_string_of_list_ascii.
        rewrite length_list_ascii_of_string in Hk. lia.
    + rewrite like_percent_cons.
      apply f_equal2; [exact Hhead|]. apply IH. lia.
Qed.

Lemma uchars_plain_app (P : string) :
  all_plain P = true ->
  forall S, Sqlite.uchars (P ++ S)%string = literal P ++ Sqlite.uchars S.
Proof.
  induction P as [|p P IH]; intros HP S; [reflexivity|].
  cbn in HP. apply andb_true_iff in HP as [Hp HP].
  cbn [String.append]. rewrite uchars_cons.
  pose proof (implb_true _ _ (plain_low p) Hp) as Hlow.
  apply Z.ltb_lt in Hlow.
  assert (E : (192 <=? code p)%Z = false) by (apply Z.leb_gt; lia).
  rewrite E, (IH HP S). reflexivity.
Qed.

(** For a query without [%], [_] and bytes beyond ASCII, the clause of
    [listMessages] is the substring test, letter case set aside. *)
Lemma like_plain_query (q text : string) :
  all_plain q = true ->
  Sqlite.like (Some (Sqlite.lower text))
              (Some ("%" ++ Sqlite.lower q ++ "%")%string)
  = Some (contains_ci text q).
Proof.
  intros Hq. unfold Sqlite.like, contains_ci. f_equal.
  pose proof (all_plain_lower q Hq) as Hl.
  change ("%" ++ Sqlite.lower q ++ "%")%string
    with (String "%"%char (Sqlite.lower q ++ "%")%string).
  rewrite uchars_cons.
  change (192 <=? code "%"%char)%Z with false. cbv iota.
  rewrite (uchars_plain_app (Sqlite.lower q) Hl "%").
  change (Sqlite.uchars "%") with [["%"%char]].
  rewrite (like_contains_length (Sqlite.lower q) (String.length (Sqlite.lower text))
             Hl (Sqlite.lower text) (le_n _)).
  rewrite !lower_idem. reflexivity.
Qed.

Lemma matching_plain_query (limit offset : number) (q : string)
  (d : Sqlite.Database) :
  truthy q = true -> all_plain q = true ->
  matching (MessageFilters.mk limit offset None None (Some q)) d
  = filter (text_contains q) (Sqlite.messages d).
Proof.
  intros Ht Hq. unfold matching, clauses, where_.
  cbn [MessageFilters.from MessageFilters.since MessageFilters.q].
  rewrite Ht. cbn [app fold_left].
  apply filter_ext. intros r. unfold text_contains.
  destruct (Sqlite.Row.text r) as [t|]; cbn [option_map]; [|reflexivity].
  rewrite (like_plain_query q t Hq).
  destruct (contains_ci t q); reflexivity.
Qed.

(** C6, at [q = "h_llo"] and at [q = "%"] on the three stored rows: the
    message "Hello" is returned for "h_llo" and both messages with a text are
    returned for "%", although no text contains "h_llo" or "%" as a
    substring. The plain query "hello" returns the message "Hello" alone. *)
Theorem like_wildcards_in_q :
  fst (listMessages (MessageFilters.mk (of_Z 50) (of_Z 0) None None (Some "h_llo"))
                    tie_world)
  = Return (mkListResult
      [StoredMessage.mk "m1" "+100" "+300" "2025-01-15T10:00:01Z" (Some "Hello") "c2"]
      1)
  /\ contains_ci "Hello" "h_llo" = false
  /\ fst (listMessages (MessageFilters.mk (of_Z 50) (of_Z 0) None None (Some "%"))
                       tie_world)
     = Return (mkListResult
         [StoredMessage.mk "m0" "+100" "+300" "2025-01-15T10:00:00Z" (Some "bye") "c3";
          StoredMessage.mk "m1" "+100" "+300" "2025-01-15T10:00:01Z" (Some "Hello") "c2"]
         2)
  /\ contains_ci "bye" "%" = false
  /\ contains_ci "Hello" "%" = false
  /\ fst (listMessages (MessageFilters.mk (of_Z 50) (of_Z 0) None None (Some "hello"))
                       tie_world)
     = Return (mkListResult
         [StoredMessage.mk "m1" "+100" "+300" "2025-01-15T10:00:01Z" (Some "Hello") "c2"]
         1).
Proof. vm_compute. repeat split; reflexivity. Qed.

(** ** Signature verification *)

Lemma code_inj (a b : ascii) : code a = code b -> a = b.
Proof.
  unfold code. intros H. apply N2Z.inj in H.
  rewrite <- (ascii_N_embedding a), <- (ascii_N_embedding b), H. reflexivity.
Qed.

Lemma mismatch_loop_zero (a : string) :
  forall b acc,
    String.length a = String.length b ->
    (Security.mismatch_loop a b acc = 0%Z <-> acc = 0%Z /\ a = b).
Proof.
  induction a as [|x a IH]; intros [|y b] acc Hlen; try discriminate.
  - cbn. split; [intros H; split; [exact H | reflexivity] | intros [H _]; exact H].
  - cbn [Security.mismatch_loop]. injection Hlen as Hlen.
    rewrite (IH b _ Hlen), Z.lor_eq_0_iff, Z.lxor_eq_0_iff. split.
    + intros [[H1 H2] H3]. apply code_inj in H2. subst. split; reflexivity.
    + intros [H1 H2]. injection H2 as -> ->. repeat split; assumption.
Qed.

Lemma timingSafeEqualHex_true (a b : string) :
  Security.timingSafeEqualHex a b = true <-> a = b.
Proof.
  unfold Security.timingSafeEqualHex.
  destruct (Nat.eqb_spec (String.length a) (String.length b)) as [E|E]; cbn [negb].
  - rewrite Z.eqb_eq, (mismatch_loop_zero a b 0%Z E). split.
    + intros [_ H]. exact H.
    + intros H. split; [reflexivity | exact H].
  - split; [discriminate|]. intros ->. contradiction.
Qed.

(** C4 as stated fails: with the empty string as secret, which is a secret
    that is present, and the very hex HMAC-SHA256 of the body under that key
    as signature, the answer is [false]. *)
Lemma empty_secret_is_refused :
  Security.computeHmac "" "abc"
  = "fd7adb152c05ef80dccf50a1fa4c05d5a3ec6da95575fc312ae7c5d091836351"
  /\ Security.isValidSignature
       (Some "fd7adb152c05ef80dccf50a1fa4c05d5a3ec6da95575fc312ae7c5d091836351")
       (Some "") "abc"
     = false.
Proof. vm_compute. split; reflexivity. Qed.

(** C4, amended. [isValidSignature] is a total boolean function. It answers
    [false] whenever the secret or the provided signature is absent or the
    empty string. Otherwise it answers [true] if and only if the provided
    string is the hex HMAC-SHA256 of the raw body under the secret. The
    comparison answers [false] at once on unequal lengths; on equal lengths
    it ORs the XOR of the character codes position by position and answers
    whether the result is zero, which is the case exactly for equal strings. *)
Theorem isValidSignature_spec (provided secret : option string)
  (rawBody : string) :
  (truthy_opt secret = false \/ truthy_opt provided = false ->
   Security.isValidSignature provided secret rawBody = false)
  /\ (forall s p,
        secret = Some s -> provided = Some p ->
        truthy s = true -> truthy p = true ->
        (Security.isValidSignature provided secret rawBody = true
         <-> p = Security.computeHmac s rawBody))
  /\ (forall a b,
        String.length a <> String.length b ->
        Security.timingSafeEqualHex a b = false)
  /\ (forall a b,
        String.length a = String.length b ->
        Security.timingSafeEqualHex a b
        = (Security.mismatch_loop a b 0 =? 0)%Z
        /\ (Security.mismatch_loop a b 0 = 0%Z <-> a = b)).
Proof.
  split; [|split; [|split]].
  - unfold Security.isValidSignature, truthy_opt.
    destruct secret as [s|], provided as [p|]; try reflexivity.
    intros [H|H]; rewrite H; [reflexivity|].
    destruct (truthy s); reflexivity.
  - intros s p -> -> Hs Hp. unfold Security.isValidSignature.
    rewrite Hs, Hp. cbn [negb orb].
    rewrite timingSafeEqualHex_true. split; congruence.
  - intros a b H. unfold Security.timingSafeEqualHex.
    apply Nat.eqb_neq in H. rewrite H. reflexivity.
  - intros a b H. split.
    + unfold Security.timingSafeEqualHex.
      apply Nat.eqb_eq in H. rewrite H. reflexivity.
    + rewrite (mismatch_loop_zero a b 0%Z H). split.
      * intros [_ E]. exact E.
      * intros E. split; [reflexivity | exact E].
Qed.

(** The cases of tests/security.test.ts, and a digest with one character
    changed. *)
Example security_tests :
  Security.computeHmac "secret" ("{" ++ quoted "hello" ++ ":" ++ quoted "world" ++ "}")
  = "2677ad3e7c090b2fa2c0fb13020d66d5420879b8316eb356a2d60fb9073bc778"
  /\ Security.isValidSignature (Some (Security.computeHmac "secret" "abc"))
                               (Some "secret") "abc" = true
  /\ Security.isValidSignature (Some "deadbeef") (Some "secret") "abc" = false
  /\ Security.computeHmac "secret" "abc"
     = "9946dad4e00e913fc8be8e5d3f7e110a4a9e832f83fb09c345285d78638d8a0e"
  /\ Security.isValidSignature
       (Some "9946dad4e00e913fc8be8e5d3f7e110a4a9e832f83fb09c345285d78638d8a0f")
       (Some "secret") "abc" = false.
Proof. vm_compute. repeat split; reflexivity. Qed.


(** * Further properties of the code *)

(** ** Filters, pages and totals of [listMessages] *)







Lemma bind_integer_of_Z_inv (n z : Z) :
  Sqlite.bind_integer (of_Z n) = Return z -> z = n.
Proof.
  unfold Sqlite.bind_integer, of_Z. rewrite Qfloor_Z.
  destruct (_ && _); [|discriminate]. intros H. injection H as <-. reflexivity.
Qed.

Lemma limit_offset_length {A : Type} (n k : Z) (l : list A) :
  List.length (Sqlite.limit_offset n k l)
  = if (n <? 0)%Z then List.length l - Z.to_nat k
    else Nat.min (Z.to_nat n) (List.length l - Z.to_nat k).
Proof.
  unfold Sqlite.limit_offset. destruct (n <? 0)%Z.
  - apply length_skipn.
  - rewrite length_firstn, length_skipn. reflexivity.
Qed.

(** X2. [total] does not depend on the page asked for, and the page holds
    [min limit (total - offset)] rows (all rows from [offset] on when the
    limit is negative): never more than the limit, never more than the
    total. *)
Theorem page_size_and_total (f : MessageFilters.t) (n k : Z) (w w' : World)
  (res : ListResult) :
  listMessages (with_page f n k) w = (Return res, w') ->
  List.length (data res)
  = (if (n <? 0)%Z then total res - Z.to_nat k
     else Nat.min (Z.to_nat n) (total res - Z.to_nat k))
  /\ List.length (data res) <= total res
  /\ (forall n' k' res' w'',
        listMessages (with_page f n' k') w = (Return res', w'') ->
        total res' = total res).
Proof.
  intros H. apply listMessages_returns in H.
  destruct H as [d [n0 [k0 [Hdb [_ [Hn [Hk [Hdata [Htotal _]]]]]]]]].
  cbn in Hn, Hk. apply bind_integer_of_Z_inv in Hn, Hk. subst n0 k0.
  assert (Hm : forall a b, matching (with_page f a b) d = matching f d)
    by reflexivity.
  rewrite Hm in Hdata, Htotal.
  assert (Hlen : List.length (data res)
                 = if (n <? 0)%Z then total res - Z.to_nat k
                   else Nat.min (Z.to_nat n) (total res - Z.to_nat k)).
  { rewrite Hdata, length_map, limit_offset_length, Htotal.
    rewrite (Permutation_length (order_by_perm Sqlite.ts_id_asc (matching f d))).
    reflexivity. }
  split; [exact Hlen|]. split.
  - rewrite Hlen. destruct (n <? 0)%Z; lia.
  - intros n' k' res' w'' H'. apply listMessages_returns in H'.
    destruct H' as [d' [_ [_ [Hdb' [_ [_ [_ [_ [Htotal' _]]]]]]]]].
    rewrite Hdb in Hdb'. injection Hdb' as <-.
    rewrite Htotal', Htotal, Hm. reflexivity.
Qed.

Lemma page_size_and_total_witness :
  listMessages (with_page (no_filters (of_Z 0) (of_Z 0)) 2 2) tie_world
  = (Return (mkListResult
       [StoredMessage.mk "m2" "+200" "+300" "2025-01-15T10:00:01Z" None "c1"] 3),
     tie_world)
  /\ List.length
       (data (mkListResult
          [StoredMessage.mk "m2" "+200" "+300" "2025-01-15T10:00:01Z" None "c1"] 3))
     = Nat.min (Z.to_nat 2) (3 - Z.to_nat 2).
Proof.
  assert (H : listMessages (with_page (no_filters (of_Z 0) (of_Z 0)) 2 2) tie_world
  = (Return (mkListResult
       [StoredMessage.mk "m2" "+200" "+300" "2025-01-15T10:00:01Z" None "c1"] 3),
     tie_world)) by (vm_compute; reflexivity).
  split; [exact H|].
  destruct (page_size_and_total _ _ _ _ _ _ H) as [Hl _]. exact Hl.
Defined.

Lemma firstn_add_skipn {A : Type} (a b : nat) (l : list A) :
  firstn a l ++ firstn b (skipn a l) = firstn (a + b) l.
Proof.
  revert l. induction a as [|a IH]; intros l; [reflexivity|].
  destruct l as [|x l]; cbn; [rewrite firstn_nil; reflexivity|].
  rewrite IH. reflexivity.
Qed.

Lemma skipn_add {A : Type} (k a : nat) (l : list A) :
  skipn (k + a) l = skipn a (skipn k l).
Proof.
  revert l. induction k as [|k IH]; intros l; [reflexivity|].
  destruct l as [|x l]; cbn; [rewrite skipn_nil; reflexivity | apply IH].
Qed.

(** X3. Consecutive pages join: the page of [a] rows at offset [k] followed
    by the page of [b] rows at offset [k + a] is the page of [a + b] rows at
    offset [k]; no row is lost or repeated between pages. *)
Theorem consecutive_pages_concatenate (f : MessageFilters.t) (a b k : Z)
  (w w1 w2 w3 : World) (r1 r2 r3 : ListResult) :
  (0 <= a)%Z -> (0 <= b)%Z -> (0 <= k)%Z ->
  listMessages (with_page f a k) w = (Return r1, w1) ->
  listMessages (with_page f b (k + a)) w = (Return r2, w2) ->
  listMessages (with_page f (a + b) k) w = (Return r3, w3) ->
  data r1 ++ data r2 = data r3.
Proof.
  intros Ha Hb Hk H1 H2 H3.
  apply listMessages_returns in H1, H2, H3.
  destruct H1 as [d [n1 [k1 [Hdb [_ [Hn1 [Hk1 [Hd1 _]]]]]]]].
  destruct H2 as [d2 [n2 [k2 [Hdb2 [_ [Hn2 [Hk2 [Hd2 _]]]]]]]].
  destruct H3 as [d3 [n3 [k3 [Hdb3 [_ [Hn3 [Hk3 [Hd3 _]]]]]]]].
  rewrite Hdb in Hdb2, Hdb3. injection Hdb2 as <-. injection Hdb3 as <-.
  cbn in Hn1, Hk1, Hn2, Hk2, Hn3, Hk3.
  apply bind_integer_of_Z_inv in Hn1, Hk1, Hn2, Hk2, Hn3, Hk3. subst.
  assert (Hm : forall x y, matching (with_page f x y) d = matching f d)
    by reflexivity.
  rewrite Hd1, Hd2, Hd3, !Hm, <- map_app. f_equal.
  unfold Sqlite.limit_offset.
  assert (E1 : (a <? 0)%Z = false) by (apply Z.ltb_ge; lia).
  assert (E2 : (b <? 0)%Z = false) by (apply Z.ltb_ge; lia).
  assert (E3 : (a + b <? 0)%Z = false) by (apply Z.ltb_ge; lia).
  rewrite E1, E2, E3.
  rewrite (Z2Nat.inj_add k a Hk Ha), (Z2Nat.inj_add a b Ha Hb), skipn_add.
  apply firstn_add_skipn.
Qed.

Lemma consecutive_pages_concatenate_witness :
  ((0 <= 1)%Z /\ (0 <= 2)%Z /\ (0 <= 0)%Z)
  /\ data (mkListResult
            [StoredMessage.mk "m0" "+100" "+300" "2025-01-15T10:00:00Z" (Some "bye") "c3"]
            3)
     ++ data (mkListResult
            [StoredMessage.mk "m1" "+100" "+300" "2025-01-15T10:00:01Z" (Some "Hello") "c2";
             StoredMessage.mk "m2" "+200" "+300" "2025-01-15T10:00:01Z" None "c1"]
            3)
     = data (mkListResult
            [StoredMessage.mk "m0" "+100" "+300" "2025-01-15T10:00:00Z" (Some "bye") "c3";
             StoredMessage.mk "m1" "+100" "+300" "2025-01-15T10:00:01Z" (Some "Hello") "c2";
             StoredMessage.mk "m2" "+200" "+300" "2025-01-15T10:00:01Z" None "c1"]
            3).
Proof.
  split; [repeat split; lia|].
  apply (consecutive_pages_concatenate (no_filters (of_Z 0) (of_Z 0)) 1 2 0
           tie_world tie_world tie_world tie_world);
    try lia; vm_compute; reflexivity.
Defined.

(** ** What the storage operations keep *)

Lemma listMessages_state (f : MessageFilters.t) (w w' : World)
  (r : outcome ListResult) :
  listMessages f w = (r, w') ->
  db w' = db w /\ metrics w' = metrics w
  /\ (forall res, r = Return res -> w' = w).
Proof.
  unfold listMessages, mbind at 1.
  destruct (db w) as [d|] eqn:Hdb.
  2:{ rewrite (getDb_closed w Hdb). intros H. injection H as <- <-.
      repeat split; intros; try reflexivity; try assumption; try discriminate. }
  rewrite (getDb_open w d Hdb).
  unfold mbind, try_catch, lift, log, throw, ret, Sqlite.select_page,
    Sqlite.select_count.
  destruct (Sqlite.failure d) as [e|].
  { intros H. injection H as <- <-. repeat split; intros; try reflexivity; try assumption; try discriminate. }
  destruct (Sqlite.bind_integer (MessageFilters.limit f)) as [n|e]; cbn [bind].
  2:{ intros H. injection H as <- <-. repeat split; intros; try reflexivity; try assumption; try discriminate. }
  destruct (Sqlite.bind_integer (MessageFilters.offset f)) as [k|e]; cbn [bind].
  2:{ intros H. injection H as <- <-. repeat split; intros; try reflexivity; try assumption; try discriminate. }
  intros H. injection H as <- <-. repeat split; intros; try reflexivity; try assumption.
Qed.

Lemma getStats_state (w w' : World) (r : outcome Stats) :
  getStats w = (r, w') -> w' = w.
Proof.
  unfold getStats, mbind at 1.
  destruct (db w) as [d|] eqn:Hdb.
  2:{ rewrite (getDb_closed w Hdb). intros H. injection H as _ <-. reflexivity. }
  rewrite (getDb_open w d Hdb).
  unfold mbind, try_catch, lift, log, throw, ret, Sqlite.select_count,
    Sqlite.select_count_senders, Sqlite.select_per_sender,
    Sqlite.select_first_ts.
  destruct (Sqlite.failure d) as [e|]; intros H; injection H as _ <-; reflexivity.
Qed.

Lemma pingDb_cases (w : World) :
  pingDb w
  = match db w with
    | None => (Throw (ThrownError "Database not initialized"), w)
    | Some d =>
        (Return (match Sqlite.failure d with
                 | None => true
                 | Some _ => false
                 end), w)
    end.
Proof.
  unfold pingDb, mbind at 1.
  destruct (db w) as [d|] eqn:Hdb.
  - rewrite (getDb_open w d Hdb).
    unfold mbind, try_catch, lift, ret, Sqlite.select_one.
    destruct (Sqlite.failure d); reflexivity.
  - rewrite (getDb_closed w Hdb). reflexivity.
Qed.



Lemma existsb_has_id_ids (id : string) (l : list Sqlite.Row.t) :
  existsb (has_id id) l = false -> ~ In id (ids l).
Proof.
  intros H Hin. unfold ids in Hin. apply in_map_iff in Hin.
  destruct Hin as [r [E Hr]]. apply (existsb_has_id_in id l r H Hr E).
Qed.

Lemma insertMessage_rows (m : WebhookMessage.t) (now : string)
  (w w' : World) (r : outcome InsertResult) :
  insertMessage m now w = (r, w') ->
  (rows w' = rows w /\ r <> Return (mkInsertResult true false))
  \/ (rows w' = rows w ++ [row_of m now]
      /\ r = Return (mkInsertResult true false)
      /\ ~ In (WebhookMessage.message_id m) (ids (rows w))).
Proof.
  intros H.
  destruct (db w) as [d|] eqn:Hdb.
  2:{ unfold insertMessage, mbind at 1 in H. rewrite (getDb_closed w Hdb) in H.
      injection H as <- <-. left. split; [reflexivity | discriminate]. }
  destruct (Sqlite.failure d) as [e|] eqn:Hf.
  { unfold insertMessage, mbind at 1 in H. rewrite (getDb_open w d Hdb) in H.
    unfold try_catch, mbind, lift, ret, throw, Sqlite.insert in H. rewrite Hf in H.
    left. destruct e as [msg|]; [destruct (includes msg _)|];
      injection H as <- <-; split; (reflexivity || discriminate). }
  destruct (existsb (has_id (WebhookMessage.message_id m)) (Sqlite.messages d))
    eqn:Hex.
  - rewrite (insertMessage_existing m now w d Hdb Hf Hex) in H.
    injection H as <- <-. left. split; [reflexivity | discriminate].
  - rewrite (insertMessage_fresh m now w d Hdb Hf Hex) in H.
    injection H as <- <-. right. unfold rows. cbn [db Sqlite.messages].
    rewrite Hdb. repeat split. apply existsb_has_id_ids, Hex.
Qed.



(** ** The statistics *)

Lemma sorted_app_cross {A : Type} (R : A -> A -> Prop) (l1 l2 : list A) :
  StronglySorted R (l1 ++ l2) ->
  forall x y, In x l1 -> In y l2 -> R x y.
Proof.
  induction l1 as [|a l1 IH]; intros H x y Hx Hy; [destruct Hx|].
  cbn in H. inversion H as [|? ? Hs Ha]; subst.
  destruct Hx as [<-|Hx].
  - rewrite Forall_forall in Ha. apply Ha. apply in_or_app. right. exact Hy.
  - apply IH; assumption.
Qed.

Lemma NoDup_firstn {A : Type} (n : nat) (l : list A) :
  NoDup l -> NoDup (firstn n l).
Proof.
  intros H. rewrite <- (firstn_skipn n l) in H.
  apply NoDup_app_remove_r in H. exact H.
Qed.

Lemma count_desc_total (a b : string * nat) :
  Nat.leb (snd b) (snd a) = true \/ Nat.leb (snd a) (snd b) = true.
Proof. rewrite !Nat.leb_le. lia. Qed.

Lemma count_desc_trans (a b c : string * nat) :
  Nat.leb (snd b) (snd a) = true -> Nat.leb (snd c) (snd b) = true ->
  Nat.leb (snd c) (snd a) = true.
Proof. rewrite !Nat.leb_le. lia. Qed.

Lemma sent_by_positive (s : string) (l : list Sqlite.Row.t) :
  In s (map Sqlite.Row.from_msisdn l) -> 1 <= sent_by s l.
Proof.
  intros H. apply in_map_iff in H. destruct H as [r [E Hr]].
  unfold sent_by.
  assert (Hin : In r (filter (fun r => String.eqb (Sqlite.Row.from_msisdn r) s) l)).
  { apply filter_In. split; [exact Hr|]. rewrite E. apply String.eqb_refl. }
  destruct (filter _ l); [destruct Hin | cbn; lia].
Qed.

(** X6. While the backend serves, [getStats] reports the number of rows,
    the number of distinct senders (never more than the rows), and at most
    ten [(sender, count)] pairs: the senders in them are distinct, each count
    is the number of rows of that sender and at least 1, the counts do not
    increase along the list, and no sender left out has more rows than a
    sender listed. *)
Theorem getStats_counts (w : World) (d : Sqlite.Database) :
  db w = Some d -> Sqlite.failure d = None ->
  exists s,
    getStats w = (Return s, w)
    /\ total_messages s = List.length (rows w)
    /\ senders_count s
       = List.length (nodup string_dec (map Sqlite.Row.from_msisdn (rows w)))
    /\ senders_count s <= total_messages s
    /\ List.length (messages_per_sender s) = Nat.min 10 (senders_count s)
    /\ NoDup (map fst (messages_per_sender s))
    /\ (forall sender c,
          In (sender, c) (messages_per_sender s) ->
          c = sent_by sender (rows w) /\ 1 <= c)
    /\ StronglySorted (fun a b => snd b <= snd a) (messages_per_sender s)
    /\ (forall sender,
          In sender (map Sqlite.Row.from_msisdn (rows w)) ->
          ~ In sender (map fst (messages_per_sender s)) ->
          forall x, In x (messages_per_sender s) ->
                    sent_by sender (rows w) <= snd x).
Proof.
  intros Hdb Hf.
  assert (Hrows : rows w = Sqlite.messages d) by (unfold rows; rewrite Hdb; reflexivity).
  rewrite Hrows.
  set (l := Sqlite.messages d).
  set (senders := nodup string_dec (map Sqlite.Row.from_msisdn l)).
  set (g := fun s : string => (s, sent_by s l)).
  set (groups := map g (Sqlite.order_by String.leb senders)).
  set (sorted := Sqlite.order_by (fun a b : string * nat => Nat.leb (snd b) (snd a))
                                 groups).
  exists (mkStats (List.length (filter (fun r => Sqlite.holds (Some true)) l))
                  (List.length senders) (firstn 10 sorted)
                  (option_map Sqlite.Row.ts
                     (hd_error (Sqlite.order_by Sqlite.ts_id_asc l)))
                  (option_map Sqlite.Row.ts
                     (hd_error (Sqlite.order_by Sqlite.ts_id_desc l)))).
  assert (Hall : filter (fun r : Sqlite.Row.t => Sqlite.holds (Some true)) l = l)
    by (apply filter_all; reflexivity).
  assert (Pg : Permutation groups (map g senders))
    by (apply Permutation_map, order_by_perm).
  assert (Ps : Permutation sorted groups) by apply order_by_perm.
  assert (Ss : StronglySorted (fun a b : string * nat => snd b <= snd a) sorted).
  { eapply sorted_weaken;
      [|apply (order_by_sorted (fun a b : string * nat => Nat.leb (snd b) (snd a))
                 count_desc_total count_desc_trans)].
    intros a b H. apply Nat.leb_le, H. }
  assert (Hfst : map fst (map g senders) = senders).
  { rewrite map_map. apply map_id. }
  assert (Nd : NoDup (map fst sorted)).
  { apply (Permutation_NoDup (l := senders)); [|apply NoDup_nodup].
    rewrite <- Hfst. apply Permutation_map, Permutation_sym.
    eapply Permutation_trans; eassumption. }
  assert (Hin : forall x, In x sorted ->
                          In (fst x) (map Sqlite.Row.from_msisdn l)
                          /\ snd x = sent_by (fst x) l).
  { intros x Hx. apply (Permutation_in _ Ps), (Permutation_in _ Pg) in Hx.
    apply in_map_iff in Hx. destruct Hx as [s [<- Hs]].
    split; [apply (nodup_In string_dec), Hs | reflexivity]. }
  split.
  { unfold getStats, mbind at 1. rewrite (getDb_open w d Hdb).
    unfold mbind, try_catch, lift, log, throw, ret, Sqlite.select_count,
      Sqlite.select_count_senders, Sqlite.select_per_sender,
      Sqlite.select_first_ts.
    rewrite Hf. reflexivity. }
  cbn [total_messages senders_count messages_per_sender]. rewrite Hall.
  split; [reflexivity|]. split; [reflexivity|].
  split.
  { rewrite <- (length_map Sqlite.Row.from_msisdn l).
    apply NoDup_incl_length; [apply NoDup_nodup|].
    intros x Hx. apply (nodup_In string_dec), Hx. }
  split.
  { rewrite length_firstn, (Permutation_length Ps), (Permutation_length Pg),
      length_map. reflexivity. }
  split.
  { rewrite <- firstn_map. apply NoDup_firstn, Nd. }
  split.
  { intros sender c Hc. apply in_firstn in Hc.
    destruct (Hin _ Hc) as [H1 H2]. cbn in H1, H2. subst c.
    split; [reflexivity | apply sent_by_positive, H1]. }
  split; [apply sorted_firstn, Ss|].
  intros sender Hs Hout x Hx.
  assert (Hsorted : In (g sender) sorted).
  { apply (Permutation_in _ (Permutation_sym Ps)),
      (Permutation_in _ (Permutation_sym Pg)).
    apply in_map, (nodup_In string_dec), Hs. }
  rewrite <- (firstn_skipn 10 sorted) in Hsorted, Ss.
  apply in_app_or in Hsorted. destruct Hsorted as [H|H].
  - exfalso. apply Hout. apply (in_map fst) in H. exact H.
  - apply (sorted_app_cross _ _ _ Ss x (g sender) Hx H).
Qed.

Lemma getStats_counts_witness :
  (db tie_world = Some tie_db /\ Sqlite.failure tie_db = None)
  /\ exists s,
      getStats tie_world = (Return s, tie_world)
      /\ total_messages s = List.length (rows tie_world)
      /\ senders_count s
         = List.length (nodup string_dec (map Sqlite.Row.from_msisdn (rows tie_world)))
      /\ senders_count s <= total_messages s
      /\ List.length (messages_per_sender s) = Nat.min 10 (senders_count s).
Proof.
  split; [split; reflexivity|].
  destruct (getStats_counts tie_world tie_db eq_refl eq_refl)
    as [s [H1 [H2 [H3 [H4 [H5 _]]]]]].
  exists s. repeat split; assumption.
Defined.

(** ** The path of the database file *)





Example sqlitePathFromUrl_forms :
  sqlitePathFromUrl "sqlite:////data/app.db" = "/data/app.db"
  /\ sqlitePathFromUrl "sqlite:./data/app.db" = "./data/app.db"
  /\ sqlitePathFromUrl "sqlite:data/app.db" = "data/app.db"
  /\ sqlitePathFromUrl "sqlite::memory:" = ":memory:"
  /\ sqlitePathFromUrl "file:MEM" = ":memory:"
  /\ sqlitePathFromUrl "/tmp/x.db" = "/tmp/x.db".
Proof. vm_compute. repeat split; reflexivity. Qed.

(** ** Readiness *)

(** X8. GET /health/ready answers 200 "ready" exactly when the backend
    serves a statement and a non-empty secret is configured; otherwise it
    answers 503 and names which of the two is missing. With the handle not
    initialised it answers nothing: [pingDb] throws before its [try]. The
    state is left as it was. *)
Theorem health_ready_cases (config : Config.AppConfig) (w : World) :
  Main.health_ready config w
  = match db w with
    | None => (Throw (ThrownError "Database not initialized"), w)
    | Some d =>
        match Sqlite.failure d, truthy_opt (Config.webhookSecret config) with
        | None, true => (Return (Main.mkResponse 200 Main.status_ready), w)
        | None, false =>
            (Return (Main.mkResponse 503 (Main.status_not_ready true false)), w)
        | Some _, secret =>
            (Return (Main.mkResponse 503 (Main.status_not_ready false secret)), w)
        end
    end.
Proof.
  unfold Main.health_ready, mbind. rewrite pingDb_cases.
  destruct (db w) as [d|]; [|reflexivity].
  destruct (Sqlite.failure d), (truthy_opt (Config.webhookSecret config));
    reflexivity.
Qed.

(** ** The request and webhook counters *)

Lemma lookup_assign_same (c : Metrics.Counter) (k : string) (v : nat) :
  Metrics.lookup (Metrics.assign c k v) k = Some v.
Proof.
  induction c as [|[k' v'] c IH]; cbn.
  - rewrite String.eqb_refl. reflexivity.
  - destruct (String.eqb k' k) eqn:E; cbn; rewrite E; [reflexivity | exact IH].
Qed.

Lemma lookup_assign_other (c : Metrics.Counter) (k k' : string) (v : nat) :
  k <> k' ->
  Metrics.lookup (Metrics.assign c k v) k' = Metrics.lookup c k'.
Proof.
  intros Hk. induction c as [|[k0 v0] c IH]; cbn.
  - destruct (String.eqb_spec k k'); [contradiction | reflexivity].
  - destruct (String.eqb_spec k0 k) as [->|Hne]; cbn.
    + destruct (String.eqb_spec k k'); [contradiction | reflexivity].
    + rewrite IH. reflexivity.
Qed.

Lemma lookup_none_keys (c : Metrics.Counter) (k : string) :
  Metrics.lookup c k = None <-> ~ In k (map fst c).
Proof.
  induction c as [|[k0 v0] c IH]; cbn.
  - split; [intros _ [] | reflexivity].
  - destruct (String.eqb_spec k0 k) as [->|Hne].
    + split; [discriminate | intros H; exfalso; apply H; left; reflexivity].
    + rewrite IH. split; [intros H [E|Hin]; [contradiction | apply H, Hin]
                         | intros H Hin; apply H; right; exact Hin].
Qed.

Lemma keys_assign (c : Metrics.Counter) (k : string) (v : nat) :
  map fst (Metrics.assign c k v)
  = match Metrics.lookup c k with
    | Some _ => map fst c
    | None => map fst c ++ [k]
    end.
Proof.
  induction c as [|[k0 v0] c IH]; cbn; [reflexivity|].
  destruct (String.eqb k0 k); cbn; [reflexivity|].
  rewrite IH. destruct (Metrics.lookup c k); reflexivity.
Qed.

Lemma NoDup_keys_assign (c : Metrics.Counter) (k : string) (v : nat) :
  NoDup (map fst c) -> NoDup (map fst (Metrics.assign c k v)).
Proof.
  intros H. rewrite keys_assign.
  destruct (Metrics.lookup c k) eqn:E; [exact H|].
  apply lookup_none_keys in E.
  apply NoDup_app; [exact H | constructor; [intros [] | constructor] |].
  intros x Hx [<-|[]]. contradiction.
Qed.

Lemma in_counter_lookup (c : Metrics.Counter) (k : string) (n : nat) :
  NoDup (map fst c) ->
  (In (k, n) c <-> Metrics.lookup c k = Some n).
Proof.
  induction c as [|[k0 v0] c IH]; cbn; intros H.
  - split; [intros [] | discriminate].
  - inversion H as [|x l Hnot Hrest]; subst.
    destruct (String.eqb_spec k0 k) as [->|Hne].
    + split.
      * intros [E|Hin]; [injection E as <-; reflexivity|].
        exfalso. apply Hnot. apply (in_map fst) in Hin. exact Hin.
      * intros E. injection E as <-. left. reflexivity.
    + rewrite <- (IH Hrest). split.
      * intros [E|Hin]; [injection E as E _; contradiction | exact Hin].
      * intros Hin. right. exact Hin.
Qed.

Lemma counts_increment (c : Metrics.Counter) (count : string -> nat)
  (k : string) :
  counts c count ->
  counts (Metrics.assign c k (Metrics.or_zero (Metrics.lookup c k) + 1))
         (fun k' => count k' + (if String.eqb k k' then 1 else 0)).
Proof.
  intros [Hnd Hl]. split; [apply NoDup_keys_assign, Hnd|].
  intros k'. destruct (String.eqb_spec k k') as [<-|Hne].
  - rewrite lookup_assign_same, Hl.
    destruct (Nat.eqb_spec (count k) 0) as [E|E].
    + rewrite E. reflexivity.
    + destruct (Nat.eqb_spec (count k + 1) 0); [lia | reflexivity].
  - rewrite (lookup_assign_other _ _ _ _ Hne), Hl, Nat.add_0_r. reflexivity.
Qed.

Lemma counts_ext (c : Metrics.Counter) (f g : string -> nat) :
  (forall k, f k = g k) -> counts c f -> counts c g.
Proof.
  intros E [Hnd Hl]. split; [exact Hnd|].
  intros k. rewrite <- E. apply Hl.
Qed.

Lemma counts_in (c : Metrics.Counter) (count : string -> nat) (k : string)
  (n : nat) :
  counts c count -> (In (k, n) c <-> n = count k /\ 1 <= n).
Proof.
  intros [Hnd Hl]. rewrite (in_counter_lookup c k n Hnd), Hl.
  destruct (Nat.eqb_spec (count k) 0) as [E|E].
  - split; [discriminate | intros [-> H]; lia].
  - split; [intros H; injection H as <-; split; [reflexivity | lia]
           | intros [-> _]; reflexivity].
Qed.

Lemma http_recorded_app (key : string) (l1 l2 : list metric_call) :
  http_recorded key (l1 ++ l2) = http_recorded key l1 + http_recorded key l2.
Proof.
  induction l1 as [|c l1 IH]; [reflexivity|].
  destruct c; cbn; rewrite IH; lia.
Qed.

Lemma webhook_recorded_app (tag : string) (l1 l2 : list metric_call) :
  webhook_recorded tag (l1 ++ l2)
  = webhook_recorded tag l1 + webhook_recorded tag l2.
Proof.
  induction l1 as [|c l1 IH]; [reflexivity|].
  destruct c; cbn; rewrite IH; lia.
Qed.

Lemma after_snoc (calls : list metric_call) (c : metric_call) :
  after (calls ++ [c]) = record (after calls) c.
Proof. unfold after. rewrite fold_left_app. reflexivity. Qed.

Lemma counters_after (calls : list metric_call) :
  counts (Metrics.httpRequests (after calls)) (fun k => http_recorded k calls)
  /\ counts (Metrics.webhookResults (after calls))
            (fun k => webhook_recorded k calls).
Proof.
  induction calls as [|c calls [IH1 IH2]] using rev_ind.
  - split; (split; [constructor | reflexivity]).
  - rewrite after_snoc. destruct c as [path status|result|ms]; cbn [record].
    + split.
      * cbn [Metrics.recordHttpRequest Metrics.httpRequests].
        apply (counts_ext _ _ _
                 (fun k => eq_sym (http_recorded_app k calls [HttpRequest path status]))).
        cbn [http_recorded]. fold (http_key path status).
        apply (counts_ext _
                 (fun k' => http_recorded k' calls
                            + (if String.eqb (http_key path status) k' then 1 else 0))).
        { intros k. destruct (String.eqb (http_key path status) k); lia. }
        apply counts_increment, IH1.
      * cbn [Metrics.recordHttpRequest Metrics.webhookResults].
        apply (counts_ext _ _ _
                 (fun k => eq_sym (webhook_recorded_app k calls [HttpRequest path status]))).
        cbn [webhook_recorded].
        apply (counts_ext _ (fun k => webhook_recorded k calls));
          [intros k; lia | exact IH2].
    + split.
      * cbn [Metrics.recordWebhookResult Metrics.httpRequests].
        apply (counts_ext _ _ _
                 (fun k => eq_sym (http_recorded_app k calls [WebhookResult result]))).
        cbn [http_recorded].
        apply (counts_ext _ (fun k => http_recorded k calls));
          [intros k; lia | exact IH1].
      * cbn [Metrics.recordWebhookResult Metrics.webhookResults].
        apply (counts_ext _ _ _
                 (fun k => eq_sym (webhook_recorded_app k calls [WebhookResult result]))).
        cbn [webhook_recorded].
        apply (counts_ext _
                 (fun k' => webhook_recorded k' calls
                            + (if String.eqb result k' then 1 else 0))).
        { intros k. destruct (String.eqb result k); lia. }
        apply counts_increment, IH2.
    + split.
      * cbn [Metrics.recordLatency Metrics.httpRequests].
        apply (counts_ext _ _ _
                 (fun k => eq_sym (http_recorded_app k calls [Latency ms]))).
        cbn [http_recorded].
        apply (counts_ext _ (fun k => http_recorded k calls));
          [intros k; lia | exact IH1].
      * cbn [Metrics.recordLatency Metrics.webhookResults].
        apply (counts_ext _ _ _
                 (fun k => eq_sym (webhook_recorded_app k calls [Latency ms]))).
        cbn [webhook_recorded].
        apply (counts_ext _ (fun k => webhook_recorded k calls));
          [intros k; lia | exact IH2].
Qed.

Lemma in_bucket_lines (b : Metrics.Buckets) (bounds : list number)
  (cumulative : nat) (x : Metrics.line) :
  In x (Metrics.bucket_lines b cumulative bounds) ->
  exists le n, x = Metrics.request_latency_ms_bucket le n.
Proof.
  revert cumulative. induction bounds as [|le rest IH]; intros cumulative.
  - intros [].
  - cbn. intros [<-|H]; [eexists; eexists; reflexivity | apply (IH _ H)].
Qed.

Lemma in_render_webhook (s : Metrics.State) (tag : string) (n : nat) :
  In (Metrics.webhook_requests_total tag n) (Metrics.renderMetrics s)
  <-> In (tag, n) (Metrics.webhookResults s).
Proof.
  unfold Metrics.renderMetrics. rewrite !in_app_iff, !in_map_iff. split.
  - intros [[[k c] [E _]]|[[[k c] [E H]]|[H|H]]].
    + discriminate.
    + injection E as <- <-. exact H.
    + apply in_bucket_lines in H. destruct H as [le [m E]]. discriminate.
    + destruct H as [E|[E|[]]]; discriminate.
  - intros H. right. left. exists (tag, n). split; [reflexivity | exact H].
Qed.

Lemma in_render_http (s : Metrics.State) (path status : string) (n : nat) :
  In (Metrics.http_requests_total path status n) (Metrics.renderMetrics s)
  <-> exists key,
        In (key, n) (Metrics.httpRequests s)
        /\ nth 0 (Metrics.split_bar EmptyString key) EmptyString = path
        /\ nth 1 (Metrics.split_bar EmptyString key) EmptyString = status.
Proof.
  unfold Metrics.renderMetrics. rewrite !in_app_iff, !in_map_iff. split.
  - intros [[[k c] [E H]]|[[[k c] [E _]]|[H|H]]].
    + injection E as <- <- <-. exists k. repeat split. exact H.
    + discriminate.
    + apply in_bucket_lines in H. destruct H as [le [m E]]. discriminate.
    + destruct H as [E|[E|[]]]; discriminate.
  - intros [key [H [<- <-]]]. left. exists (key, n). split; [reflexivity | exact H].
Qed.

(** X9. The request counter counts: after any sequence of recordings on a
    fresh module it holds each key [path|status] once, with the number of
    times that key was recorded, and holds no key that was never recorded.
    The webhook counter does the same for the results "created" and
    "duplicate", the two the handler records, and the exposition has one
    [webhook_requests_total] line for each result recorded, with that
    number. *)
Theorem counters_count_recordings (calls : list metric_call) :
  NoDup (map fst (Metrics.httpRequests (after calls)))
  /\ (forall key n,
        In (key, n) (Metrics.httpRequests (after calls))
        <-> n = http_recorded key calls /\ 1 <= n)
  /\ ((forall r, In (WebhookResult r) calls ->
                 r = "created" \/ r = "duplicate") ->
      NoDup (map fst (Metrics.webhookResults (after calls)))
      /\ forall tag n,
           In (Metrics.webhook_requests_total tag n)
              (Metrics.renderMetrics (after calls))
           <-> n = webhook_recorded tag calls /\ 1 <= n).
Proof.
  destruct (counters_after calls) as [H1 H2].
  split; [apply H1|]. split.
  - intros key n. apply (counts_in _ _ key n H1).
  - intros _. split; [apply H2|].
    intros tag n. rewrite in_render_webhook.
    apply (counts_in _ (fun k => webhook_recorded k calls) tag n H2).
Qed.

(** ** The labels of the request counter *)

Lemma no_bar_string_of_uint (d : Decimal.uint) :
  no_bar (DecimalString.NilEmpty.string_of_uint d) = true.
Proof. induction d; cbn; try reflexivity; exact IHd. Qed.

Lemma no_bar_Z_to_string (z : Z) : no_bar (Metrics.Z_to_string z) = true.
Proof.
  unfold Metrics.Z_to_string. destruct (Z.to_int z) as [d|d]; cbn.
  - destruct d; try reflexivity; apply (no_bar_string_of_uint (_ d)).
  - destruct d; try reflexivity; apply (no_bar_string_of_uint (_ d)).
Qed.

Lemma append_snoc (cur : string) (c : ascii) (s : string) :
  ((cur ++ String c EmptyString) ++ s = cur ++ String c s)%string.
Proof. induction cur as [|a cur IH]; cbn; [reflexivity | rewrite IH; reflexivity]. Qed.

Lemma append_empty_r (s : string) : (s ++ EmptyString)%string = s.
Proof. induction s as [|a s IH]; cbn; [reflexivity | rewrite IH; reflexivity]. Qed.

Lemma split_bar_no_bar (s cur : string) :
  no_bar s = true -> Metrics.split_bar cur s = [(cur ++ s)%string].
Proof.
  revert cur. induction s as [|c s IH]; intros cur H; cbn.
  - rewrite append_empty_r. reflexivity.
  - cbn in H. apply andb_true_iff in H. destruct H as [Hc Hs].
    apply negb_true_iff in Hc. rewrite Hc, (IH _ Hs), append_snoc. reflexivity.
Qed.

Lemma split_bar_key (p t cur : string) :
  no_bar p = true ->
  Metrics.split_bar cur (p ++ "|" ++ t)%string
  = (cur ++ p)%string :: Metrics.split_bar EmptyString t.
Proof.
  revert cur. induction p as [|c p IH]; intros cur H; cbn.
  - rewrite append_empty_r. reflexivity.
  - cbn in H. apply andb_true_iff in H. destruct H as [Hc Hp].
    apply negb_true_iff in Hc. rewrite Hc, (IH _ Hp), append_snoc. reflexivity.
Qed.

Lemma split_http_key (path : string) (status : Z) :
  no_bar path = true ->
  Metrics.split_bar EmptyString (http_key path status)
  = [path; Metrics.Z_to_string status].
Proof.
  intros H. unfold http_key. rewrite (split_bar_key _ _ _ H).
  rewrite (split_bar_no_bar _ _ (no_bar_Z_to_string status)). reflexivity.
Qed.

Lemma http_recorded_positive (key : string) (calls : list metric_call) :
  1 <= http_recorded key calls
  <-> exists path status,
        In (HttpRequest path status) calls /\ key = http_key path status.
Proof.
  induction calls as [|c calls IH]; cbn.
  - split; [lia | intros [p [s [[] _]]]].
  - destruct c as [path status|result|ms].
    + destruct (String.eqb_spec (http_key path status) key) as [E|E].
      * split; [|lia]. intros _. exists path, status.
        split; [left; reflexivity | symmetry; exact E].
      * cbn [Nat.add]. rewrite IH. split.
        -- intros [p [s [Hin Hk]]]. exists p, s. split; [right; exact Hin | exact Hk].
        -- intros [p [s [[Hc|Hin] Hk]]].
           ++ injection Hc as <- <-. symmetry in Hk. contradiction.
           ++ exists p, s. split; assumption.
    + rewrite IH. split.
      * intros [p [s [Hin Hk]]]. exists p, s. split; [right; exact Hin | exact Hk].
      * intros [p [s [[Hc|Hin] Hk]]]; [discriminate | exists p, s; split; assumption].
    + rewrite IH. split.
      * intros [p [s [Hin Hk]]]. exists p, s. split; [right; exact Hin | exact Hk].
      * intros [p [s [[Hc|Hin] Hk]]]; [discriminate | exists p, s; split; assumption].
Qed.

(** X10. When no recorded path has a bar in it, the exposition has the line
    [http_requests_total{path, status} n] exactly for the pairs of a path and
    a status that were recorded, the status printed in decimal, and [n] is
    the number of requests recorded for that pair. The key is cut at its
    bars when it is rendered, so the condition on the paths is needed: see
    [http_line_of_path_with_bar]. *)
Theorem http_lines_name_path_and_status (calls : list metric_call) :
  (forall p s, In (HttpRequest p s) calls -> no_bar p = true) ->
  forall path status n,
    In (Metrics.http_requests_total path status n)
       (Metrics.renderMetrics (after calls))
    <-> exists st,
          status = Metrics.Z_to_string st
          /\ In (HttpRequest path st) calls
          /\ n = http_recorded (http_key path st) calls.
Proof.
  intros Hbar path status n.
  destruct (counters_after calls) as [H1 _].
  rewrite in_render_http. split.
  - intros [key [Hin [Hp Hs]]].
    apply (counts_in _ _ key n H1) in Hin. destruct Hin as [Hn Hpos].
    rewrite Hn in Hpos. apply http_recorded_positive in Hpos.
    destruct Hpos as [p [s [Hcall Hkey]]]. subst key.
    rewrite (split_http_key p s (Hbar p s Hcall)) in Hp, Hs. cbn in Hp, Hs.
    subst path status. exists s. repeat split; assumption.
  - intros [st [-> [Hcall ->]]]. exists (http_key path st).
    rewrite (split_http_key path st (Hbar path st Hcall)).
    split; [|split; reflexivity].
    apply (counts_in _ _ (http_key path st) _ H1). split; [reflexivity|].
    apply http_recorded_positive. exists path, st. split; [exact Hcall | reflexivity].
Qed.

Lemma http_lines_name_path_and_status_witness :
  (forall p s,
     In (HttpRequest p s)
        [HttpRequest "/stats" 200; Latency (of_Z 3); HttpRequest "/stats" 200] ->
     no_bar p = true)
  /\ (In (Metrics.http_requests_total "/stats" "200" 2)
         (Metrics.renderMetrics
            (after [HttpRequest "/stats" 200; Latency (of_Z 3);
                    HttpRequest "/stats" 200]))
      <-> exists st,
            "200" = Metrics.Z_to_string st
            /\ In (HttpRequest "/stats" st)
                  [HttpRequest "/stats" 200; Latency (of_Z 3);
                   HttpRequest "/stats" 200]
            /\ 2 = http_recorded (http_key "/stats" st)
                     [HttpRequest "/stats" 200; Latency (of_Z 3);
                      HttpRequest "/stats" 200]).
Proof.
  assert (H : forall p s,
     In (HttpRequest p s)
        [HttpRequest "/stats" 200; Latency (of_Z 3); HttpRequest "/stats" 200] ->
     no_bar p = true).
  { intros p s [E|[E|[E|[]]]]; try discriminate; injection E as <- _; reflexivity. }
  split; [exact H|].
  apply (http_lines_name_path_and_status _ H).
Defined.

(** A path with a bar in it is cut at the bar: a request for the unknown
    path "/a|200" is listed under the path "/a" with the status "200". *)
Example http_line_of_path_with_bar :
  Metrics.renderMetrics (after [HttpRequest "/a|200" 404])
  = [Metrics.http_requests_total "/a" "200" 1;
     Metrics.request_latency_ms_bucket (Metrics.Bound (of_Z 100)) 0;
     Metrics.request_latency_ms_bucket (Metrics.Bound (of_Z 500)) 0;
     Metrics.request_latency_ms_bucket Metrics.PlusInf 0;
     Metrics.request_latency_ms_count 0;
     Metrics.request_latency_ms_sum (of_Z 0)].
Proof. vm_compute. reflexivity. Qed.

(** ** The values of the latency buckets *)

Lemma leb_100_500 (ms : number) :
  leb ms (of_Z 100) = true -> leb ms (of_Z 500) = true.
Proof.
  destruct ms as [| | |q]; cbn; try discriminate; try reflexivity.
  rewrite !negb_involutive, !Qle_bool_iff. intros H.
  apply (Qle_trans _ _ _ H). apply Qle_bool_iff. reflexivity.
Qed.

Lemma observed_le_app (bound : number) (l1 l2 : list metric_call) :
  observed_le bound (l1 ++ l2) = observed_le bound l1 + observed_le bound l2.
Proof.
  induction l1 as [|c l1 IH]; [reflexivity|].
  destruct c; cbn; rewrite IH; lia.
Qed.

Lemma observations_app (l1 l2 : list metric_call) :
  observations (l1 ++ l2) = observations l1 + observations l2.
Proof.
  induction l1 as [|c l1 IH]; [reflexivity|].
  destruct c; cbn; rewrite IH; lia.
Qed.

Lemma buckets_after (calls : list metric_call) :
  exists a b c,
    Metrics.latencyBuckets (after calls)
    = [(of_Z 100, a); (of_Z 500, b); (PosInfinity, c)]
    /\ a = observed_le (of_Z 100) calls
    /\ a + b = observed_le (of_Z 500) calls
    /\ a + b + c = observations calls.
Proof.
  induction calls as [|x calls IH] using rev_ind.
  - exists 0, 0, 0. repeat split; reflexivity.
  - destruct IH as [a [b [c [Hb [Ha [Hab Habc]]]]]].
    rewrite after_snoc, !observed_le_app, observations_app.
    destruct x as [path status|result|ms]; cbn [record].
    + exists a, b, c. cbn. split; [exact Hb | lia].
    + exists a, b, c. cbn. split; [exact Hb | lia].
    + unfold Metrics.recordLatency. cbn [Metrics.latencyBuckets].
      rewrite Hb. cbn [observed_le observations].
      destruct (leb ms (of_Z 100)) eqn:E1.
      * rewrite (leb_100_500 ms E1).
        exists (a + 1), b, c. split; [reflexivity | lia].
      * destruct (leb ms (of_Z 500)) eqn:E2.
        -- exists a, (b + 1), c. split; [reflexivity | lia].
        -- exists a, b, (c + 1). split; [reflexivity | lia].
Qed.

(** X11. The three bucket lines carry the number of observations that were
    at most 100, the number that were at most 500, and the number of all
    observations; a latency that is NaN is counted in the last only. *)
Theorem latency_buckets_exact (calls : list metric_call) :
  latency_buckets (Metrics.renderMetrics (after calls))
  = [(Metrics.Bound (of_Z 100), observed_le (of_Z 100) calls);
     (Metrics.Bound (of_Z 500), observed_le (of_Z 500) calls);
     (Metrics.PlusInf, observations calls)]
  /\ observed_le (of_Z 100) calls <= observed_le (of_Z 500) calls
     <= observations calls.
Proof.
  destruct (buckets_after calls) as [a [b [c [Hb [Ha [Hab Habc]]]]]].
  split; [|lia].
  unfold Metrics.renderMetrics. rewrite !latency_buckets_app.
  repeat match goal with
         | |- context [latency_buckets (map ?f ?l)] =>
             let E1 := fresh "E" in
             let E2 := fresh "E" in
             destruct (counter_lines_no_latency f l) as [E1 E2];
             [intros [k n]; split; reflexivity | rewrite E1; clear E1 E2]
         end.
  rewrite Hb. cbn [app].
  change (Metrics.sorted_bounds
            (map fst [(of_Z 100, a); (of_Z 500, b); (PosInfinity, c)]))
    with (Metrics.sorted_bounds [of_Z 100; of_Z 500; PosInfinity]).
  assert (Es : Metrics.sorted_bounds [of_Z 100; of_Z 500; PosInfinity]
               = [of_Z 100; of_Z 500; PosInfinity]) by (vm_compute; reflexivity).
  rewrite Es. cbn. rewrite <- Ha, <- Hab, <- Habc.
  repeat f_equal; lia.
Qed.

(** ** Every request is counted once *)

Lemma finalize_metrics (config : Config.AppConfig) (call : Main.Call)
  (path : string) (status : Z) (extras : option WebhookLogExtras) (w : World) :
  metrics (Main.finalize config call path status extras w)
  = Metrics.recordLatency (Main.latency call)
      (Metrics.recordHttpRequest path status (metrics w)).
Proof.
  unfold Main.finalize, Logging.logRequest, Logging.logJSON.
  destruct (Logging.levelOrder INFO <? Logging.levelOrder (Config.logLevel config))%nat;
    reflexivity.
Qed.

Lemma finalize_counted (config : Config.AppConfig) (call : Main.Call)
  (path : string) (status : Z) (extras : option WebhookLogExtras)
  (w w1 : World) :
  Metrics.httpRequests (metrics w1) = Metrics.httpRequests (metrics w) ->
  Metrics.latencyCount (metrics w1) = Metrics.latencyCount (metrics w) ->
  counted path status w (Main.finalize config call path status extras w1).
Proof.
  intros Hh Hl. unfold counted. rewrite finalize_metrics.
  cbn [Metrics.recordLatency Metrics.recordHttpRequest Metrics.httpRequests
       Metrics.latencyCount].
  rewrite Hh, Hl. split; [|reflexivity].
  intros key. fold (http_key path status).
  destruct (String.eqb_spec (http_key path status) key) as [<-|Hne].
  - rewrite lookup_assign_same. reflexivity.
  - rewrite (lookup_assign_other _ _ _ _ Hne). cbn. lia.
Qed.

(** X12. POST /webhook, GET /messages, GET /stats and the fallback for
    unknown paths always answer, and each request adds exactly one to the
    request counter, under the path and the status that was sent and under
    no other key, and one observation to the latency histogram. The health
    probes and GET /metrics change nothing. *)
Theorem every_request_is_counted_once (config : Config.AppConfig)
  (JSON_parse : string -> option Json.value) (call : Main.Call) (w : World) :
  (forall req,
      exists res w',
        Main.webhook config JSON_parse req call w = (Return res, w')
        /\ counted "/webhook" (Main.status res) w w')
  /\ (forall url,
        exists res w',
          Main.messages config url call w = (Return res, w')
          /\ counted "/messages" (Main.status res) w w')
  /\ (exists res w',
        Main.stats_handler config call w = (Return res, w')
        /\ counted "/stats" (Main.status res) w w')
  /\ (forall path,
        exists w',
          Main.not_found config path call w
          = (Return (Main.mkResponse 404 (Main.detail "Not found")), w')
          /\ counted path 404 w w')
  /\ snd (Main.health_live w) = w
  /\ snd (Main.health_ready config w) = w
  /\ snd (Main.metrics_handler w) = w.
Proof.
  split; [|split; [|split; [|split; [|split; [|split]]]]].
  - intros req. unfold Main.webhook, Main.webhook_steps.
    destruct (negb (truthy_opt (Config.webhookSecret config))).
    { eexists; eexists; split; [reflexivity|].
      apply finalize_counted; reflexivity. }
    destruct (negb (Security.isValidSignature _ _ _)).
    { eexists; eexists; split; [reflexivity|].
      apply finalize_counted; reflexivity. }
    destruct (JSON_parse (Main.rawBody req)) as [bodyJson|].
    2:{ eexists; eexists; split; [reflexivity|].
        apply finalize_counted; reflexivity. }
    destruct (Models.safeParse bodyJson) as [msg|issues].
    2:{ eexists; eexists; split; [reflexivity|].
        apply finalize_counted; reflexivity. }
    destruct (insertMessage msg (Main.now call) w) as [[r|err] w1] eqn:E;
      apply insertMessage_metrics in E;
      (eexists; eexists; split; [reflexivity|]);
      apply finalize_counted; cbn; rewrite E; reflexivity.
  - intros url. unfold Main.messages.
    destruct (Main.parseMessagesQuery url) as [value|error].
    2:{ eexists; eexists; split; [reflexivity|].
        apply finalize_counted; reflexivity. }
    destruct (listMessages value w) as [[r|err] w1] eqn:E;
      apply listMessages_state in E; destruct E as [_ [E _]];
      (eexists; eexists; split; [reflexivity|]);
      apply finalize_counted; cbn; rewrite E; reflexivity.
  - unfold Main.stats_handler.
    destruct (getStats w) as [[s|err] w1] eqn:E;
      apply getStats_state in E; subst w1;
      (eexists; eexists; split; [reflexivity|]);
      apply finalize_counted; reflexivity.
  - intros path. eexists. split; [reflexivity|].
    apply finalize_counted; reflexivity.
  - reflexivity.
  - unfold Main.health_ready, mbind. rewrite pingDb_cases.
    destruct (db w) as [d|]; [|reflexivity].
    destruct (Sqlite.failure d), (truthy_opt (Config.webhookSecret config));
      reflexivity.
  - reflexivity.
Qed.

(** ** What POST /webhook stores *)

Lemma finalize_rows (config : Config.AppConfig) (call : Main.Call)
  (path : string) (status : Z) (extras : option WebhookLogExtras) (w : World) :
  rows (Main.finalize config call path status extras w) = rows w.
Proof. unfold rows. rewrite finalize_db. reflexivity. Qed.

Lemma insertMessage_serving (m : WebhookMessage.t) (now : string)
  (w : World) :
  serving w ->
  exists r w',
    insertMessage m now w = (Return r, w')
    /\ In (WebhookMessage.message_id m) (ids (rows w')).
Proof.
  intros [d [Hdb Hf]].
  destruct (existsb (has_id (WebhookMessage.message_id m)) (Sqlite.messages d))
    eqn:Hex.
  - rewrite (insertMessage_existing m now w d Hdb Hf Hex).
    eexists; eexists; split; [reflexivity|].
    unfold rows. rewrite Hdb. apply existsb_exists in Hex.
    destruct Hex as [r [Hin Hid]]. apply String.eqb_eq in Hid. rewrite <- Hid.
    apply in_map, Hin.
  - rewrite (insertMessage_fresh m now w d Hdb Hf Hex).
    eexists; eexists; split; [reflexivity|].
    unfold rows, ids. cbn [db Sqlite.messages]. rewrite map_app, in_app_iff.
    right. left. reflexivity.
Qed.

(** X13. POST /webhook always answers, with 200, 401, 422, 500 or 503: 503
    exactly when no secret is configured, 401 exactly when one is and the
    signature does not verify. The table is left as it was unless the answer
    is 200 for a body that carries a valid signature, parses as JSON and
    passes the schema, and whose [message_id] was not stored yet; then the
    one row of that message is appended. On an open and working store such
    a body is always answered with 200, and its [message_id] is in the table
    afterwards. *)
Theorem webhook_stores_only_verified_messages (config : Config.AppConfig)
  (JSON_parse : string -> option Json.value) (req : Main.WebhookRequest)
  (call : Main.Call) (w : World) :
  exists res w',
    Main.webhook config JSON_parse req call w = (Return res, w')
    /\ In (Main.status res) [200; 401; 422; 500; 503]%Z
    /\ (Main.status res = 503%Z
        <-> truthy_opt (Config.webhookSecret config) = false)
    /\ (Main.status res = 401%Z
        <-> truthy_opt (Config.webhookSecret config) = true
            /\ Security.isValidSignature (Main.x_signature req)
                 (Config.webhookSecret config) (Main.rawBody req) = false)
    /\ (rows w' = rows w
        \/ exists json m,
             Main.status res = 200%Z
             /\ Security.isValidSignature (Main.x_signature req)
                  (Config.webhookSecret config) (Main.rawBody req) = true
             /\ JSON_parse (Main.rawBody req) = Some json
             /\ Models.safeParse json = inl m
             /\ ~ In (WebhookMessage.message_id m) (ids (rows w))
             /\ rows w' = rows w ++ [row_of m (Main.now call)])
    /\ (serving w ->
        truthy_opt (Config.webhookSecret config) = true ->
        Security.isValidSignature (Main.x_signature req)
          (Config.webhookSecret config) (Main.rawBody req) = true ->
        forall json m,
          JSON_parse (Main.rawBody req) = Some json ->
          Models.safeParse json = inl m ->
          Main.status res = 200%Z
          /\ In (WebhookMessage.message_id m) (ids (rows w'))).
Proof.
  unfold Main.webhook, Main.webhook_steps.
  destruct (truthy_opt (Config.webhookSecret config)) eqn:Hs; cbn [negb].
  2:{ eexists; eexists; split; [reflexivity|]. rewrite finalize_rows. cbn.
      repeat split; try tauto; try discriminate; try congruence.
      intros [? _]; discriminate. }
  destruct (Security.isValidSignature _ _ _) eqn:Hv; cbn [negb].
  2:{ eexists; eexists; split; [reflexivity|]. rewrite finalize_rows. cbn.
      repeat split; try tauto; try discriminate; try congruence. }
  destruct (JSON_parse (Main.rawBody req)) as [bodyJson|] eqn:Hj.
  2:{ eexists; eexists; split; [reflexivity|]. rewrite finalize_rows. cbn.
      repeat split; try tauto; try discriminate; try congruence.
      intros [_ ?]; discriminate. }
  destruct (Models.safeParse bodyJson) as [msg|issues] eqn:Hp.
  2:{ eexists; eexists; split; [reflexivity|]. rewrite finalize_rows. cbn.
      repeat split; try tauto; try discriminate; try congruence.
      intros [_ ?]; discriminate. }
  destruct (insertMessage msg (Main.now call) w) as [[r|err] w1] eqn:E.
  - eexists; eexists; split; [reflexivity|]. rewrite finalize_rows.
    cbn [Main.status].
    split; [left; reflexivity|].
    split; [split; discriminate|].
    split; [split; [discriminate | intros [_ ?]; discriminate]|].
    split.
    + destruct (insertMessage_rows _ _ _ _ _ E) as [[Hr _]|[Hr [_ Hn]]].
      * left. exact Hr.
      * right. exists bodyJson, msg. repeat split; try assumption.
    + intros Hw _ _ json m Hj' Hp'. injection Hj' as <-.
      rewrite Hp in Hp'. injection Hp' as <-. split; [reflexivity|].
      destruct (insertMessage_serving msg (Main.now call) w Hw)
        as [r' [w1' [E' Hin]]].
      rewrite E in E'. injection E' as <- <-. exact Hin.
  - eexists; eexists; split; [reflexivity|]. rewrite finalize_rows.
    cbn [Main.status].
    split; [right; right; right; left; reflexivity|].
    split; [split; discriminate|].
    split; [split; [discriminate | intros [_ ?]; discriminate]|].
    split.
    + left. destruct (insertMessage_rows _ _ _ _ _ E) as [[Hr _]|[_ [Hr _]]];
        [exact Hr | discriminate].
    + intros Hw _ _ json m Hj' Hp'. injection Hj' as <-.
      rewrite Hp in Hp'. injection Hp' as <-.
      destruct (insertMessage_serving msg (Main.now call) w Hw)
        as [r' [w1' [E' Hin]]].
      rewrite E in E'. discriminate.
Qed.

(** ** The configuration *)

Lemma truthy_length (s : string) : truthy s = (0 <? String.length s)%nat.
Proof. destruct s; reflexivity. Qed.

Lemma logRequest_console (level : LogLevel) (request_id method path : string)
  (status : Z) (latency_ms : number) (extras : option WebhookLogExtras)
  (w : World) :
  level <> ERROR ->
  console (snd (Logging.logRequest level request_id method path status
                  latency_ms extras w))
  = console w
    ++ [request_line INFO request_id method path status latency_ms extras].
Proof.
  intros H. unfold Logging.logRequest, Logging.logJSON.
  destruct level; [reflexivity | reflexivity | contradiction].
Qed.

(** X14. [loadConfig] never yields an empty secret: the secret is null
    exactly when WEBHOOK_SECRET is unset or blank, and the trimmed value
    otherwise. The log level is DEBUG or INFO, INFO when LOG_LEVEL is unset,
    and the database URL defaults to [sqlite:////data/app.db], which
    [sqlitePathFromUrl] turns into [/data/app.db]. Under a configuration
    loaded without a secret POST /webhook answers 503 and stores nothing;
    under any loaded configuration the request line of a request is
    written, since the level is never above INFO. *)
Theorem loadConfig_cases (env : Config.Env) :
  Config.webhookSecret (Config.loadConfig env) <> Some EmptyString
  /\ (Config.webhookSecret (Config.loadConfig env) = None
      <-> env "WEBHOOK_SECRET" = None
          \/ exists v, env "WEBHOOK_SECRET" = Some v
                       /\ Config.trim v = EmptyString)
  /\ (forall s, Config.webhookSecret (Config.loadConfig env) = Some s ->
                exists v, env "WEBHOOK_SECRET" = Some v /\ s = Config.trim v)
  /\ Config.logLevel (Config.loadConfig env) <> ERROR
  /\ (env "LOG_LEVEL" = None -> Config.logLevel (Config.loadConfig env) = INFO)
  /\ (env "DATABASE_URL" = None ->
      Config.databaseUrl (Config.loadConfig env) = "sqlite:////data/app.db"
      /\ sqlitePathFromUrl (Config.databaseUrl (Config.loadConfig env))
         = "/data/app.db")
  /\ (forall JSON_parse req call w,
        Config.webhookSecret (Config.loadConfig env) = None ->
        fst (Main.webhook (Config.loadConfig env) JSON_parse req call w)
        = Return (Main.mkResponse 503 (Main.detail "service not ready"))
        /\ rows (snd (Main.webhook (Config.loadConfig env) JSON_parse req call w))
           = rows w)
  /\ (forall path call w,
        console (snd (Main.not_found (Config.loadConfig env) path call w))
        = console w
          ++ [request_line INFO (Main.requestId call) (Main.method call) path
                404 (Main.Math_round (Main.latency call)) None]).
Proof.
  unfold Config.loadConfig.
  cbn [Config.webhookSecret Config.logLevel Config.databaseUrl].
  split; [|split; [|split; [|split; [|split; [|split; [|split]]]]]].
  - destruct (env "WEBHOOK_SECRET") as [v|]; cbn [option_map]; [|discriminate].
    destruct (Config.trim v) as [|c s]; cbn; discriminate.
  - destruct (env "WEBHOOK_SECRET") as [v|]; cbn [option_map].
    + destruct (Config.trim v) as [|c s] eqn:E; cbn.
      * split; [|reflexivity]. intros _. right. exists v. split; [reflexivity | exact E].
      * split; [discriminate|].
        intros [H|[v' [H1 H2]]]; [discriminate|].
        injection H1 as <-. rewrite E in H2. discriminate.
    + split; [intros _; left; reflexivity | reflexivity].
  - intros s. destruct (env "WEBHOOK_SECRET") as [v|]; cbn [option_map];
      [|discriminate].
    destruct (Config.trim v) as [|c t] eqn:E; cbn; [discriminate|].
    intros H. injection H as <-. exists v. split; [reflexivity | symmetry; exact E].
  - destruct (String.eqb _ "DEBUG"); discriminate.
  - intros ->. reflexivity.
  - intros ->. split; vm_compute; reflexivity.
  - intros JSON_parse req call w H.
    unfold Main.webhook, Main.webhook_steps.
    cbn [Config.webhookSecret]. rewrite H. cbn [truthy_opt negb].
    split; [reflexivity|]. apply finalize_rows.
  - intros path call w. unfold Main.not_found, Main.finalize. cbn [snd].
    rewrite logRequest_console; [reflexivity|].
    cbn [Config.logLevel]. destruct (String.eqb _ "DEBUG"); discriminate.
Qed.

Example loadConfig_forms :
  Config.loadConfig (fun _ => None)
  = Config.mkAppConfig "sqlite:////data/app.db" None INFO
  /\ Config.loadConfig (env_with "WEBHOOK_SECRET" "   ")
     = Config.mkAppConfig "sqlite:////data/app.db" None INFO
  /\ Config.loadConfig (env_with "WEBHOOK_SECRET" " testsecret ")
     = Config.mkAppConfig "sqlite:////data/app.db" (Some "testsecret") INFO
  /\ Config.loadConfig (env_with "LOG_LEVEL" "debug")
     = Config.mkAppConfig "sqlite:////data/app.db" None DEBUG
  /\ Config.loadConfig (env_with "LOG_LEVEL" "error")
     = Config.mkAppConfig "sqlite:////data/app.db" None INFO.
Proof. vm_compute. repeat split; reflexivity. Qed.

(** ** The [since] parameter *)

Lemma shape_length (pat : list (option ascii)) (s : string) :
  Models.shape pat s = true -> String.length s = List.length pat.
Proof.
  revert s. induction pat as [|[k|] pat IH]; intros [|c s]; cbn;
    try discriminate; try reflexivity;
    intros H; apply andb_true_iff in H; destruct H as [_ H];
    rewrite (IH _ H); reflexivity.
Qed.

(** X15. GET /messages is refused with 422 "invalid since" exactly when
    limit and offset pass their check and [since] is given, not empty and
    not of the form dddd-dd-ddTdd:dd:ddZ; the limit and offset error takes
    precedence. A [since] that reaches [listMessages] non-empty has that
    form and 20 characters. Only the form is checked: a time zone offset is
    refused, month 13 is not. *)
Theorem since_validation (url : Main.SearchParams) :
  (Main.parseMessagesQuery url = inr Main.since_error
   <-> limit_in_range (requested url "limit" 50)
       /\ offset_in_range (requested url "offset" 0)
       /\ exists s, Main.get url "since" = Some s
                    /\ truthy s = true /\ Models.iso_utc_re s = false)
  /\ (forall f s,
        Main.parseMessagesQuery url = inl f ->
        MessageFilters.since f = Some s -> truthy s = true ->
        Main.get url "since" = Some s
        /\ Models.iso_utc_re s = true /\ String.length s = 20)
  /\ Main.since_error = Main.mkResponse 422 (Main.detail "invalid since")
  /\ Main.parseMessagesQuery [("limit", "0"); ("since", "yesterday")]
     = inr Main.limit_offset_error
  /\ Main.parseMessagesQuery [("since", "2025-01-15T10:00:00+00:00")]
     = inr Main.since_error
  /\ Main.parseMessagesQuery [("since", "2025-13-45T99:99:99Z")]
     = inl (MessageFilters.mk (of_Z 50) (of_Z 0) None
              (Some "2025-13-45T99:99:99Z") None).
Proof.
  split; [|split; [|repeat split; vm_compute; reflexivity]].
  - rewrite parseMessagesQuery_requested.
    destruct (isNaN (requested url "limit" 50)
              || ltb (requested url "limit" 50) (of_Z 1)
              || gtb (requested url "limit" 50) (of_Z 100)
              || isNaN (requested url "offset" 0)
              || ltb (requested url "offset" 0) (of_Z 0)) eqn:E.
    + split; [discriminate|]. intros [Hl [Ho _]].
      assert (H : limit_in_range (requested url "limit" 50)
                  /\ offset_in_range (requested url "offset" 0))
        by (split; assumption).
      apply reject_check in H. congruence.
    + apply reject_check in E. destruct E as [Hl Ho].
      destruct (Main.get url "since") as [s|].
      * destruct (truthy s) eqn:Ht; cbn [andb].
        -- destruct (Models.iso_utc_re s) eqn:Hr; cbn [negb].
           ++ split; [discriminate|].
              intros [_ [_ [s' [Hs [_ Hr']]]]]. injection Hs as <-. congruence.
           ++ split; [|reflexivity]. intros _.
              split; [exact Hl|]. split; [exact Ho|].
              exists s. repeat split; assumption.
        -- split; [discriminate|].
           intros [_ [_ [s' [Hs [Ht' _]]]]]. injection Hs as <-. congruence.
      * split; [discriminate|].
        intros [_ [_ [s' [Hs _]]]]. discriminate.
  - intros f s. rewrite parseMessagesQuery_requested.
    destruct (_ || _); [discriminate|].
    destruct (Main.get url "since") as [s0|].
    + destruct (truthy s0) eqn:Ht; cbn [andb].
      * destruct (Models.iso_utc_re s0) eqn:Hr; cbn [negb]; [|discriminate].
        intros H. injection H as <-. cbn. intros Hs _. injection Hs as <-.
        repeat split; [exact Hr|]. apply (shape_length _ _ Hr).
      * intros H. injection H as <-. cbn. intros Hs Ht'. injection Hs as <-.
        congruence.
    + intros H. injection H as <-. discriminate.
Qed.

(** ** The shape of a signature *)

Lemma hex_digit_lower (x : Z) :
  (0 <= x < 16)%Z -> is_lower_hex (NodeCrypto.hex_digit x) = true.
Proof.
  intros H.
  assert (E : (x = 0 \/ x = 1 \/ x = 2 \/ x = 3 \/ x = 4 \/ x = 5 \/ x = 6
               \/ x = 7 \/ x = 8 \/ x = 9 \/ x = 10 \/ x = 11 \/ x = 12
               \/ x = 13 \/ x = 14 \/ x = 15)%Z) by lia.
  repeat (destruct E as [->|E]; [reflexivity|]). subst x. reflexivity.
Qed.

Lemma hex_shape (bytes : list Z) :
  Forall is_byte bytes ->
  String.length (NodeCrypto.hex bytes) = 2 * List.length bytes
  /\ all_lower_hex (NodeCrypto.hex bytes) = true.
Proof.
  induction 1 as [|b rest Hb _ [IH1 IH2]]; [split; reflexivity|].
  cbn [NodeCrypto.hex String.length all_lower_hex List.length].
  split; [rewrite IH1; lia|].
  rewrite IH2, !hex_digit_lower; [reflexivity | idtac | idtac].
  - change 15%Z with (Z.ones 4). rewrite Z.land_ones by lia.
    apply Z.mod_pos_bound. reflexivity.
  - rewrite Z.shiftr_div_pow2 by lia. unfold is_byte in Hb.
    change (2 ^ 4)%Z with 16%Z. split.
    + apply Z.div_pos; lia.
    + apply Z.div_lt_upper_bound; lia.
Qed.

Lemma land_255_byte (x : Z) : is_byte (Z.land x 255).
Proof.
  unfold is_byte. change 255%Z with (Z.ones 8). rewrite Z.land_ones by lia.
  apply Z.mod_pos_bound. reflexivity.
Qed.

Lemma sha256_bytes (msg : list Z) :
  List.length (NodeCrypto.sha256 msg) = 32
  /\ Forall is_byte (NodeCrypto.sha256 msg).
Proof.
  unfold NodeCrypto.sha256.
  generalize (NodeCrypto.blocks
                (List.length
                   (NodeCrypto.words (List.length (NodeCrypto.pad msg))
                      (NodeCrypto.pad msg)))
                NodeCrypto.H0
                (NodeCrypto.words (List.length (NodeCrypto.pad msg))
                   (NodeCrypto.pad msg))).
  intros h. unfold NodeCrypto.digest_words.
  cbn [map List.concat NodeCrypto.be_bytes app].
  split; [reflexivity|].
  repeat (apply Forall_cons; [apply land_255_byte|]). apply Forall_nil.
Qed.

Lemma computeHmac_shape (secret body : string) :
  String.length (Security.computeHmac secret body) = 64
  /\ all_lower_hex (Security.computeHmac secret body) = true.
Proof.
  unfold Security.computeHmac, NodeCrypto.createHmac_sha256_hex,
    NodeCrypto.hmac_sha256.
  match goal with
  | |- context [NodeCrypto.hex (NodeCrypto.sha256 ?m)] =>
      destruct (sha256_bytes m) as [Hl Hb];
      destruct (hex_shape _ Hb) as [H1 H2]; rewrite Hl in H1
  end.
  split; [exact H1 | exact H2].
Qed.

(** X16. [computeHmac] returns 64 characters, all of them lower-case
    hexadecimal digits. A signature computed with a non-empty secret
    verifies under that secret, and only a string of that shape can verify:
    the digest written in upper case is refused. *)
Theorem signature_is_64_lower_hex (secret body : string) :
  String.length (Security.computeHmac secret body) = 64
  /\ all_lower_hex (Security.computeHmac secret body) = true
  /\ (truthy secret = true ->
      Security.isValidSignature (Some (Security.computeHmac secret body))
        (Some secret) body = true)
  /\ (forall provided,
        Security.isValidSignature provided (Some secret) body = true ->
        exists p, provided = Some p
                  /\ String.length p = 64 /\ all_lower_hex p = true).
Proof.
  destruct (computeHmac_shape secret body) as [Hl Hh].
  split; [exact Hl|]. split; [exact Hh|]. split.
  - intros Hs. unfold Security.isValidSignature. rewrite Hs.
    destruct (Security.computeHmac secret body) as [|c s] eqn:E;
      [discriminate Hl|].
    cbn [truthy negb orb]. apply timingSafeEqualHex_true. reflexivity.
  - intros provided. unfold Security.isValidSignature.
    destruct provided as [p|]; [|discriminate].
    destruct (negb (truthy secret) || negb (truthy p)); [discriminate|].
    intros H. apply timingSafeEqualHex_true in H. subst p.
    exists (Security.computeHmac secret body). repeat split; assumption.
Qed.

Example uppercase_signature_is_refused :
  Security.isValidSignature
    (Some "9946dad4e00e913fc8be8e5d3f7e110a4a9e832f83fb09c345285d78638d8a0e")
    (Some "secret") "abc" = true
  /\ Security.isValidSignature
       (Some "9946DAD4E00E913FC8BE8E5D3F7E110A4A9E832F83FB09C345285D78638D8A0E")
       (Some "secret") "abc" = false.
Proof. vm_compute. split; reflexivity. Qed.

(** ** The schema of the webhook body *)

Lemma string_field_inl (path : string) (v : option Json.value)
  (check : string -> bool) (bad : Models.issue) (s : string) :
  Models.string_field path v check bad = inl s
  <-> v = Some (Json.Str s) /\ check s = true.
Proof.
  unfold Models.string_field.
  destruct v as [[| | |s0| |]|]; try (split; [discriminate | intros [? _]; discriminate]).
  destruct (check s0) eqn:E.
  - split; [intros H; injection H as <-; split; [reflexivity | exact E]
           | intros [H _]; injection H as <-; reflexivity].
  - split; [discriminate | intros [H H']; injection H as <-; congruence].
Qed.

Lemma string_field_issues (path : string) (v : option Json.value)
  (check : string -> bool) (bad : Models.issue) (l : list Models.issue) :
  Models.string_field path v check bad = inr l -> l <> [].
Proof.
  unfold Models.string_field.
  destruct v as [[| | |s0| |]|]; try (intros H; injection H as <-; discriminate).
  destruct (check s0); [discriminate | intros H; injection H as <-; discriminate].
Qed.

(** X17. [safeParse] accepts a value as the message [m] exactly when the
    value is an object whose [message_id], [from], [to] and [ts] are the
    strings of [m], the first not empty, the next two a plus sign followed
    by digits, the last of the form dddd-dd-ddTdd:dd:ddZ, and whose [text]
    is missing, or a string of at most 4096 UTF-16 units; unknown members
    are ignored. A value that is refused always comes with an issue. *)
Theorem safeParse_accepts_valid_bodies (bodyJson : Json.value) :
  (forall m,
      Models.safeParse bodyJson = inl m
      <-> exists fields,
            bodyJson = Json.Obj fields
            /\ Json.property fields "message_id"
               = Some (Json.Str (WebhookMessage.message_id m))
            /\ 1 <= Models.utf16_length (WebhookMessage.message_id m)
            /\ Json.property fields "from" = Some (Json.Str (WebhookMessage.from m))
            /\ Models.phone_re (WebhookMessage.from m) = true
            /\ Json.property fields "to" = Some (Json.Str (WebhookMessage.to m))
            /\ Models.phone_re (WebhookMessage.to m) = true
            /\ Json.property fields "ts" = Some (Json.Str (WebhookMessage.ts m))
            /\ Models.iso_utc_re (WebhookMessage.ts m) = true
            /\ text_member fields (WebhookMessage.text m))
  /\ (forall issues, Models.safeParse bodyJson = inr issues -> issues <> []).
Proof.
  destruct bodyJson as [| | | | |fields];
    try (split;
         [intros m; split; [discriminate | intros [f [H _]]; discriminate]
         | intros issues H; injection H as <-; discriminate]).
  unfold Models.safeParse.
  destruct (Models.string_field "message_id" _ _ _) as [i|li] eqn:Ei.
  2:{ split.
      - intros m. split; [discriminate|].
        intros [f [H [H1 [H2 _]]]]. injection H as <-.
        assert (E : Models.string_field "message_id"
                      (Json.property fields "message_id")
                      (fun s => (1 <=? Models.utf16_length s)%nat)
                      (Models.too_small ["message_id"] "message_id required")
                    = inl (WebhookMessage.message_id m)).
        { apply string_field_inl. split; [exact H1 | apply Nat.leb_le, H2]. }
        congruence.
      - intros issues H. injection H as <-. apply string_field_issues in Ei.
        cbn [Models.issues_of]. destruct li; [contradiction | discriminate]. }
  destruct (Models.string_field "from" _ _ _) as [f|lf] eqn:Ef.
  2:{ split.
      - intros m. split; [discriminate|].
        intros [fs [H [_ [_ [H1 [H2 _]]]]]]. injection H as <-.
        assert (E : Models.string_field "from" (Json.property fields "from")
                      Models.phone_re
                      (Models.invalid_string ["from"]
                         "must start with + followed by digits")
                    = inl (WebhookMessage.from m))
          by (apply string_field_inl; split; assumption).
        congruence.
      - intros issues H. injection H as <-. apply string_field_issues in Ef.
        cbn [Models.issues_of app]. destruct lf; [contradiction | discriminate]. }
  destruct (Models.string_field "to" _ _ _) as [t|lt] eqn:Et.
  2:{ split.
      - intros m. split; [discriminate|].
        intros [fs [H [_ [_ [_ [_ [H1 [H2 _]]]]]]]]. injection H as <-.
        assert (E : Models.string_field "to" (Json.property fields "to")
                      Models.phone_re
                      (Models.invalid_string ["to"]
                         "must start with + followed by digits")
                    = inl (WebhookMessage.to m))
          by (apply string_field_inl; split; assumption).
        congruence.
      - intros issues H. injection H as <-. apply string_field_issues in Et.
        cbn [Models.issues_of app]. destruct lt; [contradiction | discriminate]. }
  destruct (Models.string_field "ts" _ _ _) as [s|ls] eqn:Es.
  2:{ split.
      - intros m. split; [discriminate|].
        intros [fs [H [_ [_ [_ [_ [_ [_ [H1 [H2 _]]]]]]]]]]. injection H as <-.
        assert (E : Models.string_field "ts" (Json.property fields "ts")
                      Models.iso_utc_re
                      (Models.invalid_string ["ts"] "ts must be ISO-8601 with Z")
                    = inl (WebhookMessage.ts m))
          by (apply string_field_inl; split; assumption).
        congruence.
      - intros issues H. injection H as <-. apply string_field_issues in Es.
        cbn [Models.issues_of app]. destruct ls; [contradiction | discriminate]. }
  apply string_field_inl in Ei, Ef, Et, Es.
  destruct Ei as [Ei Ci], Ef as [Ef Cf], Et as [Et Ct], Es as [Es Cs].
  apply Nat.leb_le in Ci.
  unfold text_member.
  destruct (Json.property fields "text") as [[| | |x| |]|] eqn:Ex;
    try (split;
         [intros m; split; [discriminate|];
          intros [fs [H [_ [_ [_ [_ [_ [_ [_ [_ [[H1 _]|[x' [H1 _]]]]]]]]]]]]];
          injection H as <-; rewrite Ex in H1; discriminate
         | intros issues H; injection H as <-; discriminate]).
  - destruct (Nat.leb_spec (Models.utf16_length x) 4096) as [Hx|Hx].
    + split; [|discriminate]. intros m. split.
      * intros H. injection H as <-. exists fields. cbn.
        repeat split; try assumption.
        right. exists x. split; [exact Ex | split; [reflexivity | exact Hx]].
      * intros [fs [H [H1 [_ [H2 [_ [H3 [_ [H4 [_ H5]]]]]]]]]].
        injection H as <-. destruct m as [mi mf mt ms mx].
      cbn [WebhookMessage.message_id WebhookMessage.from WebhookMessage.to
             WebhookMessage.ts WebhookMessage.text] in *.
        rewrite Ei in H1. rewrite Ef in H2. rewrite Et in H3. rewrite Es in H4.
        injection H1 as <-. injection H2 as <-. injection H3 as <-.
        injection H4 as <-.
        destruct H5 as [[H5 _]|[x' [H5 [-> _]]]]; rewrite Ex in H5;
          [discriminate|].
        injection H5 as <-. reflexivity.
    + split; [|intros issues H; injection H as <-; discriminate].
      intros m. split; [discriminate|].
      intros [fs [H [_ [_ [_ [_ [_ [_ [_ [_ [[H1 _]|[x' [H1 [_ H2]]]]]]]]]]]]]].
      * injection H as <-. rewrite Ex in H1. discriminate.
      * injection H as <-. rewrite Ex in H1. injection H1 as <-. lia.
  - split; [|discriminate]. intros m. split.
    + intros H. injection H as <-. exists fields. cbn.
      repeat split; try assumption. left. split; [exact Ex | reflexivity].
    + intros [fs [H [H1 [_ [H2 [_ [H3 [_ [H4 [_ H5]]]]]]]]]].
      injection H as <-. destruct m as [mi mf mt ms mx].
      cbn [WebhookMessage.message_id WebhookMessage.from WebhookMessage.to
             WebhookMessage.ts WebhookMessage.text] in *.
      rewrite Ei in H1. rewrite Ef in H2. rewrite Et in H3. rewrite Es in H4.
      injection H1 as <-. injection H2 as <-. injection H3 as <-.
      injection H4 as <-.
      destruct H5 as [[_ ->]|[x' [H5 _]]];
        [reflexivity | rewrite Ex in H5; discriminate].
Qed.
